(** * Kudu client: table opening, write sessions and scanners

    A shallow embedding of [src/kudu/client/table-internal.cc] (the
    [KuduTable::Data::Open] retry loop) and of the client behaviour that
    [src/client/client-test.cc] exercises (write sessions, the error
    collector, scanners and the tablet server's scanner registry).

    The loop of [Open] talks to the outside world (the clock, the master
    proxy, leader rediscovery, [usleep]); those are the fields of an
    environment record over an abstract world type, and the loop is written
    in a small state monad with early exit, one statement of the monad per
    statement of the source. *)

From Stdlib Require Import ZArith String List Lia DecimalString.
From stdpp Require Import base option list gmap strings.
Import ListNotations.
Local Open Scope Z_scope.

(** ** Status (kudu/util/status.h) *)

Module Status.

(** Modelled from the spec: [util/status.h] is not among the sources.  The
    codes are those of the error taxonomy (spec section 7) and of the
    predicates the sources call ([IsNetworkError], [IsTimedOut],
    [IsIOError], [IsAlreadyPresent], [IsInvalidArgument]); the aggregate
    "some errors occurred" status of [Flush] is an [IOError], as
    [DoTestWriteWithDeadServer] asserts. *)
Inductive Code : Set :=
| kOk | kNotFound | kInvalidArgument | kIOError | kAlreadyPresent
| kNetworkError | kIllegalState | kTimedOut.

Record t : Set := mk { code : Code; message : string }.

Definition OK : t := mk kOk "".
Definition NotFound (m : string) : t := mk kNotFound m.
Definition InvalidArgument (m : string) : t := mk kInvalidArgument m.
Definition IOError (m : string) : t := mk kIOError m.
Definition AlreadyPresent (m : string) : t := mk kAlreadyPresent m.
Definition NetworkError (m : string) : t := mk kNetworkError m.
Definition TimedOut (m : string) : t := mk kTimedOut m.
(** [Status::IllegalState(msg, msg2)]: the two parts are joined by ": ". *)
Definition IllegalState (m m2 : string) : t := mk kIllegalState (m +:+ ": " +:+ m2).

Definition code_eqb (a b : Code) : bool :=
  match a, b with
  | kOk, kOk | kNotFound, kNotFound | kInvalidArgument, kInvalidArgument
  | kIOError, kIOError | kAlreadyPresent, kAlreadyPresent
  | kNetworkError, kNetworkError | kIllegalState, kIllegalState
  | kTimedOut, kTimedOut => true
  | _, _ => false
  end.

Definition ok (s : t) : bool := code_eqb (code s) kOk.
Definition IsNetworkError (s : t) : bool := code_eqb (code s) kNetworkError.
Definition IsTimedOut (s : t) : bool := code_eqb (code s) kTimedOut.
Definition IsIOError (s : t) : bool := code_eqb (code s) kIOError.
Definition IsAlreadyPresent (s : t) : bool := code_eqb (code s) kAlreadyPresent.
Definition IsIllegalState (s : t) : bool := code_eqb (code s) kIllegalState.
Definition IsInvalidArgument (s : t) : bool := code_eqb (code s) kInvalidArgument.

Definition CodeAsString (c : Code) : string :=
  match c with
  | kOk => "OK"
  | kNotFound => "Not found"
  | kInvalidArgument => "Invalid argument"
  | kIOError => "IO error"
  | kAlreadyPresent => "Already present"
  | kNetworkError => "Network error"
  | kIllegalState => "Illegal state"
  | kTimedOut => "Timed out"
  end.

Definition ToString (s : t) : string :=
  match code s with
  | kOk => "OK"
  | c => CodeAsString c +:+ ": " +:+ message s
  end.

End Status.

(** ** Monotonic time (kudu/util/monotime.h) *)

Module MonoTime.

(** Modelled from the spec: [util/monotime.h] is not among the sources.
    A point in time and a duration are both a count of nanoseconds.  How
    [MonoTime::ComesBefore] answers is not fixed here: it is one of the
    collaborators of [Open] (see [TableInternal.ClientEnv]). *)
Definition t := Z.
Definition MonoDelta := Z.

Definition FromMilliseconds (ms : Z) : MonoDelta := ms * 1000000.
Definition ToMilliseconds (d : MonoDelta) : Z := Z.quot d 1000000.
Definition AddDelta (a : t) (d : MonoDelta) : t := a + d.
Definition GetDeltaSince (a b : t) : MonoDelta := a - b.

End MonoTime.

(** Decimal rendering of an integer, as [strings::Substitute] and
    [StringPrintf("%d")] do. *)
Definition itoa (z : Z) : string := NilZero.string_of_int (Z.to_int z).

(** ** The master's GetTableLocations messages (kudu/master/master.proto) *)

Module Master.

(** Modelled from the spec: the error codes of the master's response
    (spec section 6: NOT_THE_LEADER, CATALOG_MANAGER_NOT_INITIALIZED, or
    any other). *)
Inductive MasterErrorPB_Code : Set :=
| NOT_THE_LEADER
| CATALOG_MANAGER_NOT_INITIALIZED
| OTHER_MASTER_ERROR.

(** [AppStatusPB] carries a status over the wire; the wire encoding is
    not modelled, so it is the status itself. *)
Definition AppStatusPB := Status.t.
Definition StatusFromPB (pb : AppStatusPB) : Status.t := pb.

Record MasterErrorPB : Set := { error_code : MasterErrorPB_Code; error_status : AppStatusPB }.

(** Spec section 3, TabletLocation: tablet identifier, key range, replica
    list with a leader hint. *)
Record TabletLocationsPB : Set := {
  tablet_id : string;
  start_key : string;
  end_key : string;
  replicas : list string;
  leader_hint : option nat
}.

Record GetTableLocationsRequestPB : Set := { table_name : string }.

Record GetTableLocationsResponsePB : Set := {
  error : option MasterErrorPB;
  tablet_locations : list TabletLocationsPB
}.

Definition has_error (r : GetTableLocationsResponsePB) : bool :=
  match error r with Some _ => true | None => false end.
Definition tablet_locations_size (r : GetTableLocationsResponsePB) : Z :=
  Z.of_nat (length (tablet_locations r)).

(** A default-constructed response. *)
Definition empty_response : GetTableLocationsResponsePB :=
  {| error := None; tablet_locations := [] |}.

End Master.

(** ** KuduTable::Data::Open (kudu/client/table-internal.cc) *)

Module TableInternal.
Import Master.

(** What [Open] reads from [client_->data_] and [client_]. *)
Record ClientConfig : Set := {
  default_select_master_timeout_ : MonoTime.MonoDelta;
  default_admin_operation_timeout : MonoTime.MonoDelta
}.

(** The collaborators of [Open], over a world [W]: the clock
    ([MonoTime::Now]) and the comparison of two points in time
    ([MonoTime::ComesBefore], whose answer for two equal times is the
    header's business and is left open), the synchronous master proxy
    call (given the request, the RPC timeout and the response object as it
    stands, it leaves a status and the response object as the call left
    it), leader rediscovery ([KuduClient::Data::SetMasterServerProxy]) and
    [usleep]. *)
Record ClientEnv (W : Type) : Type := {
  Now : W -> MonoTime.t * W;
  ComesBefore : MonoTime.t -> MonoTime.t -> bool;
  GetTableLocations :
    GetTableLocationsRequestPB -> MonoTime.MonoDelta ->
    GetTableLocationsResponsePB -> W -> (Status.t * GetTableLocationsResponsePB) * W;
  SetMasterServerProxy : W -> Status.t * W;
  usleep : Z -> W -> W
}.
Arguments Now {W}.
Arguments ComesBefore {W}.
Arguments GetTableLocations {W}.
Arguments SetMasterServerProxy {W}.
Arguments usleep {W}.

(** How one pass through the body of [while (true)] ends. *)
Inductive Ctl : Set :=
| Continue
| Break
| Return (s : Status.t).

Section Open.
Context {W : Type}.
Variable env : ClientEnv W.
Variable cfg : ClientConfig.
Variable name_ : string.

(** The locals of [Open] that live across iterations, and the world. *)
Record Frame : Type := { resp : GetTableLocationsResponsePB; world : W }.

(** State over [Frame] with early exit: [inl c] leaves the loop body. *)
Definition L (A : Type) : Type := Frame -> (Ctl + A) * Frame.

#[local] Instance L_ret : MRet L := fun A a st => (inr a, st).
#[local] Instance L_bind : MBind L := fun A B k c st =>
  match c st with
  | (inl e, st') => (inl e, st')
  | (inr a, st') => k a st'
  end.
Definition ret {A} (a : A) : L A := mret a.
Definition exit {A} (c : Ctl) : L A := fun st => (inl c, st).
Definition when (b : bool) (c : L unit) : L unit := if b then c else ret tt.

Definition MonoTime_Now : L MonoTime.t :=
  fun st => let '(t, w) := Now env (world st) in
            (inr t, {| resp := resp st; world := w |}).

Definition req : GetTableLocationsRequestPB := {| table_name := name_ |}.

(** [rpc.set_timeout(...); s = master_proxy_->GetTableLocations(req, &resp, &rpc)] *)
Definition master_proxy_GetTableLocations : L Status.t :=
  fun st =>
    let '((s, r), w) :=
      GetTableLocations env req (default_admin_operation_timeout cfg) (resp st) (world st) in
    (inr s, {| resp := r; world := w |}).

Definition data_SetMasterServerProxy : L Status.t :=
  fun st => let '(s, w) := SetMasterServerProxy env (world st) in
            (inr s, {| resp := resp st; world := w |}).

Definition do_usleep (us : Z) : L unit :=
  fun st => (inr tt, {| resp := resp st; world := usleep env us (world st) |}).

Definition get_resp : L GetTableLocationsResponsePB := fun st => (inr (resp st), st).

Definition timeout_millis : Z :=
  MonoTime.ToMilliseconds (default_select_master_timeout_ cfg).

(** [strings::Substitute("Timed out ... after $0 ms.", timeout_millis)] *)
Definition timed_out_message : string :=
  "Timed out waiting for non-empty GetTableLocations reply from a leader master after "
    +:+ itoa timeout_millis +:+ " ms.".

(** [s = SetMasterServerProxy(...); if (s.ok()) continue;] *)
Definition rediscover_leader : L Status.t :=
  s ← data_SetMasterServerProxy;
  if Status.ok s then exit Continue else ret s.

Definition is_leader_change (c : MasterErrorPB_Code) : bool :=
  match c with
  | NOT_THE_LEADER | CATALOG_MANAGER_NOT_INITIALIZED => true
  | OTHER_MASTER_ERROR => false
  end.

(** An outcome of the master call that is an error and is none of the
    three the loop rediscovers the leader for: a failed call that is
    neither a network error nor a timeout, or an answered call whose
    response carries an error of another code. *)
Definition other_error (s : Status.t) (r : GetTableLocationsResponsePB) : bool :=
  if Status.ok s then
    match error r with
    | Some e => negb (is_leader_change (error_code e))
                && negb (Status.ok (StatusFromPB (error_status e)))
    | None => false
    end
  else negb (Status.IsNetworkError s) && negb (Status.IsTimedOut s).

(** The body of the [while (true)] loop, lines 49-108.  The [LOG] lines
    have no effect on the result and are left out. *)
Definition Open_body (deadline : MonoTime.t) : L unit :=
  now ← MonoTime_Now;
  when (ComesBefore env deadline now)
       (exit (Return (Status.TimedOut timed_out_message)));;
  s ← master_proxy_GetTableLocations;
  s ← (if negb (Status.ok s) then
         (s ← (if Status.IsNetworkError s then rediscover_leader else ret s);
          if Status.IsTimedOut s then rediscover_leader else ret s)
       else ret s);
  r ← get_resp;
  s ← match error r with
      | Some e =>
          if Status.ok s then
            (s ← (if is_leader_change (error_code e) then rediscover_leader
                  else ret s);
             if Status.ok s then ret (StatusFromPB (error_status e)) else ret s)
          else ret s
      | None => ret s
      end;
  when (negb (Status.ok s)) (exit Continue);;
  when (0 <? tablet_locations_size r) (exit Break);;
  do_usleep 100000.

(** The loop, with [fuel] bounding the number of passes; [None] is
    "still looping".  After [break] the function returns
    [Status::OK()]. *)
Fixpoint Open_loop (fuel : nat) (deadline : MonoTime.t) (st : Frame)
  : option (Status.t * Frame) :=
  match fuel with
  | O => None
  | S n =>
      match Open_body deadline st with
      | (inl (Return s), st') => Some (s, st')
      | (inl Break, st') => Some (Status.OK, st')
      | (inl Continue, st') => Open_loop n deadline st'
      | (inr tt, st') => Open_loop n deadline st'
      end
  end.

(** Lines 38-44: the deadline is taken once, before the loop. *)
Definition Open (fuel : nat) (w : W) : option (Status.t * Frame) :=
  let '(t0, w) := Now env w in
  let deadline := MonoTime.AddDelta t0 (default_select_master_timeout_ cfg) in
  Open_loop fuel deadline {| resp := empty_response; world := w |}.

End Open.

Arguments resp {W}.
Arguments world {W}.

End TableInternal.

(** ** A scripted world for running [Open] on concrete inputs *)

Module Sim.
Import Master TableInternal.

(** One scripted master call: how long it takes, the status it leaves,
    and the response object it leaves ([None]: the response object is not
    touched). *)
Record Call : Set := {
  took : MonoTime.MonoDelta;
  outcome : Status.t;
  reply : option GetTableLocationsResponsePB
}.

(** The clock, the outcomes of the successive [GetTableLocations] calls
    and of the successive leader rediscoveries, and the client's
    tablet-location cache (spec section 2, TabletLocationCache: table name
    to tablet locations). *)
Record World : Type := {
  clock : MonoTime.t;
  master_calls : list Call;
  rediscoveries : list (MonoTime.MonoDelta * Status.t);
  location_cache : gmap string (list TabletLocationsPB)
}.

Definition refused : Status.t := Status.NetworkError "Connection refused".

(** Once a script is used up the master is unreachable: the call is
    refused after one millisecond. *)
Definition sim_GetTableLocations (_ : GetTableLocationsRequestPB) (_ : MonoTime.MonoDelta)
    (r : GetTableLocationsResponsePB) (w : World)
  : (Status.t * GetTableLocationsResponsePB) * World :=
  match master_calls w with
  | c :: cs =>
      ((outcome c, default r (reply c)),
       {| clock := MonoTime.AddDelta (clock w) (took c); master_calls := cs;
          rediscoveries := rediscoveries w; location_cache := location_cache w |})
  | [] =>
      ((refused, r),
       {| clock := MonoTime.AddDelta (clock w) (MonoTime.FromMilliseconds 1);
          master_calls := []; rediscoveries := rediscoveries w;
          location_cache := location_cache w |})
  end.

Definition sim_SetMasterServerProxy (w : World) : Status.t * World :=
  match rediscoveries w with
  | (d, s) :: ps =>
      (s, {| clock := MonoTime.AddDelta (clock w) d; master_calls := master_calls w;
             rediscoveries := ps; location_cache := location_cache w |})
  | [] =>
      (refused,
       {| clock := MonoTime.AddDelta (clock w) (MonoTime.FromMilliseconds 1);
          master_calls := master_calls w; rediscoveries := [];
          location_cache := location_cache w |})
  end.

Definition sim_usleep (us : Z) (w : World) : World :=
  {| clock := MonoTime.AddDelta (clock w) (us * 1000); master_calls := master_calls w;
     rediscoveries := rediscoveries w; location_cache := location_cache w |}.

(** The scripted collaborators, for a given comparison of times. *)
Definition env_with (before : MonoTime.t -> MonoTime.t -> bool) : ClientEnv World := {|
  Now := fun w => (clock w, w);
  ComesBefore := before;
  GetTableLocations := sim_GetTableLocations;
  SetMasterServerProxy := sim_SetMasterServerProxy;
  usleep := sim_usleep
|}.

(** The two readings of "the deadline comes before now": earlier or at
    the same time (spec section 4.1 words the check as "current time >=
    deadline"), or strictly earlier. *)
Definition not_later (a b : MonoTime.t) : bool := a <=? b.
Definition earlier (a b : MonoTime.t) : bool := a <? b.

(** The scripted runs below never enter the loop exactly on the
    deadline; they are the same under either reading. *)
Definition env : ClientEnv World := env_with not_later.

(** Five seconds to find the table, five seconds per master call. *)
Definition cfg : ClientConfig := {|
  default_select_master_timeout_ := MonoTime.FromMilliseconds 5000;
  default_admin_operation_timeout := MonoTime.FromMilliseconds 5000
|}.

Definition start (calls : list Call) (probes : list (MonoTime.MonoDelta * Status.t)) : World :=
  {| clock := 0; master_calls := calls; rediscoveries := probes; location_cache := ∅ |}.

Definition no_such_table : Status.t := Status.NotFound "No replicas for tablet fake-table".

(** The master answers "not found" after three seconds, each time. *)
Definition not_found_call : Call :=
  {| took := MonoTime.FromMilliseconds 3000; outcome := no_such_table; reply := None |}.

(** The master answers after three seconds, with a response that carries
    an error of another code than the two leader-change codes. *)
Definition refusal : GetTableLocationsResponsePB :=
  {| error := Some {| error_code := OTHER_MASTER_ERROR; error_status := no_such_table |};
     tablet_locations := [] |}.

Definition refusal_call : Call :=
  {| took := MonoTime.FromMilliseconds 3000; outcome := Status.OK; reply := Some refusal |}.

(** The master answers "not found" after nine seconds. *)
Definition slow_not_found_call : Call :=
  {| took := MonoTime.FromMilliseconds 9000; outcome := no_such_table; reply := None |}.

Definition one_tablet : TabletLocationsPB :=
  {| tablet_id := "fake-table"; start_key := ""; end_key := "";
     replicas := ["127.0.0.1:7050"]; leader_hint := Some 0%nat |}.

Definition located : GetTableLocationsResponsePB :=
  {| error := None; tablet_locations := [one_tablet] |}.

(** The master answers at once with one tablet. *)
Definition located_call : Call :=
  {| took := MonoTime.FromMilliseconds 2; outcome := Status.OK; reply := Some located |}.

Definition timed_out_5000 : Status.t :=
  Status.TimedOut
    "Timed out waiting for non-empty GetTableLocations reply from a leader master after 5000 ms.".

End Sim.

(** ** What a pass of [Open] can do, for the statements about the loop *)

Module OpenPasses.
Import Master TableInternal.

(** The response is good for [break] (line 103, reached with an OK
    status): it carries a tablet, and an error it carries is of no
    leader-change code and has an OK status. *)
Definition opens (r : GetTableLocationsResponsePB) : Prop :=
  0 < tablet_locations_size r /\
  match error r with
  | None => True
  | Some e => is_leader_change (error_code e) = false /\
              Status.ok (StatusFromPB (error_status e)) = true
  end.

(** The response is answered and good for neither [continue] nor
    [break]: no tablet yet. *)
Definition not_yet (r : GetTableLocationsResponsePB) : Prop :=
  tablet_locations r = [] /\
  match error r with
  | None => True
  | Some e => is_leader_change (error_code e) = false /\
              Status.ok (StatusFromPB (error_status e)) = true
  end.

(** Where a pass that called the master can leave the world: as the call
    left it, after one leader rediscovery, after two, or after the sleep. *)
Definition after_call {W} (env : ClientEnv W) (w2 w' : W) : Prop :=
  w' = w2 \/
  w' = (SetMasterServerProxy env w2).2 \/
  w' = (SetMasterServerProxy env (SetMasterServerProxy env w2).2).2 \/
  w' = usleep env 100000 w2.

(** A scripted world in which no master call takes less than [d] and no
    leader rediscovery takes negative time. *)
Definition steady (d : MonoTime.MonoDelta) (w : Sim.World) : Prop :=
  Forall (fun c => d <= Sim.took c) (Sim.master_calls w) /\
  Forall (fun p => 0 <= p.1) (Sim.rediscoveries w).

End OpenPasses.

(** ** Schemas and rows (common/schema.h, common/row.h) *)

Module Schema.

(** Modelled from the spec: the schema and row utilities are not among
    the sources (spec section 3, TableHandle: ordered column definitions
    and a primary-key prefix length).  The two column types are those of
    the test schema in [client-test.cc]. *)
Inductive DataType : Set := UINT32 | STRING.

Record ColumnSchema : Set := {
  col_name : string;
  col_type : DataType;
  is_nullable : bool
}.

Record t : Set := { columns : list ColumnSchema; num_key_columns : nat }.

Inductive Value : Set := UInt32 (v : Z) | Str (s : string).

#[export] Instance DataType_eq_dec : EqDecision DataType.
Proof. solve_decision. Defined.

#[export] Instance Value_eq_dec : EqDecision Value.
Proof. solve_decision. Defined.

#[export] Instance Value_countable : Countable Value.
Proof.
  refine (inj_countable'
            (fun v => match v with UInt32 z => inl z | Str s => inr s end)
            (fun x => match x with inl z => UInt32 z | inr s => Str s end) _).
  intros []; reflexivity.
Defined.

Definition type_name (d : DataType) : string :=
  match d with UINT32 => "uint32" | STRING => "string" end.

Definition value_type (v : Value) : DataType :=
  match v with UInt32 _ => UINT32 | Str _ => STRING end.

Definition value_to_string (v : Value) : string :=
  match v with UInt32 z => itoa z | Str s => s end.

(** Bytes a cell takes in a response. *)
Definition value_bytes (v : Value) : Z :=
  match v with UInt32 _ => 4 | Str s => Z.of_nat (String.length s) end.

(** Inclusive comparison of two values of one type, as a range predicate
    needs it; values of different types do not compare. *)
Definition value_leb (a b : Value) : bool :=
  match a, b with
  | UInt32 x, UInt32 y => x <=? y
  | Str x, Str y => String.leb x y
  | _, _ => false
  end.

Fixpoint find_column_from (i : nat) (name : string) (cols : list ColumnSchema) : option nat :=
  match cols with
  | [] => None
  | c :: cs => if String.eqb (col_name c) name then Some i
               else find_column_from (S i) name cs
  end.

Definition find_column (s : t) (name : string) : option nat :=
  find_column_from 0 name (columns s).

(** [Schema::CreateKeyProjection]: the key columns alone. *)
Definition CreateKeyProjection (s : t) : t :=
  {| columns := take (num_key_columns s) (columns s);
     num_key_columns := num_key_columns s |}.

(** The conversion of a C++ [int] to [uint32_t]. *)
Definition to_uint32 (z : Z) : Z := z mod 2 ^ 32.

(** A row: one cell per column of its schema, [None] for a cell that is
    not set (in a mutation) or is NULL (in a stored or returned row). *)
Definition Cells := list (option Value).

Definition row_bytes (r : Cells) : Z :=
  foldr (fun c acc => from_option value_bytes 0 c + acc) 0 r.

End Schema.

Module PartialRow.
Import Schema.

(** Modelled from the spec: the row of a mutation ([Insert::mutable_row]),
    a schema and the cells set so far. *)
Record t : Set := { schema : Schema.t; cells : Cells }.

Definition new (s : Schema.t) : t :=
  {| schema := s; cells := replicate (length (columns s)) None |}.

Definition set_cell (name : string) (v : Value) (r : t) : Status.t * t :=
  match find_column (schema r) name with
  | None => (Status.NotFound ("No such column: " +:+ name), r)
  | Some i =>
      match columns (schema r) !! i with
      | Some c =>
          if bool_decide (col_type c = value_type v) then
            (Status.OK, {| schema := schema r; cells := <[i := Some v]> (cells r) |})
          else (Status.InvalidArgument ("invalid type for column: " +:+ name), r)
      | None => (Status.NotFound ("No such column: " +:+ name), r)
      end
  end.

Definition SetUInt32 (name : string) (v : Z) (r : t) : Status.t * t :=
  set_cell name (UInt32 (to_uint32 v)) r.

Definition SetStringCopy (name : string) (v : string) (r : t) : Status.t * t :=
  set_cell name (Str v) r.

Definition key_cells (r : t) : Cells := take (num_key_columns (schema r)) (cells r).

(** [IsKeySet]: every key column has a value. *)
Definition IsKeySet (r : t) : bool :=
  forallb (fun c => bool_decide (is_Some c)) (key_cells r)
  && (length (key_cells r) =? num_key_columns (schema r))%nat.

(** The encoded primary key: the values of the key columns. *)
Definition key (r : t) : list Value := omap id (key_cells r).

Definition cell_to_string (c : ColumnSchema) (v : Value) : string :=
  type_name (col_type c) +:+ " " +:+ col_name c +:+ "=" +:+ value_to_string v.

(** The cells that are set, each as "type name=value". *)
Fixpoint set_cells_to_strings (cols : list ColumnSchema) (cs : Cells) : list string :=
  match cols, cs with
  | c :: cols', Some v :: cs' => cell_to_string c v :: set_cells_to_strings cols' cs'
  | _ :: cols', None :: cs' => set_cells_to_strings cols' cs'
  | _, _ => []
  end.

Definition ToString (r : t) : string :=
  String.concat ", " (set_cells_to_strings (columns (schema r)) (cells r)).

(** The names of the columns that are set. *)
Fixpoint set_column_names (cols : list ColumnSchema) (cs : Cells) : list string :=
  match cols, cs with
  | c :: cols', Some _ :: cs' => col_name c :: set_column_names cols' cs'
  | _ :: cols', None :: cs' => set_column_names cols' cs'
  | _, _ => []
  end.

End PartialRow.

(** ** A tablet and its row operations (tablet/tablet.h) *)

Module Tablet.
Import Schema.

(** Modelled from the spec: the storage engine is not among the sources.
    A tablet is its schema and its rows by encoded primary key (spec
    section 3; section 7 for [AlreadyPresent] and [NotFound]). *)
Record t : Type := { schema : Schema.t; rows : gmap (list Value) Cells }.

Definition empty (s : Schema.t) : t := {| schema := s; rows := ∅ |}.

Inductive OpKind : Set := INSERT | UPDATE | DELETE.

Record RowOp : Set := { kind : OpKind; row : PartialRow.t }.

Definition key_of_cells (n : nat) (cs : Cells) : list Value := omap id (take n cs).

(** [Tablet::Insert] of a full row. *)
Definition Insert (cs : Cells) (tb : t) : Status.t * t :=
  let k := key_of_cells (num_key_columns (schema tb)) cs in
  match rows tb !! k with
  | Some _ => (Status.AlreadyPresent "key already present", tb)
  | None => (Status.OK, {| schema := schema tb; rows := <[k := cs]> (rows tb) |})
  end.

(** The cells of a mutation laid out by the tablet's schema. *)
Definition to_tablet_cells (tb : t) (r : PartialRow.t) : Cells :=
  map (fun c => i ← find_column (PartialRow.schema r) (col_name c);
                mjoin (PartialRow.cells r !! i))
      (columns (schema tb)).

(** The primary key of a mutation, as the tablet reads it. *)
Definition op_key (tb : t) (r : PartialRow.t) : list Value :=
  key_of_cells (num_key_columns (schema tb)) (to_tablet_cells tb r).

(** Columns of the client's schema that the tablet does not have. *)
Definition missing_columns (tb : t) (r : PartialRow.t) : list string :=
  filter (fun n => find_column (schema tb) n = None)
         (map col_name (columns (PartialRow.schema r))).

(** The cells of [new] that are set replace those of [old]. *)
Definition overwrite (old new : Cells) : Cells :=
  zip_with (fun o n => match n with Some v => Some v | None => o end) old new.

Definition apply_op (op : RowOp) (tb : t) : Status.t * t :=
  match missing_columns tb (row op) with
  | m :: ms =>
      (Status.InvalidArgument
         ("Some columns are not present in the current schema: "
            +:+ String.concat ", " (m :: ms)), tb)
  | [] =>
      let cs := to_tablet_cells tb (row op) in
      let k := key_of_cells (num_key_columns (schema tb)) cs in
      match kind op, rows tb !! k with
      | INSERT, _ => Insert cs tb
      | UPDATE, Some old =>
          (Status.OK, {| schema := schema tb; rows := <[k := overwrite old cs]> (rows tb) |})
      | DELETE, Some _ =>
          (Status.OK, {| schema := schema tb; rows := delete k (rows tb) |})
      | _, None => (Status.NotFound "key not found", tb)
      end
  end.

(** The operations of a batch are applied in order, each on its own: a
    row that is rejected leaves the tablet as it was and the next row is
    applied all the same. *)
Fixpoint apply_batch (ops : list RowOp) (tb : t) : list Status.t * t :=
  match ops with
  | [] => ([], tb)
  | op :: ops' =>
      let '(s, tb1) := apply_op op tb in
      let '(ss, tb2) := apply_batch ops' tb1 in
      (s :: ss, tb2)
  end.

(** A range predicate on one column, both bounds inclusive and optional
    ([ColumnRangePredicatePB]). *)
Record ColumnRangePredicate : Set := {
  pred_column : string;
  lower_bound : option Value;
  upper_bound : option Value
}.

Definition cell_in_range (p : ColumnRangePredicate) (c : option Value) : bool :=
  match c with
  | None => false
  | Some v =>
      from_option (fun lo => value_leb lo v) true (lower_bound p)
      && from_option (fun hi => value_leb v hi) true (upper_bound p)
  end.

Definition matches (tb : t) (preds : list ColumnRangePredicate) (cs : Cells) : bool :=
  forallb (fun p => match find_column (schema tb) (pred_column p) with
                    | Some i => cell_in_range p (mjoin (cs !! i))
                    | None => false
                    end) preds.

Definition project (tb : t) (projection : Schema.t) (cs : Cells) : Cells :=
  map (fun c => i ← find_column (schema tb) (col_name c); mjoin (cs !! i))
      (columns projection).

(** The stored rows, in the order the tablet iterates them. *)
Definition stored_rows (tb : t) : list Cells := (map_to_list (rows tb)).*2.

(** What a scan of the tablet yields: the rows that pass every predicate,
    cut down to the projection. *)
Definition scan_rows (tb : t) (projection : Schema.t)
    (preds : list ColumnRangePredicate) : list Cells :=
  map (project tb projection) (List.filter (matches tb preds) (stored_rows tb)).

End Tablet.

(** ** The tablet server: writes, scans and the scanner registry *)

Module TServer.
Import Schema.

(** Modelled from the spec: the tablet server ([tserver/tablet_server.h],
    [tserver/scanners.h]) is not among the sources.  Spec section 3,
    ScannerRegistry entry: scanner id to last-activity time and scan
    context (here the rows still to send and the batch budget). *)
Record ScannerEntry : Set := {
  remaining : list Cells;
  budget : Z;
  last_activity : MonoTime.t
}.

Record t : Type := {
  running : bool;
  tablets : gmap string Tablet.t;
  scanners : gmap nat ScannerEntry;
  next_scanner_id : nat;
  scanner_ttl : MonoTime.MonoDelta
}.

(** [ScannerManager::CountActiveScanners] *)
Definition CountActiveScanners (ts : t) : nat := size (scanners ts).

Definition with_tablet (id : string) (tb : Tablet.t) (ts : t) : t :=
  {| running := running ts; tablets := <[id := tb]> (tablets ts);
     scanners := scanners ts; next_scanner_id := next_scanner_id ts;
     scanner_ttl := scanner_ttl ts |}.

Definition with_scanners (sc : gmap nat ScannerEntry) (next : nat) (ts : t) : t :=
  {| running := running ts; tablets := tablets ts; scanners := sc;
     next_scanner_id := next; scanner_ttl := scanner_ttl ts |}.

Definition Shutdown (ts : t) : t :=
  {| running := false; tablets := tablets ts; scanners := scanners ts;
     next_scanner_id := next_scanner_id ts; scanner_ttl := scanner_ttl ts |}.

(** An RPC either does not get through ([inl], the transport's status)
    or is answered. *)
Definition Rpc (A : Type) : Type := (Status.t + A) * t.

Definition unreachable : Status.t := Status.NetworkError "Connection refused".

(** [Write(tabletId, batch) -> perRowResults[] | TransportError] (spec
    section 6): one status per row, in order.  An unknown tablet fails
    every row. *)
Definition Write (tablet_id : string) (ops : list Tablet.RowOp) (ts : t)
  : Rpc (list Status.t) :=
  if running ts then
    match tablets ts !! tablet_id with
    | Some tb =>
        let '(results, tb') := Tablet.apply_batch ops tb in
        (inr results, with_tablet tablet_id tb' ts)
    | None => (inr (map (fun _ => Status.NotFound "Tablet not found") ops), ts)
    end
  else (inl unreachable, ts).

(** Rows are added while the bytes collected so far are below the
    budget. *)
Fixpoint fill (budget acc : Z) (rs : list Cells) : list Cells * list Cells :=
  match rs with
  | [] => ([], [])
  | r :: rs' =>
      if acc <? budget then
        let '(a, b) := fill budget (acc + row_bytes r) rs' in (r :: a, b)
      else ([], rs)
  end.

(** A batch of a scan under way: it always carries the next row, then
    fills up to the budget. *)
Definition next_batch (budget : Z) (rs : list Cells) : list Cells * list Cells :=
  match rs with
  | [] => ([], [])
  | r :: rs' => let '(a, b) := fill budget (row_bytes r) rs' in (r :: a, b)
  end.

(** The first batch: a budget of zero bytes asks for no data with the
    opening response. *)
Definition first_batch (budget : Z) (rs : list Cells) : list Cells * list Cells :=
  if budget <=? 0 then ([], rs) else next_batch budget rs.

Record ScanResponse : Set := {
  scanner_id : option nat;
  data : list Cells;
  has_more_results : bool
}.

(** [ScanOpen(tabletId, projection, predicates, batchSizeBudget) ->
    {scannerId?, rows, hasMore}]: when the opening response carries every
    row of the scan no scanner is registered; otherwise the rest is
    registered under a fresh id. *)
Definition ScanOpen (tablet_id : string) (projection : Schema.t)
    (preds : list Tablet.ColumnRangePredicate) (batch_size_bytes : Z)
    (now : MonoTime.t) (ts : t) : Rpc (Status.t + ScanResponse) :=
  if running ts then
    match tablets ts !! tablet_id with
    | None => (inr (inl (Status.NotFound "Tablet not found")), ts)
    | Some tb =>
        let '(batch, rest) := first_batch batch_size_bytes (Tablet.scan_rows tb projection preds) in
        match rest with
        | [] => (inr (inr {| scanner_id := None; data := batch; has_more_results := false |}), ts)
        | _ :: _ =>
            let id := next_scanner_id ts in
            (inr (inr {| scanner_id := Some id; data := batch; has_more_results := true |}),
             with_scanners
               (<[id := {| remaining := rest; budget := batch_size_bytes;
                           last_activity := now |}]> (scanners ts))
               (S id) ts)
        end
    end
  else (inl unreachable, ts).

(** [ScanNext(scannerId) -> {rows, hasMore} | Error{SCANNER_NOT_FOUND}]:
    the idle timer is refreshed; a scanner that has sent its last row is
    unregistered. *)
Definition ScanNext (id : nat) (now : MonoTime.t) (ts : t) : Rpc (Status.t + ScanResponse) :=
  if running ts then
    match scanners ts !! id with
    | None => (inr (inl (Status.NotFound "Scanner not found")), ts)
    | Some e =>
        let '(batch, rest) := next_batch (budget e) (remaining e) in
        match rest with
        | [] =>
            (inr (inr {| scanner_id := Some id; data := batch; has_more_results := false |}),
             with_scanners (delete id (scanners ts)) (next_scanner_id ts) ts)
        | _ :: _ =>
            (inr (inr {| scanner_id := Some id; data := batch; has_more_results := true |}),
             with_scanners
               (<[id := {| remaining := rest; budget := budget e; last_activity := now |}]>
                  (scanners ts))
               (next_scanner_id ts) ts)
        end
    end
  else (inl unreachable, ts).

(** [ScanClose(scannerId) -> ack]: the entry is removed. *)
Definition ScanClose (id : nat) (ts : t) : Rpc unit :=
  if running ts then
    (inr tt, with_scanners (delete id (scanners ts)) (next_scanner_id ts) ts)
  else (inl unreachable, ts).

Definition expired (ttl : MonoTime.MonoDelta) (now : MonoTime.t) (e : ScannerEntry) : bool :=
  ttl <=? MonoTime.GetDeltaSince now (last_activity e).

(** The idle-timeout reaper: entries idle for the time-to-live or longer
    are removed. *)
Definition reap (now : MonoTime.t) (ts : t) : t :=
  with_scanners
    (filter (fun kv => expired (scanner_ttl ts) now kv.2 = false) (scanners ts))
    (next_scanner_id ts) ts.

End TServer.

(** ** The cluster: one master, one tablet server, the network between *)

Module Cluster.

(** Modelled from the spec: the mini cluster of the tests
    ([integration-tests/mini_cluster.h]) is not among the sources.  The
    master serves the catalog (table name to tablet id); the network
    holds the [ScanClose] requests that were sent and have not arrived. *)
Record Master : Type := { master_running : bool; catalog : gmap string string }.

Record t : Type := {
  master : Master;
  tserver : TServer.t;
  now : MonoTime.t;
  close_requests : list nat
}.

Definition with_tserver (ts : TServer.t) (cl : t) : t :=
  {| master := master cl; tserver := ts; now := now cl;
     close_requests := close_requests cl |}.

Definition with_close_requests (q : list nat) (cl : t) : t :=
  {| master := master cl; tserver := tserver cl; now := now cl; close_requests := q |}.

Definition ShutdownMaster (cl : t) : t :=
  {| master := {| master_running := false; catalog := catalog (master cl) |};
     tserver := tserver cl; now := now cl; close_requests := close_requests cl |}.

Definition ShutdownTabletServer (cl : t) : t :=
  with_tserver (TServer.Shutdown (tserver cl)) cl.

(** One [GetTableLocations(tableName)] call (spec section 6) to the
    master: a master that is shut down refuses the connection, and the
    caller gets the transport's [NetworkError] (spec section 7); a running
    master answers with the tablet of the table, or that it has none. *)
Definition GetTableLocations (table : string) (cl : t) : Status.t + string :=
  if master_running (master cl) then
    match catalog (master cl) !! table with
    | Some tablet => inr tablet
    | None => inl (Status.NotFound ("No replicas for tablet " +:+ table))
    end
  else inl (Status.NetworkError "Connection refused").

(** What can happen in the cluster without the client doing anything:
    time passes, a [ScanClose] request in flight arrives (a server that
    is down loses it), the idle-timeout reaper runs. *)
Inductive Event : Set :=
| Tick (d : MonoTime.MonoDelta)
| DeliverClose
| Reap.

Definition deliver_close (cl : t) : t :=
  match close_requests cl with
  | [] => cl
  | id :: q =>
      with_close_requests q (with_tserver (TServer.ScanClose id (tserver cl)).2 cl)
  end.

Definition step (e : Event) (cl : t) : t :=
  match e with
  | Tick d => {| master := master cl; tserver := tserver cl;
                 now := MonoTime.AddDelta (now cl) (Z.max 0 d);
                 close_requests := close_requests cl |}
  | DeliverClose => deliver_close cl
  | Reap => with_tserver (TServer.reap (now cl) (tserver cl)) cl
  end.

Definition run (es : list Event) (cl : t) : t := foldl (fun c e => step e c) cl es.

End Cluster.

(** ** Table handles and write operations (client/client.h) *)

Module KuduTable.

(** Modelled from the spec: the client library is not among the sources
    (spec section 3, TableHandle: table name and schema, immutable). *)
Record t : Set := { name : string; schema : Schema.t }.

End KuduTable.

Module WriteOp.

(** Modelled from the spec: spec section 3, PendingOperation: operation
    kind, owning table, row payload. *)
Record t : Set := { table : KuduTable.t; kind : Tablet.OpKind; row : PartialRow.t }.

(** [KuduTable::NewInsert]: an insert with no cell set. *)
Definition NewInsert (tb : KuduTable.t) : t :=
  {| table := tb; kind := Tablet.INSERT; row := PartialRow.new (KuduTable.schema tb) |}.

(** [insert->mutable_row()->Set...]: the setter's status, and the
    operation with the row as the setter left it. *)
Definition mutable_row (f : PartialRow.t -> Status.t * PartialRow.t) (op : t) : Status.t * t :=
  let '(s, r) := f (row op) in (s, {| table := table op; kind := kind op; row := r |}).

Definition kind_name (k : Tablet.OpKind) : string :=
  match k with
  | Tablet.INSERT => "INSERT"
  | Tablet.UPDATE => "UPDATE"
  | Tablet.DELETE => "DELETE"
  end.

(** The human-readable description of the operation. *)
Definition ToString (op : t) : string :=
  kind_name (kind op) +:+ " " +:+ PartialRow.ToString (row op).

Definition to_row_op (op : t) : Tablet.RowOp :=
  {| Tablet.kind := kind op; Tablet.row := row op |}.

End WriteOp.

(** ** The client's scanner (client/client.h, KuduScanner) *)

Module KuduScanner.
Import Schema.

(** Modelled from the spec: the client library is not among the sources
    (spec section 3, ScannerHandle, and section 4.4). *)

Record t : Set := {
  table : KuduTable.t;
  projection : Schema.t;
  predicates : list Tablet.ColumnRangePredicate;
  batch_size_bytes : Z;
  open_ : bool;
  data_in_open_ : bool;
  last_response_ : TServer.ScanResponse
}.

Definition no_response : TServer.ScanResponse :=
  {| TServer.scanner_id := None; TServer.data := []; TServer.has_more_results := false |}.

(** [KuduScanner scanner(table)]: the projection is the table's schema,
    the batch-size budget the client's default. *)
Definition new (default_batch_size_bytes : Z) (tb : KuduTable.t) : t :=
  {| table := tb; projection := KuduTable.schema tb; predicates := [];
     batch_size_bytes := default_batch_size_bytes;
     open_ := false; data_in_open_ := false; last_response_ := no_response |}.

Definition SetProjection (p : Schema.t) (sc : t) : Status.t * t :=
  (Status.OK,
   {| table := table sc; projection := p; predicates := predicates sc;
      batch_size_bytes := batch_size_bytes sc; open_ := open_ sc;
      data_in_open_ := data_in_open_ sc; last_response_ := last_response_ sc |}).

Definition AddConjunctPredicate (p : Tablet.ColumnRangePredicate) (sc : t) : Status.t * t :=
  (Status.OK,
   {| table := table sc; projection := projection sc; predicates := predicates sc ++ [p];
      batch_size_bytes := batch_size_bytes sc; open_ := open_ sc;
      data_in_open_ := data_in_open_ sc; last_response_ := last_response_ sc |}).

Definition SetBatchSizeBytes (n : Z) (sc : t) : Status.t * t :=
  (Status.OK,
   {| table := table sc; projection := projection sc; predicates := predicates sc;
      batch_size_bytes := n; open_ := open_ sc;
      data_in_open_ := data_in_open_ sc; last_response_ := last_response_ sc |}).

Definition with_response (is_open in_open : bool) (r : TServer.ScanResponse) (sc : t) : t :=
  {| table := table sc; projection := projection sc; predicates := predicates sc;
     batch_size_bytes := batch_size_bytes sc; open_ := is_open;
     data_in_open_ := in_open; last_response_ := r |}.

(** [Open]: resolve the tablet, send the opening scan request. *)
Definition Open (sc : t) (cl : Cluster.t) : Status.t * t * Cluster.t :=
  match Cluster.GetTableLocations (KuduTable.name (table sc)) cl with
  | inl e => (e, sc, cl)
  | inr tablet =>
      match TServer.ScanOpen tablet (projection sc) (predicates sc) (batch_size_bytes sc)
              (Cluster.now cl) (Cluster.tserver cl) with
      | (inl e, ts) => (e, sc, Cluster.with_tserver ts cl)
      | (inr (inl e), ts) => (e, sc, Cluster.with_tserver ts cl)
      | (inr (inr r), ts) =>
          (Status.OK,
           with_response true (bool_decide (TServer.data r <> [])) r sc,
           Cluster.with_tserver ts cl)
      end
  end.

(** [HasMoreRows]: rows that came with the opening response are still to
    be handed out ([DoTestScanWithoutPredicates] asserts it right after
    [Open]), or the server has more. *)
Definition HasMoreRows (sc : t) : bool :=
  data_in_open_ sc || TServer.has_more_results (last_response_ sc).

(** [NextBatch]: the rows that came with the opening response first,
    then one [ScanNext] per call. *)
Definition NextBatch (sc : t) (cl : Cluster.t) : Status.t * list Cells * t * Cluster.t :=
  if data_in_open_ sc then
    (Status.OK, TServer.data (last_response_ sc),
     with_response (open_ sc) false (last_response_ sc) sc, cl)
  else
    match TServer.has_more_results (last_response_ sc),
          TServer.scanner_id (last_response_ sc) with
    | true, Some id =>
        match TServer.ScanNext id (Cluster.now cl) (Cluster.tserver cl) with
        | (inl e, ts) => (e, [], sc, Cluster.with_tserver ts cl)
        | (inr (inl e), ts) => (e, [], sc, Cluster.with_tserver ts cl)
        | (inr (inr r), ts) =>
            (Status.OK, TServer.data r, with_response (open_ sc) false r sc,
             Cluster.with_tserver ts cl)
        end
    | _, _ => (Status.mk Status.kIllegalState "No more rows", [], sc, cl)
    end.

(** [Close]: when the server gave the scan an id, a [ScanClose] request
    is sent and not waited for. *)
Definition Close (sc : t) (cl : Cluster.t) : t * Cluster.t :=
  if open_ sc then
    (with_response false false no_response sc,
     match TServer.scanner_id (last_response_ sc) with
     | Some id => Cluster.with_close_requests (Cluster.close_requests cl ++ [id]) cl
     | None => cl
     end)
  else (sc, cl).

(** The destructor closes: discarding a handle is [Close] without the
    handle left over. *)
Definition discard (sc : t) (cl : Cluster.t) : Cluster.t := (Close sc cl).2.

(** [while (scanner.HasMoreRows()) { NextBatch(&rows); ... }] with the
    loop body folding [f] over the batch; [None] is "still looping", a
    failed [NextBatch] ends the scan with its status. *)
Fixpoint scan_loop {A : Type} (fuel : nat) (f : A -> Cells -> A) (acc : A)
    (sc : t) (cl : Cluster.t) : option (Status.t + A * t * Cluster.t) :=
  match fuel with
  | O => None
  | S n =>
      if HasMoreRows sc then
        let '(s, rows, sc', cl') := NextBatch sc cl in
        if Status.ok s then scan_loop n f (foldl f acc rows) sc' cl'
        else Some (inl s)
      else Some (inr (acc, sc, cl))
  end.

End KuduScanner.

(** ** Scanner handles against the cluster over time *)

Module ScanSystem.

(** Modelled from the spec: spec section 4.4 and section 5 on the
    asynchronous close.  The client's scanner handles that are alive, and
    the cluster; a handle that is discarded is closed by its destructor and
    leaves the list. *)
Record State : Type := { cluster : Cluster.t; handles : list KuduScanner.t }.

(** What the application does with scanners, and what happens in the
    cluster meanwhile. *)
Inductive Action : Type :=
| NewScan (table : KuduTable.t) (projection : Schema.t)
    (predicates : list Tablet.ColumnRangePredicate) (batch_size_bytes : Z)
| Next (i : nat)
| CloseHandle (i : nat)
| Discard (i : nat)
| Happen (e : Cluster.Event).

(** A scanner as the application sets it up before [Open]. *)
Definition configured (table : KuduTable.t) (projection : Schema.t)
    (predicates : list Tablet.ColumnRangePredicate) (batch_size_bytes : Z) : KuduScanner.t :=
  {| KuduScanner.table := table; KuduScanner.projection := projection;
     KuduScanner.predicates := predicates; KuduScanner.batch_size_bytes := batch_size_bytes;
     KuduScanner.open_ := false; KuduScanner.data_in_open_ := false;
     KuduScanner.last_response_ := KuduScanner.no_response |}.

Definition step (a : Action) (st : State) : State :=
  match a with
  | NewScan table projection predicates batch_size_bytes =>
      let '(_, sc, cl) :=
        KuduScanner.Open (configured table projection predicates batch_size_bytes)
          (cluster st) in
      {| cluster := cl; handles := handles st ++ [sc] |}
  | Next i =>
      match handles st !! i with
      | Some sc =>
          let '(_, _, sc', cl) := KuduScanner.NextBatch sc (cluster st) in
          {| cluster := cl; handles := <[i := sc']> (handles st) |}
      | None => st
      end
  | CloseHandle i =>
      match handles st !! i with
      | Some sc =>
          let '(sc', cl) := KuduScanner.Close sc (cluster st) in
          {| cluster := cl; handles := <[i := sc']> (handles st) |}
      | None => st
      end
  | Discard i =>
      match handles st !! i with
      | Some sc =>
          {| cluster := KuduScanner.discard sc (cluster st);
             handles := delete i (handles st) |}
      | None => st
      end
  | Happen e => {| cluster := Cluster.step e (cluster st); handles := handles st |}
  end.

Definition exec (trace : list Action) (st : State) : State :=
  foldl (fun s a => step a s) st trace.

(** The scanner [id] belongs to a handle that is open. *)
Definition owned (id : nat) (hs : list KuduScanner.t) : Prop :=
  exists i sc, hs !! i = Some sc /\ KuduScanner.open_ sc = true /\
               TServer.scanner_id (KuduScanner.last_response_ sc) = Some id.

(** What holds of every state the system reaches: the server is up, every
    registered scanner belongs to an open handle or has its close request
    under way, no registered scanner was active in the future, and the ids
    in use are below the next id to give out. *)
Record Inv (st : State) : Prop := {
  inv_running : TServer.running (Cluster.tserver (cluster st)) = true;
  inv_fresh : forall id e,
    TServer.scanners (Cluster.tserver (cluster st)) !! id = Some e ->
    (id < TServer.next_scanner_id (Cluster.tserver (cluster st)))%nat;
  inv_accounted : forall id e,
    TServer.scanners (Cluster.tserver (cluster st)) !! id = Some e ->
    owned id (handles st) \/ id ∈ Cluster.close_requests (cluster st);
  inv_activity : forall id e,
    TServer.scanners (Cluster.tserver (cluster st)) !! id = Some e ->
    TServer.last_activity e <= Cluster.now (cluster st)
}.

(** All handles are closed (or gone). *)
Definition all_closed (st : State) : Prop :=
  Forall (fun sc => KuduScanner.open_ sc = false) (handles st).

(** The count of active scanners ([CountActiveScanners]) in a cluster. *)
Definition active (cl : Cluster.t) : nat := TServer.CountActiveScanners (Cluster.tserver cl).

End ScanSystem.

(** ** The error collector (client/error_collector.h) *)

Module ErrorCollector.

(** Modelled from the spec: spec section 3, ErrorRecord, and section 4.3.
    The collector has a fixed capacity; when it is full the new error is
    the one discarded, and the overflow flag is set. *)
Record Error : Set := { failed_op : WriteOp.t; status : Status.t }.

Record t : Set := { capacity : nat; errors : list Error; overflowed : bool }.

Definition new (cap : nat) : t := {| capacity := cap; errors := []; overflowed := false |}.

Definition AddError (e : Error) (c : t) : t :=
  if (length (errors c) <? capacity c)%nat then
    {| capacity := capacity c; errors := errors c ++ [e]; overflowed := overflowed c |}
  else {| capacity := capacity c; errors := errors c; overflowed := true |}.

Definition AddErrors (es : list Error) (c : t) : t := foldl (fun c e => AddError e c) c es.

Definition CountErrors (c : t) : nat := length (errors c).

(** [GetErrors(&errors, &overflow)], as the tests call it (no maximum):
    hands over what is pending and whether errors were discarded since the
    last call; the collector is empty afterwards. *)
Definition GetErrors (c : t) : (list Error * bool) * t :=
  ((errors c, overflowed c), new (capacity c)).

End ErrorCollector.

(** ** Write sessions (client/client.h, KuduSession; client/batcher.h) *)

Module Client.
Import ErrorCollector.

(** Modelled from the spec: the client library is not among the sources
    (spec section 3, SessionState and Batch; sections 4.2, 5 and 9). *)
Inductive FlushMode : Set := AUTO_FLUSH_SYNC | AUTO_FLUSH_BACKGROUND | MANUAL_FLUSH.

Record Session : Set := {
  flush_mode : FlushMode;
  buffer : list WriteOp.t;
  error_collector : ErrorCollector.t
}.

(** A flush round in flight: the session that started it (which may be
    gone by now), the callback to invoke, the per-tablet batches whose
    write has not been answered, whether an error was seen so far. *)
Record Batcher : Set := {
  owner : nat;
  callback : option nat;
  in_flight : list (string * list WriteOp.t);
  had_errors : bool
}.

(** The configuration of a client (spec section 6): the capacity of the
    error collectors, the threshold of the background flush, the default
    batch size of scans, the deadline of a metadata resolution and the
    timeout of a master call, both in milliseconds. *)
Record Options : Set := {
  error_capacity : nat;
  background_flush_threshold : nat;
  default_batch_size_bytes : Z;
  select_master_timeout_ms : positive;
  admin_operation_timeout_ms : positive
}.

(** The client: its options, the tablet-location cache shared by its
    sessions, the live sessions, the flush rounds in flight (owned apart
    from the sessions), and the record of the user callbacks invoked so
    far, each with the status it was given. *)
Record t : Type := {
  options : Options;
  location_cache : gmap string string;
  sessions : gmap nat Session;
  batchers : gmap nat Batcher;
  invoked : list (nat * Status.t);
  next_id : nat
}.

Definition Create (o : Options) : t :=
  {| options := o; location_cache := ∅; sessions := ∅; batchers := ∅;
     invoked := []; next_id := 0 |}.

Definition with_sessions (ss : gmap nat Session) (c : t) : t :=
  {| options := options c; location_cache := location_cache c; sessions := ss;
     batchers := batchers c; invoked := invoked c; next_id := next_id c |}.

Definition with_cache (lc : gmap string string) (c : t) : t :=
  {| options := options c; location_cache := lc; sessions := sessions c;
     batchers := batchers c; invoked := invoked c; next_id := next_id c |}.

Definition with_batchers (bs : gmap nat Batcher) (c : t) : t :=
  {| options := options c; location_cache := location_cache c; sessions := sessions c;
     batchers := bs; invoked := invoked c; next_id := next_id c |}.

(** The callback of a finished round is invoked with the round's status. *)
Definition invoke (cb : option nat) (s : Status.t) (c : t) : t :=
  match cb with
  | Some token =>
      {| options := options c; location_cache := location_cache c; sessions := sessions c;
         batchers := batchers c; invoked := invoked c ++ [(token, s)];
         next_id := next_id c |}
  | None => c
  end.

Definition fresh (c : t) : nat * t :=
  (next_id c,
   {| options := options c; location_cache := location_cache c; sessions := sessions c;
      batchers := batchers c; invoked := invoked c; next_id := S (next_id c) |}).

(** [KuduClient::NewSession] *)
Definition NewSession (c : t) : nat * t :=
  let '(sid, c1) := fresh c in
  (sid,
   with_sessions
     (<[sid := {| flush_mode := AUTO_FLUSH_SYNC; buffer := [];
                  error_collector := ErrorCollector.new (error_capacity (options c)) |}]>
        (sessions c1)) c1).

Definition update_session (sid : nat) (f : Session -> Session) (c : t) : t :=
  with_sessions (alter f sid (sessions c)) c.

Definition set_mode (m : FlushMode) (s : Session) : Session :=
  {| flush_mode := m; buffer := buffer s; error_collector := error_collector s |}.

Definition set_buffer (ops : list WriteOp.t) (s : Session) : Session :=
  {| flush_mode := flush_mode s; buffer := ops; error_collector := error_collector s |}.

Definition set_collector (ec : ErrorCollector.t) (s : Session) : Session :=
  {| flush_mode := flush_mode s; buffer := buffer s; error_collector := ec |}.

Definition add_errors (es : list Error) (s : Session) : Session :=
  set_collector (AddErrors es (error_collector s)) s.

Definition SetFlushMode (sid : nat) (m : FlushMode) (c : t) : Status.t * t :=
  (Status.OK, update_session sid (set_mode m) c).

(** The last reference to the session goes away. *)
Definition DropSession (sid : nat) (c : t) : t := with_sessions (delete sid (sessions c)) c.

Definition CountBufferedOperations (sid : nat) (c : t) : nat :=
  from_option (fun s => length (buffer s)) 0%nat (sessions c !! sid).

Definition HasPendingOperations (sid : nat) (c : t) : bool :=
  negb (CountBufferedOperations sid c =? 0)%nat.

Definition CountPendingErrors (sid : nat) (c : t) : nat :=
  from_option (fun s => CountErrors (error_collector s)) 0%nat (sessions c !! sid).

Definition GetPendingErrors (sid : nat) (c : t) : (list Error * bool) * t :=
  match sessions c !! sid with
  | Some s =>
      let '(r, ec) := GetErrors (error_collector s) in
      (r, update_session sid (set_collector ec) c)
  | None => (([], false), c)
  end.

(** Errors reach the collector of the session that started the round,
    if that session is still there. *)
Definition report (sid : nat) (es : list Error) (c : t) : t :=
  update_session sid (add_errors es) c.

(** Modelled from the spec: spec section 4.1.  The resolver is the loop
    of [KuduTable::Data::Open]; these are its collaborators when the
    master is the cluster's.  Nothing else happens in the cluster while
    the client waits for a resolution, so the world of one resolution is
    the cluster as it stands, the time on the client's clock, and the
    status the transport returned for the last call that did not get
    through. *)
Record Resolving : Type := {
  the_cluster : Cluster.t;
  the_clock : MonoTime.t;
  last_refusal : option Status.t
}.

(** A call to the master, answered or refused, takes the client one
    millisecond. *)
Definition master_call_time : MonoTime.MonoDelta := MonoTime.FromMilliseconds 1.

Definition tick (d : MonoTime.MonoDelta) (w : Resolving) : Resolving :=
  {| the_cluster := the_cluster w; the_clock := MonoTime.AddDelta (the_clock w) d;
     last_refusal := last_refusal w |}.

Definition refused_with (e : Status.t) (w : Resolving) : Resolving :=
  {| the_cluster := the_cluster w; the_clock := the_clock w; last_refusal := Some e |}.

(** Spec section 3, TabletLocation; the mini cluster has one tablet
    server, which leads every tablet. *)
Definition tablet_location (tablet : string) : Master.TabletLocationsPB :=
  {| Master.tablet_id := tablet; Master.start_key := ""; Master.end_key := "";
     Master.replicas := ["tablet-server-0"]; Master.leader_hint := Some 0%nat |}.

(** The master proxy's [GetTableLocations]: a master that is down refuses
    the connection and the response object is left alone; a running master
    answers with the tablet of the table, or with no tablet for a table it
    does not know (spec section 4.1, "table not yet visible"). *)
Definition master_GetTableLocations (req : Master.GetTableLocationsRequestPB)
    (_ : MonoTime.MonoDelta) (resp : Master.GetTableLocationsResponsePB) (w : Resolving)
  : (Status.t * Master.GetTableLocationsResponsePB) * Resolving :=
  let w := tick master_call_time w in
  match Cluster.GetTableLocations (Master.table_name req) (the_cluster w) with
  | inr tablet =>
      ((Status.OK, {| Master.error := None;
                      Master.tablet_locations := [tablet_location tablet] |}), w)
  | inl e =>
      if Status.IsNetworkError e then ((e, resp), refused_with e w)
      else ((Status.OK, Master.empty_response), w)
  end.

(** Leader rediscovery: with one master, it is found when it is up. *)
Definition master_SetMasterServerProxy (w : Resolving) : Status.t * Resolving :=
  let w := tick master_call_time w in
  if Cluster.master_running (Cluster.master (the_cluster w)) then (Status.OK, w)
  else
    let e := Status.NetworkError "Connection refused" in
    (e, refused_with e w).

(** The resolver gives up when the current time is at or after the
    deadline (spec section 4.1, step 1). *)
Definition master_env : TableInternal.ClientEnv Resolving := {|
  TableInternal.Now := fun w => (the_clock w, w);
  TableInternal.ComesBefore := fun deadline now => deadline <=? now;
  TableInternal.GetTableLocations := master_GetTableLocations;
  TableInternal.SetMasterServerProxy := master_SetMasterServerProxy;
  TableInternal.usleep := fun us w => tick (us * 1000) w
|}.

Definition resolver_config (o : Options) : TableInternal.ClientConfig :=
  {| TableInternal.default_select_master_timeout_ :=
       MonoTime.FromMilliseconds (Z.pos (select_master_timeout_ms o));
     TableInternal.default_admin_operation_timeout :=
       MonoTime.FromMilliseconds (Z.pos (admin_operation_timeout_ms o)) |}.

(** A pass of the loop that does not return makes a master call, which
    takes a millisecond: the loop has returned within so many passes
    (lemma [ResolveLocations_returns] below). *)
Definition resolver_passes (o : Options) : nat :=
  S (S (Pos.to_nat (select_master_timeout_ms o))).

(** [ResolveLocations(tableName, deadline)] (spec section 4.1): the loop
    of [Open], started at the cluster's time. *)
Definition ResolveLocations (o : Options) (table : string) (cl : Cluster.t)
  : option (Status.t * TableInternal.Frame) :=
  TableInternal.Open master_env (resolver_config o) table (resolver_passes o)
    {| the_cluster := cl; the_clock := Cluster.now cl; last_refusal := None |}.

(** What a resolution gives the write path: the tablet, or the status
    for the error records of the operations that could not be resolved.
    Spec section 3 has an error record hold "the status/error kind
    returned by the server or transport": when a master call did not get
    through it is the transport's status for the last such call (the
    [NetworkError] that [DoTestWriteWithDeadServer], line 460, finds in the
    record of a write with the master down), and otherwise the status the
    resolver ended with. *)
Definition ResolveTablet (o : Options) (table : string) (cl : Cluster.t) : Status.t + string :=
  match ResolveLocations o table cl with
  | Some (s, fr) =>
      if Status.ok s then
        match Master.tablet_locations (TableInternal.resp fr) with
        | loc :: _ => inr (Master.tablet_id loc)
        | [] => inl (Status.NotFound "No tablet locations")
        end
      else inl (default s (last_refusal (TableInternal.world fr)))
  | None => inl (Status.TimedOut "Resolution under way")
  end.

(** The tablet of a table: from the cache, or else from a resolution,
    whose answer is cached. *)
Definition resolve (table : string) (c : t) (cl : Cluster.t) : (Status.t + string) * t :=
  match location_cache c !! table with
  | Some tablet => (inr tablet, c)
  | None =>
      match ResolveTablet (options c) table cl with
      | inr tablet => (inr tablet, with_cache (<[table := tablet]> (location_cache c)) c)
      | inl e => (inl e, c)
      end
  end.

(** The operation joins the batch of its tablet; a tablet seen for the
    first time gets a new batch, after the others. *)
Fixpoint add_to_batch (tablet : string) (op : WriteOp.t)
    (bs : list (string * list WriteOp.t)) : list (string * list WriteOp.t) :=
  match bs with
  | [] => [(tablet, [op])]
  | (t', ops) :: bs' =>
      if String.eqb t' tablet then (t', ops ++ [op]) :: bs'
      else (t', ops) :: add_to_batch tablet op bs'
  end.

(** Each operation of the snapshot is resolved and put into its tablet's
    batch; one that cannot be resolved becomes an error record. *)
Fixpoint route (ops : list WriteOp.t) (c : t) (cl : Cluster.t)
    (bs : list (string * list WriteOp.t)) (es : list Error)
  : list (string * list WriteOp.t) * list Error * t :=
  match ops with
  | [] => (bs, es, c)
  | op :: ops' =>
      match resolve (KuduTable.name (WriteOp.table op)) c cl with
      | (inr tablet, c') => route ops' c' cl (add_to_batch tablet op bs) es
      | (inl e, c') => route ops' c' cl bs (es ++ [{| failed_op := op; status := e |}])
      end
  end.

(** The status a round ends with. *)
Definition aggregate (errors_seen : bool) : Status.t :=
  if errors_seen then Status.IOError "Some errors occurred" else Status.OK.

Definition is_nil {A} (l : list A) : bool := match l with [] => true | _ => false end.

(** [FlushAsync(callback)]: the buffer is taken as the round's snapshot
    and emptied, the operations are routed, the batches are dispatched.
    A round without a batch to wait for ends at once ([inl], with its
    status); otherwise the round is in flight under a fresh id ([inr]).
    The errors the step produced are returned for the record. *)
Definition FlushAsync (sid : nat) (cb : option nat) (c : t) (cl : Cluster.t)
  : (Status.t + nat) * list Error * t :=
  match sessions c !! sid with
  | None => (inl (Status.mk Status.kIllegalState "Session closed"), [], c)
  | Some s =>
      let '(bs, es, c1) := route (buffer s) c cl [] [] in
      let c2 := report sid es (update_session sid (set_buffer []) c1) in
      match bs with
      | [] => let st := aggregate (negb (is_nil es)) in (inl st, es, invoke cb st c2)
      | _ :: _ =>
          let '(bid, c3) := fresh c2 in
          (inr bid, es,
           with_batchers
             (<[bid := {| owner := sid; callback := cb; in_flight := bs;
                          had_errors := negb (is_nil es) |}]> (batchers c3)) c3)
      end
  end.

(** The batch of [tablet] taken out of the batches in flight. *)
Fixpoint take_batch (tablet : string) (bs : list (string * list WriteOp.t))
  : option (list WriteOp.t * list (string * list WriteOp.t)) :=
  match bs with
  | [] => None
  | (t', ops) :: bs' =>
      if String.eqb t' tablet then Some (ops, bs')
      else '(found, rest) ← take_batch tablet bs'; Some (found, (t', ops) :: rest)
  end.

(** The error records of an answered batch: one per row the server
    rejected. *)
Fixpoint row_errors (ops : list WriteOp.t) (results : list Status.t) : list Error :=
  match ops, results with
  | op :: ops', r :: results' =>
      if Status.ok r then row_errors ops' results'
      else {| failed_op := op; status := r |} :: row_errors ops' results'
  | _, _ => []
  end.

(** What an answered or failed write means for the operations of its
    batch: a write that did not get through fails every operation with
    the transport's status; an answered write fails the rejected rows. *)
Definition batch_errors (ops : list WriteOp.t) (res : Status.t + list Status.t) : list Error :=
  match res with
  | inl e => map (fun op => {| failed_op := op; status := e |}) ops
  | inr results => row_errors ops results
  end.

(** The table resolves to the tablet: from the cache or, when it is not
    cached, from the master. *)
Definition resolves (table tablet : string) (c : t) (cl : Cluster.t) : Prop :=
  location_cache c !! table = Some tablet \/
  (location_cache c !! table = None /\ Cluster.GetTableLocations table cl = inr tablet).

(** The write of round [bid] to [tablet] comes back.  A write that did
    not get through fails every operation of the batch with the
    transport's status; an answered write fails the rejected rows.  When
    it was the round's last batch the round ends ([Some], with its
    status) and the callback is invoked. *)
Definition complete (bid : nat) (tablet : string) (c : t) (cl : Cluster.t)
  : option Status.t * list Error * t * Cluster.t :=
  match batchers c !! bid with
  | None => (None, [], c, cl)
  | Some b =>
      match take_batch tablet (in_flight b) with
      | None => (None, [], c, cl)
      | Some (ops, rest) =>
          let '(res, ts) := TServer.Write tablet (map WriteOp.to_row_op ops)
                              (Cluster.tserver cl) in
          let es := batch_errors ops res in
          let c1 := report (owner b) es c in
          let seen := had_errors b || negb (is_nil es) in
          let cl1 := Cluster.with_tserver ts cl in
          match rest with
          | [] =>
              (Some (aggregate seen), es,
               invoke (callback b) (aggregate seen)
                 (with_batchers (delete bid (batchers c1)) c1), cl1)
          | _ :: _ =>
              (None, es,
               with_batchers
                 (<[bid := {| owner := owner b; callback := callback b;
                              in_flight := rest; had_errors := seen |}]> (batchers c1)) c1,
               cl1)
          end
      end
  end.

(** What the writes of the batches amount to when they are answered in
    order: the error records, and the cluster afterwards. *)
Fixpoint write_all (bs : list (string * list WriteOp.t)) (cl : Cluster.t)
  : list Error * Cluster.t :=
  match bs with
  | [] => ([], cl)
  | (tablet, ops) :: bs' =>
      let w := TServer.Write tablet (map WriteOp.to_row_op ops) (Cluster.tserver cl) in
      let '(es, cl') := write_all bs' (Cluster.with_tserver w.2 cl) in
      (batch_errors ops w.1 ++ es, cl')
  end.

(** Resolution touches the cache alone. *)
Definition cache_only (c c' : t) : Prop :=
  options c' = options c /\ sessions c' = sessions c /\ batchers c' = batchers c /\
  invoked c' = invoked c /\ next_id c' = next_id c.

(** The caller of [Flush] waits until every batch of the round has come
    back, here in the order of dispatch.  The error records the batches
    produced are collected for the record. *)
Fixpoint wait (tablets : list string) (bid : nat) (last : Status.t) (c : t) (cl : Cluster.t)
  : Status.t * list Error * t * Cluster.t :=
  match tablets with
  | [] => (last, [], c, cl)
  | tb :: tablets' =>
      let '(done, es, c1, cl1) := complete bid tb c cl in
      let '(st, es', c2, cl2) := wait tablets' bid (default last done) c1 cl1 in
      (st, es ++ es', c2, cl2)
  end.

(** A whole round, waited for: the status it ends with, and the error
    records it produced. *)
Definition flush_round (sid : nat) (c : t) (cl : Cluster.t)
  : Status.t * list Error * t * Cluster.t :=
  match FlushAsync sid None c cl with
  | (inl s, es, c1) => (s, es, c1, cl)
  | (inr bid, es, c1) =>
      let tablets := from_option (fun b => (in_flight b).*1) [] (batchers c1 !! bid) in
      let '(st, es', c2, cl2) := wait tablets bid Status.OK c1 cl in
      (st, es ++ es', c2, cl2)
  end.

(** [Flush]: the same round as [FlushAsync], waited for. *)
Definition Flush (sid : nat) (c : t) (cl : Cluster.t) : Status.t * t * Cluster.t :=
  let '(st, _, c1, cl1) := flush_round sid c cl in (st, c1, cl1).

(** [Apply(&op)]: the status, the caller's handle after the call ([None]
    once the session has taken the operation), the client and cluster. *)
Definition Apply (sid : nat) (op : WriteOp.t) (c : t) (cl : Cluster.t)
  : Status.t * option WriteOp.t * t * Cluster.t :=
  match sessions c !! sid with
  | None => (Status.mk Status.kIllegalState "Session closed", Some op, c, cl)
  | Some s =>
      if negb (PartialRow.IsKeySet (WriteOp.row op)) then
        (Status.IllegalState "Key not specified" (WriteOp.ToString op), Some op, c, cl)
      else
        let c1 := update_session sid (set_buffer (buffer s ++ [op])) c in
        match flush_mode s with
        | MANUAL_FLUSH => (Status.OK, None, c1, cl)
        | AUTO_FLUSH_SYNC =>
            let '(st, c2, cl2) := Flush sid c1 cl in (st, None, c2, cl2)
        | AUTO_FLUSH_BACKGROUND =>
            if (background_flush_threshold (options c) <=? S (length (buffer s)))%nat then
              (Status.OK, None, (FlushAsync sid None c1 cl).2, cl)
            else (Status.OK, None, c1, cl)
        end
  end.

End Client.

(** ** Flush rounds in flight, over time *)

Module AsyncSystem.
Import ErrorCollector Client.

(** Modelled from the spec: spec sections 5 and 9.  After [FlushAsync] the
    round is on its own: the writes come back in any order, and the
    application may drop its sessions at any moment.  The state keeps, for
    the record, what came back for each write: the round, the operations
    of the batch, and the transport's status or the server's per-row
    results. *)
Definition Answer : Type := list WriteOp.t * (Status.t + list Status.t).

Record State : Type := {
  client : Client.t;
  cluster : Cluster.t;
  answered : list (nat * Answer)
}.

Inductive Event : Set :=
| SessionDropped (sid : nat)
| WriteAnswered (bid : nat) (tablet : string).

(** What comes back for the write of round [bid] to [tablet], if the
    round has a batch for that tablet in flight: what the tablet server
    does with the rows of the batch. *)
Definition answer (bid : nat) (tablet : string) (c : Client.t) (cl : Cluster.t)
  : option Answer :=
  b ← batchers c !! bid;
  '(ops, _) ← take_batch tablet (in_flight b);
  Some (ops, (TServer.Write tablet (map WriteOp.to_row_op ops) (Cluster.tserver cl)).1).

Definition step (e : Event) (st : State) : State :=
  match e with
  | SessionDropped sid =>
      {| client := DropSession sid (client st); cluster := cluster st;
         answered := answered st |}
  | WriteAnswered bid tablet =>
      let '(_, _, c, cl) := complete bid tablet (client st) (cluster st) in
      {| client := c; cluster := cl;
         answered := answered st ++
                       match answer bid tablet (client st) (cluster st) with
                       | Some a => [(bid, a)]
                       | None => []
                       end |}
  end.

Definition run (events : list Event) (st : State) : State :=
  foldl (fun s e => step e s) st events.

(** The statuses the callback [token] was invoked with, in order. *)
Definition calls (token : nat) (c : Client.t) : list Status.t :=
  (List.filter (fun p => Nat.eqb p.1 token) (invoked c)).*2.






End AsyncSystem.

(** ** The test fixture (client/client-test.cc) *)

Module ClientTest.
Import Schema.

(** The schema of the constructor, lines 44-48. *)
Definition schema_ : Schema.t :=
  {| columns := [ {| col_name := "key"; col_type := UINT32; is_nullable := false |};
                  {| col_name := "int_val"; col_type := UINT32; is_nullable := false |};
                  {| col_name := "string_val"; col_type := STRING; is_nullable := true |} ];
     num_key_columns := 1 |}.

Definition tablet_id_ : string := "fake-table".
Definition tablet2_id_ : string := "fake-table-2".

Definition options : Client.Options :=
  {| Client.error_capacity := 1000; Client.background_flush_threshold := 1000;
     Client.default_batch_size_bytes := 1048576;
     Client.select_master_timeout_ms := 5000; Client.admin_operation_timeout_ms := 5000 |}.

(** [SetUp], lines 52-81: a cluster of one master and one tablet server
    with the two test tablets, empty and known to the master, and a
    client connected to it. *)
Definition cluster_ : Cluster.t :=
  {| Cluster.master :=
       {| Cluster.master_running := true;
          Cluster.catalog := <[tablet_id_ := tablet_id_]> (<[tablet2_id_ := tablet2_id_]> ∅) |};
     Cluster.tserver :=
       {| TServer.running := true;
          TServer.tablets := <[tablet_id_ := Tablet.empty schema_]>
                               (<[tablet2_id_ := Tablet.empty schema_]> ∅);
          TServer.scanners := ∅;
          TServer.next_scanner_id := 0;
          TServer.scanner_ttl := MonoTime.FromMilliseconds 60000 |};
     Cluster.now := 0;
     Cluster.close_requests := [] |}.

Definition client_ : Client.t := Client.Create options.
Definition client_table_ : KuduTable.t := {| KuduTable.name := tablet_id_; KuduTable.schema := schema_ |}.

(** [BuildTestRow], lines 98-104. *)
Definition BuildTestRow (index : Z) : Cells :=
  [ Some (UInt32 (to_uint32 index));
    Some (UInt32 (to_uint32 (index * 2)));
    Some (Str ("hello " +:+ itoa index)) ].

(** The loop of [InsertTestRows]: [n] more rows from index [i] on; a
    failed insert trips [CHECK_OK] ([None]). *)
Fixpoint insert_rows (n : nat) (i : Z) (tb : Tablet.t) : option Tablet.t :=
  match n with
  | O => Some tb
  | S n' =>
      match Tablet.Insert (BuildTestRow i) tb with
      | (s, tb') => if Status.ok s then insert_rows n' (i + 1) tb' else None
      end
  end.

(** The rows the loop of [InsertTestRows] builds, in order. *)
Fixpoint test_rows (n : nat) (i : Z) : list Cells :=
  match n with
  | O => []
  | S n' => BuildTestRow i :: test_rows n' (i + 1)
  end.

(** [InsertTestRows], lines 89-96: straight into the first tablet, not
    through the client. *)
Definition InsertTestRows (num_rows : Z) (cl : Cluster.t) : option Cluster.t :=
  tb ← TServer.tablets (Cluster.tserver cl) !! tablet_id_;
  tb' ← insert_rows (Z.to_nat num_rows) 0 tb;
  Some (Cluster.with_tserver (TServer.with_tablet tablet_id_ tb' (Cluster.tserver cl)) cl).

(** [to_add = *projection.ExtractColumnFromRow<UINT32>(row, 0); sum += to_add]
    on a [uint64_t] sum. *)
Definition key_of (row : Cells) : Z :=
  match row with Some (UInt32 v) :: _ => v | _ => 0 end.

Definition add_key (sum : Z) (row : Cells) : Z :=
  let to_add := key_of row in
  (sum + to_add) mod 2 ^ 64.

(** The sum of the key column over rows, without wrap-around. *)
Definition key_sum (rows : list Cells) : Z := foldr (fun r a => key_of r + a) 0 rows.

(** [implicit_cast<uint64_t>(n) * (0 + (n - 1)) / 2] in [uint64_t]. *)
Definition expected_sum (n : Z) : Z :=
  (((n mod 2 ^ 64) * ((0 + (n - 1)) mod 2 ^ 64)) mod 2 ^ 64) / 2.

(** How a test function stops before its last line: at an
    [ASSERT_STATUS_OK] (with the status that was not OK), at the
    [ASSERT_TRUE(scanner.HasMoreRows())] that follows [Open], or at a
    [FAIL()] (with the row it reports). *)
Inductive Stopped : Set :=
| NotOK (s : Status.t)
| NoMoreRows
| Failed (row : Cells).

(** [DoTestScanWithoutPredicates], lines 106-131: where the function
    stops, or the sum that its last line compares with the expected
    value.  [None] is "still looping". *)
Definition DoTestScanWithoutPredicates (fuel : nat) (batch_size : Z) (cl : Cluster.t)
  : option (Stopped + Z) :=
  let projection := CreateKeyProjection schema_ in
  let scanner := KuduScanner.new batch_size client_table_ in
  let '(s, scanner) := KuduScanner.SetProjection projection scanner in
  if negb (Status.ok s) then Some (inl (NotOK s)) else
  let '(s, scanner, cl) := KuduScanner.Open scanner cl in
  if negb (Status.ok s) then Some (inl (NotOK s)) else
  if negb (KuduScanner.HasMoreRows scanner) then Some (inl NoMoreRows) else
  match KuduScanner.scan_loop fuel add_key 0 scanner cl with
  | None => None
  | Some (inl e) => Some (inl (NotOK e))
  | Some (inr (sum, _, _)) => Some (inr sum)
  end.

(** [TestCloseScanner], lines 265-274 and 283-285: ten rows in the
    tablet, a scanner over all columns, with the client's default batch
    size or with a batch size of zero bytes. *)
Definition ten_rows : Cluster.t := default cluster_ (InsertTestRows 10 cluster_).

Definition close_test_scanner (zero_batch : bool) : KuduScanner.t :=
  let scanner := KuduScanner.new (Client.default_batch_size_bytes options) client_table_ in
  let scanner := (KuduScanner.SetProjection schema_ scanner).2 in
  if zero_batch then (KuduScanner.SetBatchSizeBytes 0 scanner).2 else scanner.

(** [TestCloseScanner], lines 269-303, as a trace: a scanner with the
    default batch size is opened and closed, one with a batch size of zero
    is opened and closed, one with a batch size of zero is opened and goes
    out of scope. *)
Definition close_scanner_trace : list ScanSystem.Action :=
  [ ScanSystem.NewScan client_table_ schema_ [] (Client.default_batch_size_bytes options);
    ScanSystem.CloseHandle 0;
    ScanSystem.NewScan client_table_ schema_ [] 0;
    ScanSystem.CloseHandle 1;
    ScanSystem.NewScan client_table_ schema_ [] 0;
    ScanSystem.Discard 2 ].

(** [ApplyInsertToSession], lines 332-342; [RETURN_NOT_OK] after each
    setter. *)
Definition ApplyInsertToSession (sid : nat) (table : KuduTable.t)
    (row_key int_val : Z) (string_val : string) (c : Client.t) (cl : Cluster.t)
  : Status.t * Client.t * Cluster.t :=
  let insert := WriteOp.NewInsert table in
  let '(s, insert) := WriteOp.mutable_row (PartialRow.SetUInt32 "key" row_key) insert in
  if negb (Status.ok s) then (s, c, cl) else
  let '(s, insert) := WriteOp.mutable_row (PartialRow.SetUInt32 "int_val" int_val) insert in
  if negb (Status.ok s) then (s, c, cl) else
  let '(s, insert) := WriteOp.mutable_row (PartialRow.SetStringCopy "string_val" string_val) insert in
  if negb (Status.ok s) then (s, c, cl) else
  let '(s, _, c, cl) := Client.Apply sid insert c cl in (s, c, cl).

(** The insert of [TestInsertSingleRowManualBatch] before its key is
    set, lines 314-317. *)
Definition insert_without_key : WriteOp.t :=
  let insert := WriteOp.NewInsert client_table_ in
  let insert := (WriteOp.mutable_row (PartialRow.SetUInt32 "int_val" 54321) insert).2 in
  (WriteOp.mutable_row (PartialRow.SetStringCopy "string_val" "hello world") insert).2.

(** The same insert once its key is set, line 324. *)
Definition insert_with_key : WriteOp.t :=
  (WriteOp.mutable_row (PartialRow.SetUInt32 "key" 12345) insert_without_key).2.

(** A manual-flush session on the fixture's client, lines 309-312. *)
Definition manual_session : nat * Client.t :=
  let '(sid, c) := Client.NewSession client_ in
  (sid, (Client.SetFlushMode sid Client.MANUAL_FLUSH c).2).


(** [TestBatchWithPartialError] up to its second [Flush], lines 399-409:
    key 1 is inserted and flushed, then key 1 again and key 2 are
    applied. *)
Definition partial_error_round : nat * Client.t * Cluster.t :=
  let '(sid, c) := manual_session in
  let '(_, c, cl) := ApplyInsertToSession sid client_table_ 1 1 "original row" c cluster_ in
  let '(_, c, cl) := Client.Flush sid c cl in
  let '(_, c, cl) := ApplyInsertToSession sid client_table_ 1 1 "Attempted dup" c cl in
  let '(_, c, cl) := ApplyInsertToSession sid client_table_ 2 1 "Should succeed" c cl in
  (sid, c, cl).





(** The insert of [ApplyInsertToSession] as it is handed to [Apply]. *)
Definition test_insert (table : KuduTable.t) (row_key int_val : Z) (string_val : string)
  : WriteOp.t :=
  let insert := WriteOp.NewInsert table in
  let insert := (WriteOp.mutable_row (PartialRow.SetUInt32 "key" row_key) insert).2 in
  let insert := (WriteOp.mutable_row (PartialRow.SetUInt32 "int_val" int_val) insert).2 in
  (WriteOp.mutable_row (PartialRow.SetStringCopy "string_val" string_val) insert).2.

End ClientTest.

(** ** More of the test fixture (client/client-test.cc) *)

Module ClientTestMore.
Import Schema ClientTest.

(** *** [AssertScannersDisappear], lines 248-261 *)

Section AssertScannersDisappear.
Context {W : Type}.
(** [manager->CountActiveScanners()] and [usleep], over a world. *)
Variable CountActiveScanners : W -> nat.
Variable usleep : Z -> W -> W.

(** [i < 10 ? 2000 : 20000] *)
Definition delay (i : Z) : Z := if i <? 10 then 2000 else 20000.

(** The [for] loop from iteration [i] on, with [left] iterations to go:
    [Some i] is the [return] at iteration [i]; [None] is the [FAIL()]
    after the loop. *)
Fixpoint poll (left : nat) (i : Z) (w : W) : option Z * W :=
  match left with
  | O => (None, w)
  | S left' =>
      if (CountActiveScanners w =? 0)%nat then (Some i, w)
      else poll left' (i + 1) (usleep (delay i) w)
  end.

Definition AssertScannersDisappear (w : W) : option Z * W := poll 500 0 w.

(** The world after the [k] sleeps that follow iteration [i]. *)
Fixpoint waited (k : nat) (i : Z) (w : W) : W :=
  match k with
  | O => w
  | S k' => waited k' (i + 1) (usleep (delay i) w)
  end.

End AssertScannersDisappear.

(** The microseconds of the first [k] sleeps. *)
Definition slept (k : Z) : Z := if k <=? 10 then 2000 * k else 20000 + 20000 * (k - 10).

(** The cluster while the test sleeps: a script says what happens in the
    cluster during each sleep, after the time of the sleep has passed; once
    the script is used up only time passes. *)
Definition Waiting : Type := Cluster.t * list (list Cluster.Event).

Definition sleep_in_cluster (us : Z) (w : Waiting) : Waiting :=
  match w.2 with
  | [] => (Cluster.run [Cluster.Tick (us * 1000)] w.1, [])
  | evs :: script => (Cluster.run (Cluster.Tick (us * 1000) :: evs) w.1, script)
  end.

(** [AssertScannersDisappear(manager)] on the tablet server of the
    cluster. *)
Definition AssertScannersDisappear_in_cluster (w : Waiting) : option Z * Waiting :=
  AssertScannersDisappear (fun w => ScanSystem.active w.1) sleep_in_cluster w.

Definition is_delivery (e : Cluster.Event) : bool :=
  match e with Cluster.DeliverClose => true | _ => false end.

(** The close requests that arrive during the first [k] sleeps. *)
Definition deliveries (k : nat) (script : list (list Cluster.Event)) : nat :=
  length (List.filter is_delivery (concat (take k script))).

(** *** The scan loops of the tests *)

(** [while (scanner.HasMoreRows()) { ASSERT_STATUS_OK(scanner.NextBatch(&rows)); body }]
    where the body works on the batch: [inr a] goes on with [a], [inl r]
    leaves the function ([FAIL()]).  [None] is "still looping"; a failed
    [NextBatch] ends the function with its status. *)
Fixpoint batch_loop {A R : Type} (fuel : nat) (body : A -> list Cells -> R + A) (acc : A)
    (sc : KuduScanner.t) (cl : Cluster.t)
  : option (Status.t + (R + A) * KuduScanner.t * Cluster.t) :=
  match fuel with
  | O => None
  | S n =>
      if KuduScanner.HasMoreRows sc then
        let '(s, rows, sc', cl') := KuduScanner.NextBatch sc cl in
        if Status.ok s then
          match body acc rows with
          | inl r => Some (inr (inl r, sc', cl'))
          | inr a => batch_loop n body a sc' cl'
          end
        else Some (inl s)
      else Some (inr (inr acc, sc, cl))
  end.

(** The body of such a loop over batches in a row. *)
Fixpoint run_batches {A R : Type} (body : A -> list Cells -> R + A) (acc : A)
    (batches : list (list Cells)) : R + A :=
  match batches with
  | [] => inr acc
  | b :: bs =>
      match body acc b with
      | inl r => inl r
      | inr a => run_batches body a bs
      end
  end.

(** The conversion to a C++ [int]. *)
Definition to_int (z : Z) : Z := (z + 2 ^ 31) mod 2 ^ 32 - 2 ^ 31.

(** [count += rows.size()] on an [int] count. *)
Definition add_size (count : Z) (rows : list Cells) : Empty_set + Z :=
  inr (to_int (count + Z.of_nat (length rows))).

(** [CountRowsFromClient], lines 161-172: the status that trips a
    [CHECK_OK], or the count; the scanner goes out of scope at the end. *)
Definition CountRowsFromClient (fuel : nat) (table : KuduTable.t) (cl : Cluster.t)
  : option (Status.t + Z * Cluster.t) :=
  let scanner := KuduScanner.new (Client.default_batch_size_bytes options) table in
  let '(s, scanner) := KuduScanner.SetProjection (KuduTable.schema table) scanner in
  if negb (Status.ok s) then Some (inl s) else
  let '(s, scanner, cl) := KuduScanner.Open scanner cl in
  if negb (Status.ok s) then Some (inl s) else
  match batch_loop fuel add_size 0 scanner cl with
  | None => None
  | Some (inl e) => Some (inl e)
  | Some (inr (inl r, _, _)) => match r with end
  | Some (inr (inr count, scanner, cl)) => Some (inr (count, KuduScanner.discard scanner cl))
  end.

(** [count += rows.size()] on a [uint64_t] count. *)
Definition add_size64 (count : Z) (rows : list Cells) : Empty_set + Z :=
  inr ((count + Z.of_nat (length rows)) mod 2 ^ 64).

(** [Schema empty_projection(vector<ColumnSchema>(), 0)] *)
Definition empty_projection : Schema.t := {| columns := []; num_key_columns := 0 |}.

(** [TestScanEmptyProjection] after its [InsertTestRows], lines 231-245:
    where the test stops, or the count that its last line compares with
    the number of rows. *)
Definition ScanEmptyProjection (fuel : nat) (batch_size : Z) (cl : Cluster.t)
  : option (Stopped + Z) :=
  let scanner := KuduScanner.new batch_size client_table_ in
  let '(s, scanner) := KuduScanner.SetProjection empty_projection scanner in
  if negb (Status.ok s) then Some (inl (NotOK s)) else
  let '(s, scanner, cl) := KuduScanner.Open scanner cl in
  if negb (Status.ok s) then Some (inl (NotOK s)) else
  if negb (KuduScanner.HasMoreRows scanner) then Some (inl NoMoreRows) else
  match batch_loop fuel add_size64 0 scanner cl with
  | None => None
  | Some (inl e) => Some (inl (NotOK e))
  | Some (inr (inl r, _, _)) => match r with end
  | Some (inr (inr count, _, _)) => Some (inr count)
  end.

(** The predicate of [DoTestScanWithStringPredicate], lines 136-139. *)
Definition string_predicate : Tablet.ColumnRangePredicate :=
  {| Tablet.pred_column := "string_val";
     Tablet.lower_bound := Some (Str "hello 2");
     Tablet.upper_bound := Some (Str "hello 3") |}.

(** Lines 152-155: the string of column 2 starts with "hello 2" or is
    "hello 3"; a row without a string there does not pass. *)
Definition passes (row : Cells) : bool :=
  match row !! 2%nat with
  | Some (Some (Str s)) => String.prefix "hello 2" s || String.eqb s "hello 3"
  | _ => false
  end.

(** The body of the loop, lines 150-156: [FAIL()] on the first row that
    does not pass, with that row. *)
Definition check_batch (_ : unit) (rows : list Cells) : Cells + unit :=
  match List.find (fun r => negb (passes r)) rows with
  | Some r => inl r
  | None => inr tt
  end.

(** [DoTestScanWithStringPredicate], lines 133-159: where the function
    stops, or [tt] when it reaches its end. *)
Definition DoTestScanWithStringPredicate (fuel : nat) (batch_size : Z) (cl : Cluster.t)
  : option (Stopped + unit) :=
  let scanner := KuduScanner.new batch_size client_table_ in
  let '(s, scanner) := KuduScanner.SetProjection schema_ scanner in
  if negb (Status.ok s) then Some (inl (NotOK s)) else
  let '(s, scanner) := KuduScanner.AddConjunctPredicate string_predicate scanner in
  if negb (Status.ok s) then Some (inl (NotOK s)) else
  let '(s, scanner, cl) := KuduScanner.Open scanner cl in
  if negb (Status.ok s) then Some (inl (NotOK s)) else
  if negb (KuduScanner.HasMoreRows scanner) then Some (inl NoMoreRows) else
  match batch_loop fuel check_batch tt scanner cl with
  | None => None
  | Some (inl e) => Some (inl (NotOK e))
  | Some (inr (inl r, _, _)) => Some (inl (Failed r))
  | Some (inr (inr _, _, _)) => Some (inr tt)
  end.

(** *** [TestWriteWithBadSchema], lines 488-520 *)

Definition bad_schema : Schema.t :=
  {| columns := [ {| col_name := "key"; col_type := UINT32; is_nullable := false |};
                  {| col_name := "bad_col"; col_type := UINT32; is_nullable := false |} ];
     num_key_columns := 1 |}.

(** [client_->OpenTable(tablet_id_, bad_schema, &table)] *)
Definition bad_table : KuduTable.t := {| KuduTable.name := tablet_id_; KuduTable.schema := bad_schema |}.

(** The insert of lines 501-503. *)
Definition bad_insert : WriteOp.t :=
  let insert := WriteOp.NewInsert bad_table in
  let insert := (WriteOp.mutable_row (PartialRow.SetUInt32 "key" 12345) insert).2 in
  (WriteOp.mutable_row (PartialRow.SetUInt32 "bad_col" 12345) insert).2.

(** The test up to its [Flush], lines 499-504. *)
Definition bad_schema_round : nat * Client.t * Cluster.t :=
  let '(sid, c) := manual_session in
  let '(_, _, c, cl) := Client.Apply sid bad_insert c cluster_ in
  (sid, c, cl).

End ClientTestMore.

(** ** Where the operations of a round go *)

Module Routing.






End Routing.

(** * Properties of [KuduTable::Data::Open] *)

Module OpenFacts.
Import Master TableInternal.

Section Body.
Context {W : Type}.
Variable env : ClientEnv W.
Variable cfg : ClientConfig.
Variable name_ : string.

Abbreviation body := (Open_body env cfg name_).
Abbreviation loop := (Open_loop env cfg name_).
Abbreviation timed_out := (Status.TimedOut (timed_out_message cfg)).

(** Leader rediscovery never leaves the function. *)
Lemma rediscover_leader_exit st c st' :
  rediscover_leader env st = (inl c, st') -> c = Continue.
Proof.
  unfold rediscover_leader, data_SetMasterServerProxy, mbind, L_bind.
  destruct (SetMasterServerProxy env (world st)) as [s w].
  destruct (Status.ok s); cbv; congruence.
Qed.

(** The one [return] inside the loop body is the deadline's. *)
Lemma Open_body_return deadline st s st' :
  body deadline st = (inl (Return s), st') -> s = timed_out.
Proof.
  unfold Open_body, mbind, L_bind, MonoTime_Now, master_proxy_GetTableLocations,
    get_resp, when, exit, ret, mret, L_ret, do_usleep.
  destruct (Now env (world st)) as [now w1].
  destruct (ComesBefore env deadline now); [congruence|]. cbn.
  destruct (GetTableLocations env _ _ _ w1) as [[s0 r] w2]. cbn.
  repeat match goal with
         | |- context [rediscover_leader env ?x] =>
             let H := fresh "R" in
             destruct (rediscover_leader env x) as [[?|?] ?] eqn:H;
             [apply rediscover_leader_exit in H; subst|]
         | |- context [match error ?r with _ => _ end] => destruct (error r)
         | |- context [if ?b then _ else _] => destruct b
         end; congruence.
Qed.

Lemma Open_loop_result fuel deadline st s st' :
  loop fuel deadline st = Some (s, st') -> s = Status.OK \/ s = timed_out.
Proof.
  revert st. induction fuel as [|n IH]; intros st; simpl; [congruence|].
  destruct (body deadline st) as [[[ | |s0]|[]] st1] eqn:B; eauto.
  - intros [= <- <-]. now left.
  - intros [= <- <-]. right. eapply Open_body_return, B.
Qed.

(** C1, as the code has it: an error of the master call that is not a
    network error, a timeout or a leader change is not returned.  The
    pass ends in [continue] (no rediscovery, no sleep), the loop goes on
    from the state the call left, and whatever [Open] returns later is
    [OK] or the deadline's [TimedOut]. *)
Theorem Open_retries_other_errors deadline st now w1 s r w2 :
  Now env (world st) = (now, w1) ->
  ComesBefore env deadline now = false ->
  GetTableLocations env (req name_) (default_admin_operation_timeout cfg) (resp st) w1
    = ((s, r), w2) ->
  other_error s r = true ->
  let st1 := {| resp := r; world := w2 |} in
  body deadline st = (inl Continue, st1) /\
  forall fuel,
    loop (S fuel) deadline st = loop fuel deadline st1 /\
    forall s' st', loop fuel deadline st1 = Some (s', st') ->
                   s' = Status.OK \/ s' = timed_out.
Proof.
  intros HN HD HG HO st1.
  assert (B : body deadline st = (inl Continue, st1)).
  { unfold Open_body, mbind, L_bind, MonoTime_Now, master_proxy_GetTableLocations,
      get_resp, when, exit, ret, mret, L_ret.
    rewrite HN, HD. cbn. rewrite HG. cbn.
    unfold other_error in HO.
    destruct (Status.ok s) eqn:Hok; cbn.
    - destruct (error r) as [e|]; [|discriminate].
      apply andb_prop in HO as [H1 H2].
      apply negb_true_iff in H1, H2. rewrite Hok, H1. cbn. rewrite Hok, H2. reflexivity.
    - apply andb_prop in HO as [H1 H2].
      apply negb_true_iff in H1, H2. rewrite H1. cbn. rewrite H2. cbn.
      destruct (error r); cbn; rewrite ?Hok; reflexivity. }
  split; [exact B|]. intros fuel. split.
  - simpl. rewrite B. reflexivity.
  - intros s' st'. apply Open_loop_result.
Qed.

(** C5, as the code has it: when [deadline.ComesBefore(now)] holds of the
    time read at loop entry, the pass returns [TimedOut] without calling
    the master, and the message carries the configured
    [default_select_master_timeout_] in milliseconds, whatever time has
    gone by.  This is so for every [MonoTime::ComesBefore]; when that
    comparison holds of every deadline at or before the time read, it is
    so at every loop entry whose time is greater than or equal to the
    deadline. *)
Theorem Open_times_out_past_deadline deadline st now w1 :
  Now env (world st) = (now, w1) ->
  let st1 := {| resp := resp st; world := w1 |} in
  let s := Status.TimedOut
             ("Timed out waiting for non-empty GetTableLocations reply from a leader master after "
                +:+ itoa (MonoTime.ToMilliseconds (default_select_master_timeout_ cfg))
                +:+ " ms.") in
  let times_out :=
    body deadline st = (inl (Return s), st1) /\
    (forall fuel, loop (S fuel) deadline st = Some (s, st1)) /\
    Status.IsTimedOut s = true in
  (ComesBefore env deadline now = true -> times_out) /\
  ((forall a b, a <= b -> ComesBefore env a b = true) -> deadline <= now -> times_out).
Proof.
  intros HN st1 s times_out.
  assert (H : ComesBefore env deadline now = true -> times_out).
  { intros HD.
    assert (B : body deadline st = (inl (Return s), st1)).
    { unfold Open_body, mbind, L_bind, MonoTime_Now, when, exit.
      rewrite HN, HD. reflexivity. }
    split; [exact B|]. split; [|reflexivity].
    intros fuel. simpl. rewrite B. reflexivity. }
  split; [exact H|]. intros Hle Hd. apply H, Hle, Hd.
Qed.

(** C6, as the code has it: an answered call without error that carries
    at least one tablet location ends the loop, [Open] returns [OK], and
    the state is the one the call left: [Open] does nothing with the
    locations. *)
Theorem Open_succeeds_on_locations deadline st now w1 s r w2 :
  Now env (world st) = (now, w1) ->
  ComesBefore env deadline now = false ->
  GetTableLocations env (req name_) (default_admin_operation_timeout cfg) (resp st) w1
    = ((s, r), w2) ->
  Status.ok s = true ->
  error r = None ->
  (0 < length (tablet_locations r))%nat ->
  let st1 := {| resp := r; world := w2 |} in
  body deadline st = (inl Break, st1) /\
  forall fuel, loop (S fuel) deadline st = Some (Status.OK, st1).
Proof.
  intros HN HD HG Hok He Hn st1.
  assert (B : body deadline st = (inl Break, st1)).
  { unfold Open_body, mbind, L_bind, MonoTime_Now, master_proxy_GetTableLocations,
      get_resp, when, exit, ret, mret, L_ret.
    rewrite HN, HD. cbn. rewrite HG. cbn. rewrite Hok. cbn. rewrite He, Hok. cbn.
    unfold tablet_locations_size.
    destruct (0 <? Z.of_nat (length (tablet_locations r))) eqn:E; [reflexivity|].
    apply Z.ltb_ge in E. lia. }
  split; [exact B|]. intros fuel. simpl. rewrite B. reflexivity.
Qed.

End Body.

Import Sim.

(** C1 as stated fails: the master answers "not found" (not a network
    error, not a timeout), or answers with an error of another code than
    the leader-change codes; either way the pass ends in [continue], and
    [Open] returns the deadline's [TimedOut], not the error. *)
Lemma Open_not_found_is_retried :
  (let w0 := start [not_found_call; not_found_call] [] in
   other_error no_such_table empty_response = true /\
   fst (Open_body env cfg "fake-table" (MonoTime.FromMilliseconds 5000)
          {| resp := empty_response; world := w0 |}) = inl Continue /\
   fst <$> Open env cfg "fake-table" 3 w0 = Some timed_out_5000) /\
  (let w0 := start [refusal_call; refusal_call] [] in
   other_error Status.OK refusal = true /\
   fst (Open_body env cfg "fake-table" (MonoTime.FromMilliseconds 5000)
          {| resp := empty_response; world := w0 |}) = inl Continue /\
   fst <$> Open env cfg "fake-table" 3 w0 = Some timed_out_5000) /\
  timed_out_5000 <> no_such_table.
Proof. repeat split; try (vm_compute; reflexivity). discriminate. Qed.

Lemma Open_retries_other_errors_witness :
  let w0 := start [not_found_call; not_found_call] [] in
  fst (Open_body env cfg "fake-table" (MonoTime.FromMilliseconds 5000)
         {| resp := empty_response; world := w0 |}) = inl Continue.
Proof.
  intros w0.
  pose proof (Open_retries_other_errors env cfg "fake-table"
                (MonoTime.FromMilliseconds 5000)
                {| resp := empty_response; world := w0 |}
                0 w0 no_such_table empty_response
                (snd (sim_GetTableLocations (req "fake-table") 0 empty_response w0))
                eq_refl eq_refl eq_refl eq_refl) as [B _].
  rewrite B. reflexivity.
Defined.

(** C5 as stated fails: the master answers after nine seconds, so nine
    seconds have gone by at the loop entry that times out, and the message
    says 5000 ms, the configured timeout.  This is so whether
    [ComesBefore] is read as strictly earlier or as not later. *)
Lemma Open_reports_configured_timeout :
  let w0 := start [slow_not_found_call] [] in
  let elapsed_9000 :=
    "Timed out waiting for non-empty GetTableLocations reply from a leader master after 9000 ms." in
  (exists st, Open (env_with earlier) cfg "fake-table" 2 w0 = Some (timed_out_5000, st) /\
     MonoTime.ToMilliseconds (MonoTime.GetDeltaSince (clock (world st)) (clock w0)) = 9000 /\
     Status.message timed_out_5000 <> elapsed_9000) /\
  (exists st, Open (env_with not_later) cfg "fake-table" 2 w0 = Some (timed_out_5000, st) /\
     MonoTime.ToMilliseconds (MonoTime.GetDeltaSince (clock (world st)) (clock w0)) = 9000 /\
     Status.message timed_out_5000 <> elapsed_9000).
Proof.
  split; (eexists; split; [vm_compute; reflexivity|]; split; [vm_compute; reflexivity|]);
    discriminate.
Qed.

Lemma Open_times_out_past_deadline_witness :
  let w1 := snd (sim_GetTableLocations (req "fake-table") 0 empty_response
                   (start [slow_not_found_call] [])) in
  Open_loop env cfg "fake-table" 1 (MonoTime.FromMilliseconds 5000)
    {| resp := empty_response; world := w1 |}
  = Some (timed_out_5000, {| resp := empty_response; world := w1 |}).
Proof.
  intros w1.
  exact (proj1 (proj2 (proj1 (Open_times_out_past_deadline env cfg "fake-table"
                                (MonoTime.FromMilliseconds 5000)
                                {| resp := empty_response; world := w1 |}
                                (clock w1) w1 eq_refl) eq_refl)) 0%nat).
Defined.

(** C6 as stated fails: the master answers with one tablet, [Open]
    returns [OK], and the client's location cache holds nothing for the
    table afterwards. *)
Lemma Open_leaves_location_cache :
  let w0 := start [located_call] [] in
  exists st, Open env cfg "fake-table" 1 w0 = Some (Status.OK, st) /\
    tablet_locations (resp st) = [one_tablet] /\
    location_cache (world st) !! "fake-table" = None.
Proof.
  eexists. split; [vm_compute; reflexivity|]. split; reflexivity.
Qed.

Lemma Open_succeeds_on_locations_witness :
  let w0 := start [located_call] [] in
  Open_loop env cfg "fake-table" 1 (MonoTime.FromMilliseconds 5000)
    {| resp := empty_response; world := w0 |}
  = Some (Status.OK,
          {| resp := located;
             world := snd (sim_GetTableLocations (req "fake-table") 0 empty_response w0) |}).
Proof.
  intros w0.
  refine (proj2 (Open_succeeds_on_locations env cfg "fake-table"
                   (MonoTime.FromMilliseconds 5000)
                   {| resp := empty_response; world := w0 |}
                   0 w0 Status.OK located _ eq_refl eq_refl eq_refl eq_refl eq_refl _) 0%nat).
  simpl. lia.
Defined.

End OpenFacts.

(** * Properties of the tablet's row operations *)

Module TabletFacts.
Import Tablet.






End TabletFacts.

(** * Properties of write sessions *)

Module SessionFacts.
Import ErrorCollector Client.

(** Projections of the client through the setters. *)
Ltac proj :=
  cbn [options location_cache sessions batchers invoked next_id
       with_sessions with_cache with_batchers invoke fresh update_session report
       owner callback in_flight had_errors] in *.


Lemma AddErrors_app es1 es2 ec :
  AddErrors (es1 ++ es2) ec = AddErrors es2 (AddErrors es1 ec).
Proof. unfold AddErrors. apply foldl_app. Qed.

Lemma add_errors_app es1 es2 s :
  add_errors (es1 ++ es2) s = add_errors es2 (add_errors es1 s).
Proof. unfold add_errors, set_collector. simpl. rewrite AddErrors_app. reflexivity. Qed.

Lemma add_errors_nil s : add_errors [] s = s.
Proof. destruct s. reflexivity. Qed.

Lemma is_nil_app {A} (l1 l2 : list A) :
  negb (is_nil (l1 ++ l2)) = negb (is_nil l1) || negb (is_nil l2).
Proof. destruct l1, l2; reflexivity. Qed.


Lemma cache_only_refl c : cache_only c c.
Proof. repeat split. Qed.

Lemma cache_only_trans c1 c2 c3 : cache_only c1 c2 -> cache_only c2 c3 -> cache_only c1 c3.
Proof. unfold cache_only. intuition congruence. Qed.

(** A table the master knows is resolved by the first pass of the
    loop. *)
Lemma ResolveTablet_found o table tablet cl :
  Cluster.GetTableLocations table cl = inr tablet ->
  ResolveTablet o table cl = inr tablet.
Proof.
  intros Hg. unfold ResolveTablet, ResolveLocations, TableInternal.Open, resolver_passes.
  cbn [master_env TableInternal.Now TableInternal.Open_loop].
  unfold TableInternal.Open_body, TableInternal.MonoTime_Now,
    TableInternal.master_proxy_GetTableLocations, TableInternal.get_resp,
    TableInternal.when, TableInternal.exit, TableInternal.ret, mbind,
    TableInternal.L_bind, mret, TableInternal.L_ret.
  cbn [master_env TableInternal.Now TableInternal.ComesBefore TableInternal.GetTableLocations
         TableInternal.world TableInternal.resp the_clock the_cluster
         resolver_config TableInternal.default_select_master_timeout_
         TableInternal.default_admin_operation_timeout].
  assert (Hd : (MonoTime.AddDelta (Cluster.now cl)
                  (MonoTime.FromMilliseconds (Z.pos (select_master_timeout_ms o)))
                <=? Cluster.now cl) = false)
    by (apply Z.leb_gt; unfold MonoTime.AddDelta, MonoTime.FromMilliseconds; lia).
  rewrite Hd. unfold master_GetTableLocations.
  cbn [tick the_cluster TableInternal.req Master.table_name TableInternal.world
         TableInternal.resp].
  rewrite Hg. reflexivity.
Qed.

Lemma resolve_cache_only table c cl r c' :
  resolve table c cl = (r, c') -> cache_only c c'.
Proof.
  unfold resolve. destruct (location_cache c !! table).
  - intros [= <- <-]. apply cache_only_refl.
  - destruct (ResolveTablet (options c) table cl); intros [= <- <-];
      [apply cache_only_refl | repeat split].
Qed.

Lemma route_cache_only ops : forall c cl bs es bs' es' c',
  route ops c cl bs es = (bs', es', c') -> cache_only c c'.
Proof.
  induction ops as [|op ops IH]; intros c cl bs es bs' es' c'; simpl.
  - intros [= <- <- <-]. apply cache_only_refl.
  - destruct (resolve _ c cl) as [[e|tablet] c1] eqn:R; intros H;
      apply IH in H; eapply cache_only_trans; eauto using resolve_cache_only.
Qed.

Lemma resolve_resolves table tablet c cl :
  resolves table tablet c cl ->
  exists c', resolve table c cl = (inr tablet, c') /\
    forall table' tablet', resolves table' tablet' c cl -> resolves table' tablet' c' cl.
Proof.
  unfold resolves, resolve. intros [H|[H1 H2]].
  - rewrite H. exists c. auto.
  - rewrite H1, (ResolveTablet_found _ _ _ _ H2). eexists. split; [reflexivity|].
    intros table' tablet' [H|[H3 H4]]; simpl.
    + left. destruct (decide (table = table')) as [->|Hne]; [congruence|].
      rewrite lookup_insert_ne; assumption.
    + destruct (decide (table = table')) as [->|Hne].
      * left. rewrite lookup_insert_eq. congruence.
      * right. rewrite lookup_insert_ne; auto.
Qed.


(** Operations of one table end up in one batch, in order. *)
Lemma route_one_table table tablet ops : forall c cl ops0 es,
  resolves table tablet c cl ->
  Forall (fun op => KuduTable.name (WriteOp.table op) = table) ops ->
  exists c', route ops c cl [(tablet, ops0)] es = ([(tablet, ops0 ++ ops)], es, c').
Proof.
  induction ops as [|op ops IH]; intros c cl ops0 es Hr Hall; simpl.
  - exists c. rewrite app_nil_r. reflexivity.
  - inversion Hall as [|? ? Hop Hall']; subst.
    destruct (resolve_resolves _ _ _ _ Hr) as (c1 & -> & Hp).
    rewrite String.eqb_refl.
    destruct (IH c1 cl (ops0 ++ [op]) es (Hp _ _ Hr) Hall') as (c' & ->).
    exists c'. rewrite <- app_assoc. reflexivity.
Qed.

Lemma route_one_table_start table tablet op ops c cl :
  resolves table tablet c cl ->
  Forall (fun op => KuduTable.name (WriteOp.table op) = table) (op :: ops) ->
  exists c', route (op :: ops) c cl [] [] = ([(tablet, op :: ops)], [], c').
Proof.
  intros Hr Hall. inversion Hall as [|? ? Hop Hall']; subst. simpl.
  destruct (resolve_resolves _ _ _ _ Hr) as (c1 & -> & Hp). simpl.
  apply (route_one_table _ _ ops c1 cl [op] [] (Hp _ _ Hr) Hall').
Qed.


(** The answer to the write of the first batch in flight. *)
Lemma complete_head bid tablet ops rest b c cl :
  batchers c !! bid = Some b ->
  in_flight b = (tablet, ops) :: rest ->
  let w := TServer.Write tablet (map WriteOp.to_row_op ops) (Cluster.tserver cl) in
  let es := batch_errors ops w.1 in
  let seen := had_errors b || negb (is_nil es) in
  complete bid tablet c cl
  = match rest with
    | [] => (Some (aggregate seen), es,
             invoke (callback b) (aggregate seen)
               (with_batchers (delete bid (batchers c)) (report (owner b) es c)),
             Cluster.with_tserver w.2 cl)
    | _ :: _ => (None, es,
                 with_batchers
                   (<[bid := {| owner := owner b; callback := callback b;
                                in_flight := rest; had_errors := seen |}]> (batchers c))
                   (report (owner b) es c),
                 Cluster.with_tserver w.2 cl)
    end.
Proof.
  intros Hb Hf w es seen. unfold complete. rewrite Hb, Hf. cbn [take_batch].
  rewrite String.eqb_refl. fold w. destruct w as [res ts] eqn:Hw.
  cbn [fst snd] in es. fold es. fold seen. destruct rest; reflexivity.
Qed.

(** Waiting for a round in flight: the writes are answered in the order
    of dispatch, the session that started the round gets the errors, the
    round leaves the batchers and ends with the aggregate status. *)
Lemma wait_all bid : forall bs b c cl last,
  batchers c !! bid = Some b ->
  in_flight b = bs ->
  bs <> [] ->
  let es := (write_all bs cl).1 in
  let st := aggregate (had_errors b || negb (is_nil es)) in
  exists c',
    wait (bs.*1) bid last c cl = (st, es, c', (write_all bs cl).2) /\
    sessions c' = alter (add_errors es) (owner b) (sessions c) /\
    batchers c' = delete bid (batchers c) /\
    invoked c' = invoked c ++ from_option (fun token => [(token, st)]) [] (callback b) /\
    next_id c' = next_id c /\ location_cache c' = location_cache c /\
    options c' = options c.
Proof.
  induction bs as [|[tablet ops] rest IH]; intros b c cl last Hb Hf Hne; [congruence|].
  pose proof (complete_head bid tablet ops rest b c cl Hb Hf) as Hc. cbn zeta in Hc.
  set (w := TServer.Write tablet (map WriteOp.to_row_op ops) (Cluster.tserver cl)) in *.
  set (es1 := batch_errors ops w.1) in *.
  destruct rest as [|r rest'].
  - cbn [fmap list_fmap fst wait write_all]. rewrite Hc.
    fold w. cbn [wait write_all default fst snd]. fold es1. rewrite app_nil_r.
    eexists. split; [reflexivity|].
    destruct (callback b); proj; cbn [from_option]; rewrite ?app_nil_r; repeat split.
  - set (b' := {| owner := owner b; callback := callback b; in_flight := r :: rest';
                  had_errors := had_errors b || negb (is_nil es1) |}) in *.
    set (c1 := with_batchers (<[bid := b']> (batchers c)) (report (owner b) es1 c)) in *.
    destruct (IH b' c1 (Cluster.with_tserver w.2 cl) (default last None))
      as (c' & Hw & Hss & Hbs & Hiv & Hn & Hlc & Ho);
      [subst c1; proj; apply lookup_insert_eq | reflexivity | discriminate |].
    change (((tablet, ops) :: r :: rest').*1) with (tablet :: (r :: rest').*1).
    cbn [wait]. rewrite Hc, Hw.
    change (write_all ((tablet, ops) :: r :: rest') cl)
      with (let '(es, cl') := write_all (r :: rest') (Cluster.with_tserver w.2 cl) in
            (es1 ++ es, cl')).
    destruct (write_all (r :: rest') (Cluster.with_tserver w.2 cl)) as [es2 cl2] eqn:Hwa.
    cbn [fst snd had_errors callback owner] in *.
    rewrite is_nil_app, orb_assoc.
    eexists. split; [reflexivity|].
    subst c1. proj. rewrite Hss, Hbs, Hiv, Hn, Hlc, Ho.
    repeat split.
    + rewrite alter_alter_eq. apply alter_ext. intros s _. simpl.
      rewrite add_errors_app. reflexivity.
    + rewrite delete_insert_eq. reflexivity.
Qed.

(** A whole round: the errors are those of routing followed by those of
    the writes, the status is the aggregate of whether there are any, the
    session's buffer is empty and its collector has been given the
    errors; no user callback is involved. *)
Lemma flush_round_spec sid s c cl bs es0 c1 esw cl' :
  sessions c !! sid = Some s ->
  route (buffer s) c cl [] [] = (bs, es0, c1) ->
  write_all bs cl = (esw, cl') ->
  exists c',
    flush_round sid c cl = (aggregate (negb (is_nil (es0 ++ esw))), es0 ++ esw, c', cl') /\
    sessions c' !! sid = Some (add_errors (es0 ++ esw) (set_buffer [] s)) /\
    invoked c' = invoked c.
Proof.
  intros Hs Hr Hw. unfold flush_round, FlushAsync. rewrite Hs, Hr.
  destruct (route_cache_only _ _ _ _ _ _ _ _ Hr) as (Ho & Hss & Hbs & Hi & Hn).
  destruct bs as [|b0 bs'].
  - cbn in Hw. injection Hw as <- <-. rewrite app_nil_r.
    eexists. split; [reflexivity|]. proj. split; [|assumption].
    rewrite !lookup_alter_eq, Hss, Hs. reflexivity.
  - cbn [fresh].
    set (c2 := report sid es0 (update_session sid (set_buffer []) c1)).
    set (b := {| owner := sid; callback := None; in_flight := b0 :: bs';
                 had_errors := negb (is_nil es0) |}).
    set (c3 := with_batchers (<[next_id c2 := b]> (batchers _)) _).
    assert (Hb : batchers c3 !! next_id c2 = Some b)
      by (subst c3; proj; apply lookup_insert_eq).
    destruct (wait_all (next_id c2) (b0 :: bs') b c3 cl Status.OK Hb eq_refl)
      as (c' & Hwt & Hss' & _ & Hiv & _); [discriminate|].
    rewrite Hw in Hwt, Hss', Hiv. cbn [fst snd had_errors callback owner] in Hwt, Hss', Hiv.
    rewrite Hb. cbn [from_option]. change (in_flight b) with (b0 :: bs').
    rewrite Hwt.
    rewrite is_nil_app. eexists. split; [reflexivity|].
    rewrite Hss', Hiv. subst c3 c2 b. proj. cbn [from_option].
    rewrite app_nil_r, !lookup_alter_eq, Hss, Hs. split; [|assumption].
    cbn [fmap option_fmap option_map]. rewrite add_errors_app. reflexivity.
Qed.

Lemma Flush_flush_round sid c cl st es c' cl' :
  flush_round sid c cl = (st, es, c', cl') -> Flush sid c cl = (st, c', cl').
Proof. intros H. unfold Flush. rewrite H. reflexivity. Qed.

Lemma with_tserver_same cl : Cluster.with_tserver (Cluster.tserver cl) cl = cl.
Proof. destruct cl. reflexivity. Qed.

(** What the collector of an empty, roomy collector holds after one
    error. *)
Lemma AddErrors_one e ec :
  errors ec = [] -> overflowed ec = false -> (0 < capacity ec)%nat ->
  errors (AddErrors [e] ec) = [e] /\ overflowed (AddErrors [e] ec) = false.
Proof.
  intros He Ho Hc. unfold AddErrors, AddError. simpl. rewrite He. simpl.
  destruct (0 <? capacity ec)%nat eqn:E; [simpl; auto|].
  apply Nat.ltb_ge in E. lia.
Qed.



Lemma pending_errors sid c s :
  sessions c !! sid = Some s ->
  CountPendingErrors sid c = length (errors (error_collector s)) /\
  (GetPendingErrors sid c).1 = (errors (error_collector s), overflowed (error_collector s)).
Proof.
  intros Hs. unfold CountPendingErrors, GetPendingErrors. rewrite Hs. split; reflexivity.
Qed.



Import ClientTest.


End SessionFacts.
(** * Properties of scans *)

Module ScannerFacts.
Import Schema TServer.

(** A batch and what is left after it make up the rows. *)
Lemma fill_split budget rs : forall acc,
  (fill budget acc rs).1 ++ (fill budget acc rs).2 = rs.
Proof.
  induction rs as [|r rs IH]; intros acc; simpl; [reflexivity|].
  destruct (acc <? budget); [|reflexivity].
  specialize (IH (acc + row_bytes r)).
  destruct (fill budget (acc + row_bytes r) rs). simpl in *. congruence.
Qed.

Lemma next_batch_split budget rs :
  (next_batch budget rs).1 ++ (next_batch budget rs).2 = rs.
Proof.
  destruct rs as [|r rs]; simpl; [reflexivity|].
  pose proof (fill_split budget rs (row_bytes r)) as H.
  destruct (fill budget (row_bytes r) rs). simpl in *. congruence.
Qed.

(** A continuation batch makes progress. *)
Lemma next_batch_shorter budget r rs :
  (length (next_batch budget (r :: rs)).2 < length (r :: rs))%nat.
Proof.
  pose proof (next_batch_split budget (r :: rs)) as H.
  apply (f_equal (@length _)) in H. rewrite length_app in H.
  assert ((next_batch budget (r :: rs)).1 <> []).
  { simpl. destruct (fill budget (row_bytes r) rs). discriminate. }
  destruct (next_batch budget (r :: rs)).1; [congruence|]. simpl in *. lia.
Qed.

Lemma first_batch_split budget rs :
  (first_batch budget rs).1 ++ (first_batch budget rs).2 = rs.
Proof.
  unfold first_batch. destruct (budget <=? 0); [reflexivity|]. apply next_batch_split.
Qed.

(** The loop over a registered scanner: the remaining rows are folded, in
    order, whatever the batches, and the scanner is unregistered once the
    last row is out. *)
Lemma scan_loop_registered {A} (f : A -> Cells -> A) fuel : forall rs acc sc cl id e,
  (length rs < fuel)%nat ->
  rs <> [] ->
  KuduScanner.data_in_open_ sc = false ->
  has_more_results (KuduScanner.last_response_ sc) = true ->
  scanner_id (KuduScanner.last_response_ sc) = Some id ->
  running (Cluster.tserver cl) = true ->
  scanners (Cluster.tserver cl) !! id = Some e ->
  remaining e = rs ->
  exists sc' cl',
    KuduScanner.scan_loop fuel f acc sc cl = Some (inr (foldl f acc rs, sc', cl')) /\
    scanners (Cluster.tserver cl') = delete id (scanners (Cluster.tserver cl)).
Proof.
  induction fuel as [|fuel IH]; intros rs acc sc cl id e Hlen Hne Hd Hm Hid Hrun He Hrem; [lia|].
  destruct rs as [|r rs]; [congruence|].
  cbn [KuduScanner.scan_loop]. unfold KuduScanner.HasMoreRows. rewrite Hd, Hm. cbn [orb].
  unfold KuduScanner.NextBatch. rewrite Hd, Hm, Hid.
  unfold ScanNext. rewrite Hrun, He, Hrem.
  pose proof (next_batch_split (budget e) (r :: rs)) as Hsplit.
  pose proof (next_batch_shorter (budget e) r rs) as Hshort.
  destruct (next_batch (budget e) (r :: rs)) as [batch rest]. cbn [fst snd] in *.
  destruct rest as [|r' rest'].
  - rewrite app_nil_r in Hsplit. subst batch. cbn [Status.ok Status.code Status.OK Status.code_eqb].
    destruct fuel as [|fuel]; [simpl in Hlen; lia|].
    cbn [KuduScanner.scan_loop KuduScanner.HasMoreRows KuduScanner.with_response
         KuduScanner.data_in_open_ KuduScanner.last_response_ has_more_results orb].
    eexists _, _. split; [reflexivity|]. reflexivity.
  - cbn [Status.ok Status.code Status.OK Status.code_eqb].
    set (e' := {| remaining := r' :: rest'; budget := budget e;
                  last_activity := Cluster.now cl |}).
    set (sc1 := KuduScanner.with_response _ _ _ sc).
    set (cl1 := Cluster.with_tserver _ cl).
    destruct (IH (r' :: rest') (foldl f acc batch) sc1 cl1 id e')
      as (sc' & cl' & Hl & Hs); try reflexivity.
    + simpl in *. lia.
    + discriminate.
    + subst cl1. simpl. exact Hrun.
    + subst cl1. simpl. apply lookup_insert_eq.
    + exists sc', cl'. cbn [data]. rewrite Hl, <- Hsplit, foldl_app. split; [reflexivity|].
      rewrite Hs. subst cl1. simpl. apply delete_insert_eq.
Qed.

(** What [Open] does when the table resolves and the server answers. *)
Lemma Open_answered sc cl tablet tb :
  Cluster.GetTableLocations (KuduTable.name (KuduScanner.table sc)) cl = inr tablet ->
  running (Cluster.tserver cl) = true ->
  tablets (Cluster.tserver cl) !! tablet = Some tb ->
  let ts := Cluster.tserver cl in
  let rows := Tablet.scan_rows tb (KuduScanner.projection sc) (KuduScanner.predicates sc) in
  let batch := (first_batch (KuduScanner.batch_size_bytes sc) rows).1 in
  let rest := (first_batch (KuduScanner.batch_size_bytes sc) rows).2 in
  KuduScanner.Open sc cl
  = match rest with
    | [] =>
        (Status.OK,
         KuduScanner.with_response true (bool_decide (batch <> []))
           {| scanner_id := None; data := batch; has_more_results := false |} sc,
         Cluster.with_tserver ts cl)
    | _ :: _ =>
        (Status.OK,
         KuduScanner.with_response true (bool_decide (batch <> []))
           {| scanner_id := Some (next_scanner_id ts); data := batch;
              has_more_results := true |} sc,
         Cluster.with_tserver
           (with_scanners
              (<[next_scanner_id ts := {| remaining := rest;
                                          budget := KuduScanner.batch_size_bytes sc;
                                          last_activity := Cluster.now cl |}]> (scanners ts))
              (S (next_scanner_id ts)) ts) cl)
    end.
Proof.
  intros Hg Hrun Htb. cbv zeta. unfold KuduScanner.Open, ScanOpen.
  rewrite Hg, Hrun, Htb.
  destruct (first_batch _ _) as [batch rest].
  cbn [fst snd]. destruct rest; reflexivity.
Qed.

(** A whole scan: after [Open], the loop folds every row of the scan, in
    order, given fuel for one pass per row and two more. *)
Lemma scan_all {A} (f : A -> Cells -> A) fuel acc sc cl tablet tb :
  Cluster.GetTableLocations (KuduTable.name (KuduScanner.table sc)) cl = inr tablet ->
  running (Cluster.tserver cl) = true ->
  tablets (Cluster.tserver cl) !! tablet = Some tb ->
  let rows := Tablet.scan_rows tb (KuduScanner.projection sc) (KuduScanner.predicates sc) in
  (length rows + 2 <= fuel)%nat ->
  exists sc1 cl1 sc2 cl2,
    KuduScanner.Open sc cl = (Status.OK, sc1, cl1) /\
    KuduScanner.scan_loop fuel f acc sc1 cl1 = Some (inr (foldl f acc rows, sc2, cl2)) /\
    KuduScanner.HasMoreRows sc1 = negb (Client.is_nil rows).
Proof.
  intros Hg Hrun Htb rows Hfuel.
  rewrite (Open_answered sc cl tablet tb Hg Hrun Htb). fold rows.
  pose proof (first_batch_split (KuduScanner.batch_size_bytes sc) rows) as Hsplit.
  destruct (first_batch (KuduScanner.batch_size_bytes sc) rows) as [batch rest].
  cbn [fst snd] in *.
  destruct fuel as [|[|fuel]]; try lia.
  destruct rest as [|r rest].
  - rewrite app_nil_r in Hsplit. subst batch.
    destruct rows as [|r0 rows'].
    + eexists _, _, _, _. split; [reflexivity|]. split; reflexivity.
    + eexists _, _, _, _. split; [reflexivity|]. split; reflexivity.
  - set (e := {| remaining := r :: rest; budget := KuduScanner.batch_size_bytes sc;
                 last_activity := Cluster.now cl |}).
    set (id := next_scanner_id (Cluster.tserver cl)).
    set (cl1 := Cluster.with_tserver _ cl).
    assert (Hrun1 : running (Cluster.tserver cl1) = true) by exact Hrun.
    assert (He : scanners (Cluster.tserver cl1) !! id = Some e)
      by (subst cl1; simpl; apply lookup_insert_eq).
    assert (Hrows : rows <> []) by (intros E; rewrite E in Hsplit; destruct batch; discriminate).
    destruct batch as [|b0 batch].
    + simpl in Hsplit.
      set (sc1 := KuduScanner.with_response _ _ _ sc).
      destruct (scan_loop_registered f (S (S fuel)) (r :: rest) acc sc1 cl1 id e)
        as (sc2 & cl2 & Hl & _); try reflexivity; try assumption.
      * rewrite Hsplit. lia.
      * discriminate.
      * exists sc1, cl1, sc2, cl2. rewrite Hl, Hsplit. split; [reflexivity|].
        split; [reflexivity|]. destruct rows; [congruence|reflexivity].
    + set (resp := {| scanner_id := Some id; data := b0 :: batch; has_more_results := true |}).
      set (sc1 := KuduScanner.with_response true (bool_decide (b0 :: batch <> [])) resp sc).
      set (sc1' := KuduScanner.with_response true false resp sc1).
      destruct (scan_loop_registered f (S fuel) (r :: rest) (foldl f acc (b0 :: batch))
                  sc1' cl1 id e)
        as (sc2 & cl2 & Hl & _); try reflexivity; try assumption.
      * apply (f_equal (@length _)) in Hsplit. rewrite length_app in Hsplit.
        simpl in *. lia.
      * discriminate.
      * exists sc1, cl1, sc2, cl2. split; [reflexivity|].
        split; [|destruct rows; [congruence|reflexivity]].
        rewrite <- Hsplit, foldl_app. rewrite <- Hl. reflexivity.
Qed.

(** A budget above the bytes of all the rows takes them all at once. *)
Lemma fill_all budget rs : forall acc,
  acc + foldr (fun r a => row_bytes r + a) 0 rs < budget ->
  (forall r, r ∈ rs -> 0 <= row_bytes r) ->
  fill budget acc rs = (rs, []).
Proof.
  induction rs as [|r rs IH]; intros acc Hb Hpos; simpl in *; [reflexivity|].
  assert (0 <= row_bytes r) by (apply Hpos; left).
  assert (0 <= foldr (fun r a => row_bytes r + a) 0 rs).
  { clear -Hpos. induction rs as [|r' rs IH]; simpl; [lia|].
    assert (0 <= row_bytes r') by (apply Hpos; right; left).
    assert (0 <= foldr (fun r a => row_bytes r + a) 0 rs); [|lia].
    apply IH. intros x Hx. apply Hpos. inversion Hx; subst; [left|right; right; assumption]. }
  destruct (acc <? budget) eqn:E; [|apply Z.ltb_ge in E; lia].
  rewrite IH; [reflexivity|lia|]. intros x Hx. apply Hpos. right. assumption.
Qed.

Lemma row_bytes_nonneg r : 0 <= row_bytes r.
Proof.
  induction r as [|c r IH]; simpl; [lia|].
  destruct c as [[z|s]|]; simpl; lia.
Qed.

Lemma first_batch_all budget rs :
  foldr (fun r a => row_bytes r + a) 0 rs < budget ->
  first_batch budget rs = (rs, []).
Proof.
  intros Hb. unfold first_batch.
  assert (0 <= foldr (fun r a => row_bytes r + a) 0 rs).
  { clear. induction rs as [|r rs IH]; simpl; [lia|]. pose proof (row_bytes_nonneg r). lia. }
  destruct (budget <=? 0) eqn:E; [apply Z.leb_le in E; lia|].
  destruct rs as [|r rs]; [reflexivity|]. simpl in *.
  rewrite fill_all; [reflexivity|lia|]. intros. apply row_bytes_nonneg.
Qed.

(** C10: whether [Open] registers a scanner is a matter of the batch-size
    budget.  On a table with rows to scan: when the opening response
    carries the whole scan (as it does under a budget above the bytes of
    the rows), no scanner is registered and the count of active scanners is
    what it was; with a budget of zero bytes the opening response carries
    no data and exactly one scanner is registered. *)
Theorem Open_registers_by_budget sc cl tablet tb :
  Cluster.GetTableLocations (KuduTable.name (KuduScanner.table sc)) cl = inr tablet ->
  running (Cluster.tserver cl) = true ->
  tablets (Cluster.tserver cl) !! tablet = Some tb ->
  scanners (Cluster.tserver cl) !! next_scanner_id (Cluster.tserver cl) = None ->
  let rows := Tablet.scan_rows tb (KuduScanner.projection sc) (KuduScanner.predicates sc) in
  rows <> [] ->
  ((first_batch (KuduScanner.batch_size_bytes sc) rows).2 = [] ->
   exists sc' cl',
     KuduScanner.Open sc cl = (Status.OK, sc', cl') /\
     scanner_id (KuduScanner.last_response_ sc') = None /\
     data (KuduScanner.last_response_ sc') = rows /\
     CountActiveScanners (Cluster.tserver cl') = CountActiveScanners (Cluster.tserver cl)) /\
  (foldr (fun r a => row_bytes r + a) 0 rows < KuduScanner.batch_size_bytes sc ->
   (first_batch (KuduScanner.batch_size_bytes sc) rows).2 = []) /\
  (KuduScanner.batch_size_bytes sc = 0 ->
   exists sc' cl',
     KuduScanner.Open sc cl = (Status.OK, sc', cl') /\
     data (KuduScanner.last_response_ sc') = [] /\
     KuduScanner.data_in_open_ sc' = false /\
     scanner_id (KuduScanner.last_response_ sc') = Some (next_scanner_id (Cluster.tserver cl)) /\
     KuduScanner.HasMoreRows sc' = true /\
     CountActiveScanners (Cluster.tserver cl')
     = S (CountActiveScanners (Cluster.tserver cl))).
Proof.
  intros Hg Hrun Htb Hfresh rows Hrows.
  pose proof (Open_answered sc cl tablet tb Hg Hrun Htb) as Ho. cbv zeta in Ho. fold rows in Ho.
  pose proof (first_batch_split (KuduScanner.batch_size_bytes sc) rows) as Hsplit.
  split; [|split].
  - intros Hall. rewrite Hall in Ho, Hsplit. rewrite app_nil_r in Hsplit.
    eexists _, _. split; [exact Ho|]. cbn. rewrite Hsplit. repeat split.
  - intros Hb. rewrite first_batch_all by exact Hb. reflexivity.
  - intros Hz. unfold first_batch in Ho. rewrite Hz in Ho. cbn [Z.leb Z.compare fst snd] in Ho.
    destruct rows as [|r rows'] eqn:E; [congruence|].
    eexists _, _. split; [exact Ho|]. cbn. repeat split.
    unfold CountActiveScanners. apply map_size_insert_None. exact Hfresh.
Qed.

Import ClientTest.

Lemma Open_registers_by_budget_witness :
  CountActiveScanners (Cluster.tserver ten_rows) = 0%nat /\
  (exists sc' cl',
     KuduScanner.Open (close_test_scanner false) ten_rows = (Status.OK, sc', cl') /\
     length (data (KuduScanner.last_response_ sc')) = 10%nat /\
     CountActiveScanners (Cluster.tserver cl') = 0%nat) /\
  (exists sc' cl',
     KuduScanner.Open (close_test_scanner true) ten_rows = (Status.OK, sc', cl') /\
     data (KuduScanner.last_response_ sc') = [] /\
     CountActiveScanners (Cluster.tserver cl') = 1%nat).
Proof.
  pose (tb := default (Tablet.empty schema_) (tablets (Cluster.tserver ten_rows) !! tablet_id_)).
  assert (Hrows : forall z, Tablet.scan_rows tb (KuduScanner.projection (close_test_scanner z))
                              (KuduScanner.predicates (close_test_scanner z)) <> [])
    by (intros []; vm_compute; discriminate).
  split; [reflexivity|]. split.
  - destruct (Open_registers_by_budget (close_test_scanner false) ten_rows tablet_id_ tb
                eq_refl eq_refl eq_refl eq_refl (Hrows false)) as (H1 & H2 & _).
    destruct (H1 (H2 ltac:(vm_compute; reflexivity))) as (sc' & cl' & Ho & _ & Hd & Hc).
    exists sc', cl'. split; [exact Ho|]. rewrite Hd, Hc. split; reflexivity.
  - destruct (Open_registers_by_budget (close_test_scanner true) ten_rows tablet_id_ tb
                eq_refl eq_refl eq_refl eq_refl (Hrows true)) as (_ & _ & H3).
    destruct (H3 eq_refl) as (sc' & cl' & Ho & Hd & _ & _ & _ & Hc).
    exists sc', cl'. split; [exact Ho|]. rewrite Hd, Hc. split; reflexivity.
Defined.

Lemma filter_no_predicates tb l : List.filter (Tablet.matches tb []) l = l.
Proof. induction l as [|x l IH]; simpl; [reflexivity|]. rewrite IH. reflexivity. Qed.

(** The wrapped sum of the loop is the plain sum, reduced. *)
Lemma foldl_add_key rows : forall s,
  foldl add_key (s mod 2 ^ 64) rows = (s + key_sum rows) mod 2 ^ 64.
Proof.
  induction rows as [|r rows IH]; intros s; simpl.
  - rewrite Z.add_0_r. reflexivity.
  - unfold add_key at 2. cbv zeta. rewrite Zplus_mod_idemp_l, IH. f_equal. lia.
Qed.

Lemma key_sum_permutation rows rows' : rows ≡ₚ rows' -> key_sum rows = key_sum rows'.
Proof.
  induction 1 as [|x l l' _ IH|x y l|l l' l'' _ IH1 _ IH2]; simpl; lia.
Qed.

Lemma key_sum_app rows rows' : key_sum (rows ++ rows') = key_sum rows + key_sum rows'.
Proof. induction rows as [|r rows IH]; simpl; [reflexivity|]. unfold key_sum in *. simpl. lia. Qed.

(** The key projection of a test row is its key. *)
Lemma project_key tb k :
  Tablet.schema tb = schema_ ->
  Tablet.project tb (CreateKeyProjection schema_) (BuildTestRow k) = [Some (UInt32 (to_uint32 k))].
Proof. intros H. unfold Tablet.project. rewrite H. reflexivity. Qed.

Lemma to_uint32_small k : 0 <= k < 2 ^ 32 -> to_uint32 k = k.
Proof. intros H. unfold to_uint32. apply Z.mod_small. exact H. Qed.

(** Twice the sum of the keys of [n] consecutive test rows from [i] on. *)
Lemma key_sum_test_rows tb n : forall i,
  Tablet.schema tb = schema_ ->
  0 <= i -> i + Z.of_nat n <= 2 ^ 32 ->
  2 * key_sum (map (Tablet.project tb (CreateKeyProjection schema_)) (test_rows n i))
  = Z.of_nat n * (2 * i + Z.of_nat n - 1).
Proof.
  induction n as [|n IH]; intros i Hs Hi Hn; [reflexivity|].
  cbn [test_rows map]. rewrite (project_key tb i Hs).
  change (key_sum ([Some (UInt32 (to_uint32 i))] :: ?l)) with (to_uint32 i + key_sum l).
  rewrite to_uint32_small by lia.
  rewrite Z.mul_add_distr_l, (IH (i + 1) Hs) by lia. lia.
Qed.

(** The loop of [InsertTestRows] on a tablet that has none of the keys
    from [i] on: every insert goes through, and the tablet holds the new
    rows besides the old ones. *)
Lemma insert_rows_fresh n : forall i tb,
  Tablet.schema tb = schema_ ->
  0 <= i -> i + Z.of_nat n <= 2 ^ 32 ->
  (forall k, i <= k -> Tablet.rows tb !! [UInt32 k] = None) ->
  exists tb',
    insert_rows n i tb = Some tb' /\
    Tablet.schema tb' = schema_ /\
    Tablet.stored_rows tb' ≡ₚ test_rows n i ++ Tablet.stored_rows tb.
Proof.
  induction n as [|n IH]; intros i tb Hs Hi Hn Hfree.
  - exists tb. repeat split; [assumption|reflexivity].
  - cbn [insert_rows test_rows]. unfold Tablet.Insert. rewrite Hs.
    change (Tablet.key_of_cells (num_key_columns schema_) (BuildTestRow i))
      with [UInt32 (to_uint32 i)].
    rewrite to_uint32_small by lia. rewrite Hfree by lia.
    cbn [Status.ok Status.OK Status.code Status.code_eqb].
    set (tb1 := {| Tablet.schema := schema_;
                   Tablet.rows := <[[UInt32 i] := BuildTestRow i]> (Tablet.rows tb) |}).
    destruct (IH (i + 1) tb1) as (tb' & Hins & Hs' & Hp); [reflexivity|lia|lia| |].
    + intros k Hk. subst tb1. cbn [Tablet.rows].
      rewrite lookup_insert_ne; [apply Hfree; lia|]. intros [= E]. lia.
    + exists tb'. split; [exact Hins|]. split; [exact Hs'|].
      rewrite Hp. unfold Tablet.stored_rows at 1. subst tb1. cbn [Tablet.rows].
      rewrite map_to_list_insert by (apply Hfree; lia).
      cbn [fmap list_fmap snd]. rewrite <- Permutation_middle. reflexivity.
Qed.

Lemma expected_sum_series N : 0 <= N < 2 ^ 31 -> expected_sum N = N * (N - 1) / 2.
Proof.
  intros H. unfold expected_sum.
  destruct (Z.eq_dec N 0) as [->|Hne]; [reflexivity|].
  rewrite Z.add_0_l, (Z.mod_small N), (Z.mod_small (N - 1)) by lia.
  rewrite Z.mod_small; [reflexivity|]. nia.
Qed.

(** C9: [N] test rows with keys 0..N-1 are inserted into the empty test
    tablet and the table is scanned with the key projection and no
    predicate.  Whatever the batch size, given fuel for the passes of the
    loop, [Open] succeeds and the loop of lines 116-124 ends with the sum
    of the key column over the rows returned equal to N(N-1)/2, which is
    also what the test computes as the expected value.
    [DoTestScanWithoutPredicates] itself reaches its last line with that
    sum when there is a row; with no row (N = 0) it stops at the
    [ASSERT_TRUE(scanner.HasMoreRows())] of line 113, before the loop. *)
Theorem scan_sum_is_arithmetic_series (N batch_size : Z) (fuel : nat) (cl : Cluster.t) :
  0 <= N < 2 ^ 31 ->
  Cluster.master_running (Cluster.master cl) = true ->
  Cluster.catalog (Cluster.master cl) !! tablet_id_ = Some tablet_id_ ->
  running (Cluster.tserver cl) = true ->
  tablets (Cluster.tserver cl) !! tablet_id_ = Some (Tablet.empty schema_) ->
  (Z.to_nat N + 2 <= fuel)%nat ->
  let scanner := (KuduScanner.SetProjection (CreateKeyProjection schema_)
                    (KuduScanner.new batch_size client_table_)).2 in
  exists cl1 sc1 cl1' sc2 cl2,
    InsertTestRows N cl = Some cl1 /\
    KuduScanner.Open scanner cl1 = (Status.OK, sc1, cl1') /\
    KuduScanner.scan_loop fuel add_key 0 sc1 cl1' = Some (inr (N * (N - 1) / 2, sc2, cl2)) /\
    expected_sum N = N * (N - 1) / 2 /\
    DoTestScanWithoutPredicates fuel batch_size cl1
    = Some (if 0 <? N then inr (N * (N - 1) / 2) else inl NoMoreRows).
Proof.
  intros HN Hm Hcat Hrun Htb Hfuel scanner.
  destruct (insert_rows_fresh (Z.to_nat N) 0 (Tablet.empty schema_))
    as (tb' & Hins & Hs' & Hp); [reflexivity|lia|lia|intros; apply lookup_empty|].
  unfold Tablet.stored_rows at 2 in Hp. cbn [Tablet.empty Tablet.rows] in Hp.
  rewrite map_to_list_empty, app_nil_r in Hp.
  set (cl1 := Cluster.with_tserver (with_tablet tablet_id_ tb' (Cluster.tserver cl)) cl).
  assert (Hi : InsertTestRows N cl = Some cl1).
  { unfold InsertTestRows. rewrite Htb. cbn [mbind option_bind]. rewrite Hins. reflexivity. }
  set (sc := scanner).
  set (rows := Tablet.scan_rows tb' (KuduScanner.projection sc) (KuduScanner.predicates sc)).
  assert (Hrows : rows = map (Tablet.project tb' (CreateKeyProjection schema_))
                              (Tablet.stored_rows tb')).
  { subst rows sc. unfold Tablet.scan_rows. cbn. rewrite filter_no_predicates. reflexivity. }
  assert (Hlen : length rows = Z.to_nat N).
  { rewrite Hrows, length_map, Hp. clear. generalize 0.
    induction (Z.to_nat N) as [|n IH]; intros i; simpl; [reflexivity|]. rewrite IH. reflexivity. }
  destruct (scan_all add_key fuel 0 sc cl1 tablet_id_ tb')
    as (sc1 & cl1' & sc2 & cl2 & Ho & Hl & Hh).
  { unfold Cluster.GetTableLocations. subst cl1. cbn. rewrite Hm, Hcat. reflexivity. }
  { exact Hrun. }
  { subst cl1. cbn. apply lookup_insert_eq. }
  { fold rows. lia. }
  fold rows in Hl, Hh.
  assert (Hsum : 2 * key_sum rows = N * (N - 1)).
  { rewrite Hrows.
    rewrite (key_sum_permutation _ (map (Tablet.project tb' (CreateKeyProjection schema_))
                                      (test_rows (Z.to_nat N) 0)))
      by (apply Permutation_map; exact Hp).
    rewrite (key_sum_test_rows tb' (Z.to_nat N) 0 Hs') by lia. lia. }
  assert (Hk : key_sum rows = N * (N - 1) / 2).
  { apply Z.div_unique_exact; lia. }
  assert (Hf : foldl add_key 0 rows = N * (N - 1) / 2).
  { change 0 with (0 mod 2 ^ 64) at 1. rewrite foldl_add_key, Z.add_0_l.
    rewrite Z.mod_small; [exact Hk|]. nia. }
  rewrite Hf in Hl.
  exists cl1, sc1, cl1', sc2, cl2.
  split; [exact Hi|]. split; [exact Ho|]. split; [exact Hl|].
  split; [apply expected_sum_series, HN|].
  unfold DoTestScanWithoutPredicates. cbv zeta.
  change (KuduScanner.SetProjection (CreateKeyProjection schema_)
            (KuduScanner.new batch_size client_table_))
    with (Status.OK, sc).
  cbv beta iota. cbn [Status.ok Status.OK Status.code Status.code_eqb negb].
  rewrite Ho. cbn [Status.ok Status.OK Status.code Status.code_eqb negb].
  rewrite Hh. destruct rows as [|r rows'].
  - simpl in Hlen. assert (N = 0) by lia. subst N. reflexivity.
  - simpl in Hlen. assert (HN0 : 0 < N) by lia. apply Z.ltb_lt in HN0. rewrite HN0.
    cbn [Client.is_nil negb]. rewrite Hl. reflexivity.
Qed.

Lemma scan_sum_is_arithmetic_series_witness :
  (exists cl1,
     InsertTestRows 1000 cluster_ = Some cl1 /\
     expected_sum 1000 = 499500 /\
     DoTestScanWithoutPredicates 1002 1048576 cl1 = Some (inr 499500)) /\
  (exists cl1 sc1 cl1' sc2 cl2,
     InsertTestRows 0 cluster_ = Some cl1 /\
     KuduScanner.Open (KuduScanner.SetProjection (CreateKeyProjection schema_)
                         (KuduScanner.new 1048576 client_table_)).2 cl1
     = (Status.OK, sc1, cl1') /\
     KuduScanner.scan_loop 2 add_key 0 sc1 cl1' = Some (inr (0, sc2, cl2)) /\
     DoTestScanWithoutPredicates 2 1048576 cl1 = Some (inl NoMoreRows)).
Proof.
  split.
  - destruct (scan_sum_is_arithmetic_series 1000 1048576 1002 cluster_
                ltac:(lia) eq_refl eq_refl eq_refl eq_refl ltac:(simpl; lia))
      as (cl1 & _ & _ & _ & _ & Hi & _ & _ & He & Ht).
    exists cl1. split; [exact Hi|]. split; [exact He|exact Ht].
  - destruct (scan_sum_is_arithmetic_series 0 1048576 2 cluster_
                ltac:(lia) eq_refl eq_refl eq_refl eq_refl ltac:(simpl; lia))
      as (cl1 & sc1 & cl1' & sc2 & cl2 & Hi & Ho & Hl & _ & Ht).
    exists cl1, sc1, cl1', sc2, cl2.
    split; [exact Hi|]. split; [exact Ho|]. split; [exact Hl|exact Ht].
Defined.

End ScannerFacts.
(** * Scanners disappear from the registry *)

Module ScanSystemFacts.
Import TServer ScanSystem.

(** What [Open] of a scanner leaves in the cluster: the network and the
    clock as they were, the server up if it was, and every registered
    scanner either registered before or the one of the new handle. *)
Lemma Open_effect sc cl s sc' cl' :
  KuduScanner.Open sc cl = (s, sc', cl') ->
  running (Cluster.tserver cl') = running (Cluster.tserver cl) /\
  Cluster.close_requests cl' = Cluster.close_requests cl /\
  Cluster.now cl' = Cluster.now cl /\
  (next_scanner_id (Cluster.tserver cl) <= next_scanner_id (Cluster.tserver cl'))%nat /\
  forall id e,
    scanners (Cluster.tserver cl') !! id = Some e ->
    scanners (Cluster.tserver cl) !! id = Some e \/
    (KuduScanner.open_ sc' = true /\
     scanner_id (KuduScanner.last_response_ sc') = Some id /\
     last_activity e = Cluster.now cl /\
     (id < next_scanner_id (Cluster.tserver cl'))%nat).
Proof.
  unfold KuduScanner.Open.
  destruct (Cluster.GetTableLocations _ cl) as [e0|tablet];
    [intros [= <- <- <-]; auto 10|].
  unfold ScanOpen.
  destruct (running (Cluster.tserver cl)) eqn:Hrun;
    [|intros [= <- <- <-]; cbn; auto 10].
  destruct (tablets (Cluster.tserver cl) !! tablet) as [tb|];
    [|intros [= <- <- <-]; cbn; auto 10].
  destruct (first_batch _ _) as [batch [|r rest]]; intros [= <- <- <-]; cbn; auto 10.
  repeat split; auto. intros id e.
  destruct (decide (next_scanner_id (Cluster.tserver cl) = id)) as [<-|Hne].
  - rewrite lookup_insert_eq. intros [= <-]. right. auto 10.
  - rewrite lookup_insert_ne by assumption. auto.
Qed.

(** What [NextBatch] leaves: the handle is as open as it was and keeps its
    scanner id; the registry has no new scanner, and an entry that changed
    was active now. *)
Lemma NextBatch_effect sc cl s rows sc' cl' :
  KuduScanner.NextBatch sc cl = (s, rows, sc', cl') ->
  running (Cluster.tserver cl') = running (Cluster.tserver cl) /\
  Cluster.close_requests cl' = Cluster.close_requests cl /\
  Cluster.now cl' = Cluster.now cl /\
  next_scanner_id (Cluster.tserver cl') = next_scanner_id (Cluster.tserver cl) /\
  KuduScanner.open_ sc' = KuduScanner.open_ sc /\
  scanner_id (KuduScanner.last_response_ sc') = scanner_id (KuduScanner.last_response_ sc) /\
  forall id e,
    scanners (Cluster.tserver cl') !! id = Some e ->
    scanners (Cluster.tserver cl) !! id = Some e \/
    (is_Some (scanners (Cluster.tserver cl) !! id) /\ last_activity e = Cluster.now cl).
Proof.
  unfold KuduScanner.NextBatch.
  destruct (KuduScanner.data_in_open_ sc); [intros [= <- <- <- <-]; cbn; auto 10|].
  destruct (has_more_results (KuduScanner.last_response_ sc));
    [|intros [= <- <- <- <-]; cbn; auto 10].
  destruct (scanner_id (KuduScanner.last_response_ sc)) as [id0|] eqn:Hid;
    [|intros [= <- <- <- <-]; cbn; auto 10].
  unfold ScanNext.
  destruct (running (Cluster.tserver cl)) eqn:Hrun;
    [|intros [= <- <- <- <-]; cbn; auto 10].
  destruct (scanners (Cluster.tserver cl) !! id0) as [e0|] eqn:He0;
    [|intros [= <- <- <- <-]; cbn; auto 10].
  destruct (next_batch _ _) as [batch [|r rest]]; intros [= <- <- <- <-]; cbn;
    repeat split; auto; intros id e.
  - rewrite lookup_delete_Some. intros [_ H]. auto.
  - destruct (decide (id0 = id)) as [<-|Hne].
    + rewrite lookup_insert_eq. intros [= <-]. right. split; [eauto|reflexivity].
    + rewrite lookup_insert_ne by assumption. auto.
Qed.

(** What [Close] leaves: the server and the clock as they were, the handle
    closed, and the close request of an open handle's scanner under way. *)
Lemma Close_effect sc cl sc' cl' :
  KuduScanner.Close sc cl = (sc', cl') ->
  Cluster.tserver cl' = Cluster.tserver cl /\
  Cluster.now cl' = Cluster.now cl /\
  (KuduScanner.open_ sc = true -> KuduScanner.open_ sc' = false) /\
  (KuduScanner.open_ sc = false -> sc' = sc) /\
  (forall id, id ∈ Cluster.close_requests cl -> id ∈ Cluster.close_requests cl') /\
  (forall id, KuduScanner.open_ sc = true ->
              scanner_id (KuduScanner.last_response_ sc) = Some id ->
              id ∈ Cluster.close_requests cl').
Proof.
  unfold KuduScanner.Close. destruct (KuduScanner.open_ sc) eqn:Ho.
  - destruct (scanner_id (KuduScanner.last_response_ sc)) as [id0|];
      intros [= <- <-]; cbn; repeat split; auto; try discriminate.
    + intros id H. apply elem_of_app. auto.
    + intros id _ [= <-]. apply elem_of_app. right. left.
  - intros [= <- <-]. repeat split; auto; discriminate.
Qed.

(** An owner other than the handle at [i] is still an owner when that
    handle is replaced or removed. *)
Lemma owned_insert_other id hs i sc' j sc :
  hs !! j = Some sc -> j <> i ->
  KuduScanner.open_ sc = true ->
  scanner_id (KuduScanner.last_response_ sc) = Some id ->
  owned id (<[i := sc']> hs).
Proof.
  intros Hj Hne Ho Hid. exists j, sc. rewrite list_lookup_insert_ne by auto. auto.
Qed.

Lemma owned_delete_other id hs i j sc :
  hs !! j = Some sc -> j <> i ->
  KuduScanner.open_ sc = true ->
  scanner_id (KuduScanner.last_response_ sc) = Some id ->
  owned id (delete i hs).
Proof.
  intros Hj Hne Ho Hid. destruct (decide (j < i)%nat) as [Hlt|Hge].
  - exists j, sc. rewrite list_lookup_delete_lt by assumption. auto.
  - destruct j as [|j]; [lia|]. exists j, sc.
    rewrite list_lookup_delete_ge by lia. auto.
Qed.

Lemma owned_app id hs sc : owned id hs -> owned id (hs ++ [sc]).
Proof.
  intros (j & h & Hj & Ho & Hid). exists j, h. split; [|auto].
  apply lookup_app_l_Some. assumption.
Qed.

(** Every step keeps the invariant. *)
Lemma step_Inv a st : Inv st -> Inv (step a st).
Proof.
  intros [Hrun Hfr Hacc Hact]. destruct a as [table proj preds bs|i|i|i|ev]; cbn [step].
  - destruct (KuduScanner.Open _ _) as [[s sc] cl'] eqn:Ho.
    destruct (Open_effect _ _ _ _ _ Ho) as (Hr & Hq & Hn & Hnx & Hs).
    split; cbn [cluster handles].
    + congruence.
    + intros id e He. destruct (Hs id e He) as [Hold|(_ & _ & _ & Hlt)]; [|exact Hlt].
      specialize (Hfr id e Hold). lia.
    + intros id e He. rewrite Hq. destruct (Hs id e He) as [Hold|(Hopen & Hid & _)].
      * destruct (Hacc id e Hold) as [Hown|Hpend]; [left; apply owned_app|right]; assumption.
      * left. exists (length (handles st)), sc. split; [|auto].
        rewrite lookup_app_r by lia. rewrite Nat.sub_diag. reflexivity.
    + intros id e He. rewrite Hn.
      destruct (Hs id e He) as [Hold|(_ & _ & Hla & _)]; [eauto|lia].
  - destruct (handles st !! i) as [sc|] eqn:Hi; [|split; assumption].
    destruct (KuduScanner.NextBatch sc (cluster st)) as [[[s rows] sc'] cl'] eqn:Hnb.
    destruct (NextBatch_effect _ _ _ _ _ _ Hnb) as (Hr & Hq & Hn & Hnx & Hopen & Hid & Hs).
    assert (Hwas : forall id e, scanners (Cluster.tserver cl') !! id = Some e ->
                     exists e0, scanners (Cluster.tserver (cluster st)) !! id = Some e0)
      by (intros id e He; destruct (Hs id e He) as [?|[[e0 ?] _]]; eauto).
    split; cbn [cluster handles].
    + congruence.
    + intros id e He. rewrite Hnx. destruct (Hwas id e He) as [e0 He0]. eauto.
    + intros id e He. rewrite Hq. destruct (Hwas id e He) as [e0 He0].
      destruct (Hacc id e0 He0) as [(j & h & Hj & Hoh & Hidh)|Hpend]; [left|right; assumption].
      destruct (decide (j = i)) as [->|Hne]; [|eapply owned_insert_other; eauto].
      exists i, sc'. rewrite list_lookup_insert_eq by (eapply lookup_lt_Some; eauto).
      assert (h = sc) by congruence. subst h. split; [reflexivity|]. split; congruence.
    + intros id e He. rewrite Hn. destruct (Hs id e He) as [Hold|(_ & Hla)]; [eauto|lia].
  - destruct (handles st !! i) as [sc|] eqn:Hi; [|split; assumption].
    destruct (KuduScanner.Close sc (cluster st)) as [sc' cl'] eqn:Hc.
    destruct (Close_effect _ _ _ _ Hc) as (Ht & Hn & _ & _ & Hq & Hmine).
    split; cbn [cluster handles]; rewrite ?Ht, ?Hn; auto.
    intros id e He. destruct (Hacc id e He) as [(j & h & Hj & Hoh & Hidh)|Hpend]; [|auto].
    destruct (decide (j = i)) as [->|Hne]; [|left; eapply owned_insert_other; eauto].
    assert (h = sc) by congruence. subst h. right. auto.
  - destruct (handles st !! i) as [sc|] eqn:Hi; [|split; assumption].
    unfold KuduScanner.discard.
    destruct (KuduScanner.Close sc (cluster st)) as [sc' cl'] eqn:Hc.
    destruct (Close_effect _ _ _ _ Hc) as (Ht & Hn & _ & _ & Hq & Hmine).
    split; cbn [cluster handles snd]; rewrite ?Ht, ?Hn; auto.
    intros id e He. destruct (Hacc id e He) as [(j & h & Hj & Hoh & Hidh)|Hpend]; [|auto].
    destruct (decide (j = i)) as [->|Hne]; [|left; eapply owned_delete_other; eauto].
    assert (h = sc) by congruence. subst h. right. auto.
  - destruct ev as [d| |]; cbn [Cluster.step].
    + split; cbn; auto. intros id e He. specialize (Hact id e He).
      unfold MonoTime.AddDelta. lia.
    + unfold Cluster.deliver_close.
      destruct (Cluster.close_requests (cluster st)) as [|id0 q] eqn:Hq;
        [split; cbn; auto; intros id e He; rewrite Hq; eauto|].
      unfold ScanClose. rewrite Hrun. split; cbn; auto.
      * intros id e. rewrite lookup_delete_Some. intros [_ He]. eauto.
      * intros id e. rewrite lookup_delete_Some. intros [Hne He].
        destruct (Hacc id e He) as [Hown|Hpend]; [auto|]. right.
        inversion Hpend; subst; [congruence|assumption].
      * intros id e. rewrite lookup_delete_Some. intros [_ He]. eauto.
    + split; cbn; auto.
      * intros id e He. apply map_lookup_filter_Some in He as [He _]. eauto.
      * intros id e He. apply map_lookup_filter_Some in He as [He _]. eauto.
      * intros id e He. apply map_lookup_filter_Some in He as [He _]. eauto.
Qed.

(** In a state the system reaches the next scanner id is not in use: the
    registry of a server that opens a scanner there gains an entry. *)
Lemma Inv_next_id_free st :
  Inv st ->
  scanners (Cluster.tserver (cluster st))
    !! next_scanner_id (Cluster.tserver (cluster st)) = None.
Proof.
  intros HI.
  destruct (scanners (Cluster.tserver (cluster st))
              !! next_scanner_id (Cluster.tserver (cluster st))) as [e|] eqn:He;
    [|reflexivity].
  apply (inv_fresh st HI) in He. lia.
Qed.

Lemma exec_Inv trace : forall st, Inv st -> Inv (exec trace st).
Proof.
  induction trace as [|a trace IH]; intros st H; [exact H|].
  apply IH, step_Inv, H.
Qed.

(** With every handle closed, each registered scanner has its close request
    under way. *)
Lemma closed_pending st id e :
  Inv st -> all_closed st ->
  scanners (Cluster.tserver (cluster st)) !! id = Some e ->
  id ∈ Cluster.close_requests (cluster st).
Proof.
  intros HI Hc He. destruct (inv_accounted st HI id e He) as [(j & h & Hj & Ho & _)|H]; [|exact H].
  unfold all_closed in Hc. rewrite Forall_lookup in Hc. specialize (Hc j h Hj). congruence.
Qed.

(** Delivering the close requests under way empties a registry whose
    scanners all have one. *)
Lemma deliver_all q : forall cl,
  Cluster.close_requests cl = q ->
  running (Cluster.tserver cl) = true ->
  (forall id e, scanners (Cluster.tserver cl) !! id = Some e -> id ∈ q) ->
  active (Cluster.run (replicate (length q) Cluster.DeliverClose) cl) = 0%nat.
Proof.
  induction q as [|id0 q IH]; intros cl Hq Hrun Hall; cbn [length replicate Cluster.run foldl].
  - unfold active, CountActiveScanners. apply map_size_empty_iff, map_empty.
    intros id. destruct (scanners (Cluster.tserver cl) !! id) as [e|] eqn:He; [|reflexivity].
    specialize (Hall id e He). inversion Hall.
  - apply IH; unfold Cluster.step, Cluster.deliver_close; rewrite Hq;
      unfold ScanClose; rewrite Hrun; cbn; auto.
    intros id e. rewrite lookup_delete_Some. intros [Hne He].
    specialize (Hall id e He). inversion Hall; subst; [congruence|assumption].
Qed.

(** Events in the cluster register no scanner. *)
Lemma run_active_le es : forall cl, (active (Cluster.run es cl) <= active cl)%nat.
Proof.
  induction es as [|ev es IH]; intros cl; [reflexivity|].
  cbn [Cluster.run foldl]. etransitivity; [apply IH|].
  unfold active, CountActiveScanners. destruct ev as [d| |]; cbn [Cluster.step].
  - reflexivity.
  - unfold Cluster.deliver_close. destruct (Cluster.close_requests cl); [reflexivity|].
    unfold ScanClose. destruct (running (Cluster.tserver cl)); cbn; [|reflexivity].
    apply map_subseteq_size, delete_subseteq.
  - cbn. apply map_subseteq_size, map_filter_subseteq.
Qed.

(** Time going by without a delivery and without the reaper changes
    nothing in the registry. *)
Lemma run_ticks n d : forall cl,
  active (Cluster.run (replicate n (Cluster.Tick d)) cl) = active cl.
Proof.
  induction n as [|n IH]; intros cl; [reflexivity|].
  cbn [replicate].
  change (Cluster.run (Cluster.Tick d :: replicate n (Cluster.Tick d)) cl)
    with (Cluster.run (replicate n (Cluster.Tick d)) (Cluster.step (Cluster.Tick d) cl)).
  rewrite IH. reflexivity.
Qed.

(** The reaper after the time-to-live has gone by empties the registry. *)
Lemma reap_after_ttl cl d :
  (forall id e, scanners (Cluster.tserver cl) !! id = Some e -> last_activity e <= Cluster.now cl) ->
  scanner_ttl (Cluster.tserver cl) <= d ->
  active (Cluster.run [Cluster.Tick d; Cluster.Reap] cl) = 0%nat.
Proof.
  intros Hact Hd. cbn. unfold active, CountActiveScanners. cbn.
  apply map_size_empty_iff, map_empty_filter. intros id e He. cbn.
  specialize (Hact id e He). unfold expired, MonoTime.GetDeltaSince, MonoTime.AddDelta.
  intros H. apply Z.leb_gt in H. lia.
Qed.

(** C8: in every state the system reaches, an explicit close leaves the
    handle closed and a discard removes it; and once no handle is open the
    registry drains: delivering the close requests under way brings the
    count of active scanners to zero, so does the reaper once the
    time-to-live has gone by, nothing that happens in the cluster raises
    the count, and there is no bound on how long it stays where it is, for
    time may pass for any number of steps without a delivery. *)
Theorem scanners_disappear st0 trace :
  Inv st0 ->
  let st := exec trace st0 in
  let cl := cluster st in
  (forall i sc, handles st !! i = Some sc ->
     exists sc', handles (step (CloseHandle i) st) !! i = Some sc' /\
                 KuduScanner.open_ sc' = false) /\
  (forall i sc, handles st !! i = Some sc ->
     handles (step (Discard i) st) = delete i (handles st)) /\
  (all_closed st ->
     active (Cluster.run (replicate (length (Cluster.close_requests cl)) Cluster.DeliverClose) cl)
     = 0%nat /\
     (forall d, scanner_ttl (Cluster.tserver cl) <= d ->
                active (Cluster.run [Cluster.Tick d; Cluster.Reap] cl) = 0%nat) /\
     (forall es, (active (Cluster.run es cl) <= active cl)%nat) /\
     (forall n, active (Cluster.run (replicate n (Cluster.Tick 0)) cl) = active cl)).
Proof.
  intros H0 st cl. pose proof (exec_Inv trace st0 H0) as HI. fold st in HI.
  split; [|split].
  - intros i sc Hi. cbn [step]. rewrite Hi.
    destruct (KuduScanner.Close sc (cluster st)) as [sc' cl'] eqn:Hc.
    exists sc'. cbn [handles].
    rewrite list_lookup_insert_eq by (eapply lookup_lt_Some; eauto). split; [reflexivity|].
    destruct (Close_effect _ _ _ _ Hc) as (_ & _ & Hopen & Hsame & _).
    destruct (KuduScanner.open_ sc) eqn:Ho; [auto|]. rewrite (Hsame eq_refl). exact Ho.
  - intros i sc Hi. cbn [step]. rewrite Hi. reflexivity.
  - intros Hclosed. split; [|split; [|split]].
    + apply deliver_all; [reflexivity|apply (inv_running st HI)|].
      intros id e He. eapply closed_pending; eauto.
    + intros d Hd. apply reap_after_ttl; [|exact Hd]. apply (inv_activity st HI).
    + intros es. apply run_active_le.
    + intros n. apply run_ticks.
Qed.

Import ClientTest.

Lemma scanners_disappear_witness :
  let st := exec close_scanner_trace {| cluster := ten_rows; handles := [] |} in
  all_closed st /\
  active (cluster st) = 2%nat /\
  active (Cluster.run (replicate (length (Cluster.close_requests (cluster st)))
                         Cluster.DeliverClose) (cluster st)) = 0%nat /\
  active (Cluster.run [Cluster.Tick (MonoTime.FromMilliseconds 60000); Cluster.Reap]
            (cluster st)) = 0%nat.
Proof.
  intros st.
  assert (H0 : Inv {| cluster := ten_rows; handles := [] |}).
  { split; [reflexivity| | |]; intros id e He; vm_compute in He; discriminate. }
  assert (Hc : all_closed st) by (vm_compute; repeat constructor).
  destruct (scanners_disappear _ close_scanner_trace H0) as (_ & _ & H).
  destruct (H Hc) as (H1 & H2 & _).
  split; [exact Hc|]. split; [vm_compute; reflexivity|]. split; [exact H1|].
  apply H2. vm_compute. discriminate.
Defined.

End ScanSystemFacts.
(** * Flush rounds outlive their session *)

Module AsyncFacts.
Import ErrorCollector Client AsyncSystem.






















Import ClientTest.


End AsyncFacts.
(** * Partial failure of a round *)

Module PartialErrorFacts.
Import ErrorCollector Client AsyncSystem SessionFacts AsyncFacts.



Import ClientTest.


End PartialErrorFacts.

(** * The passes of [KuduTable::Data::Open], one by one and together *)

Module OpenLoopFacts.
Import Master TableInternal OpenPasses.

Section Passes.
Context {W : Type}.
Variable env : ClientEnv W.
Variable cfg : ClientConfig.
Variable name_ : string.

Abbreviation body := (Open_body env cfg name_).
Abbreviation loop := (Open_loop env cfg name_).
Abbreviation timed_out := (Status.TimedOut (timed_out_message cfg)).
Abbreviation call := (GetTableLocations env (req name_) (default_admin_operation_timeout cfg)).

Ltac open_body :=
  unfold Open_body, rediscover_leader, data_SetMasterServerProxy, mbind, L_bind,
    MonoTime_Now, master_proxy_GetTableLocations, get_resp, when, exit, ret, mret,
    L_ret, do_usleep.

Lemma network_error_not_ok s : Status.IsNetworkError s = true -> Status.ok s = false.
Proof. destruct s as [[] m]; cbv; congruence. Qed.

Lemma network_error_not_timed_out s :
  Status.IsNetworkError s = true -> Status.IsTimedOut s = false.
Proof. destruct s as [[] m]; cbv; congruence. Qed.

Lemma timed_out_not_ok s : Status.IsTimedOut s = true -> Status.ok s = false.
Proof. destruct s as [[] m]; cbv; congruence. Qed.

Lemma timed_out_not_network_error s :
  Status.IsTimedOut s = true -> Status.IsNetworkError s = false.
Proof. destruct s as [[] m]; cbv; congruence. Qed.

(** One pass, whatever the collaborators do: past the deadline it
    returns; otherwise it calls the master once, keeps the response object
    as the call left it, and either breaks (on a call that succeeded with a
    response good for it, the world as the call left it) or goes round
    again. *)
Lemma body_pass deadline st now w1 :
  Now env (world st) = (now, w1) ->
  if ComesBefore env deadline now then
    body deadline st = (inl (Return timed_out), {| resp := resp st; world := w1 |})
  else
    forall s r w2, call (resp st) w1 = ((s, r), w2) ->
    exists c st',
      body deadline st = (c, st') /\ resp st' = r /\ after_call env w2 (world st') /\
      (c = inl Continue \/ c = inr tt \/
       (c = inl Break /\ world st' = w2 /\ Status.ok s = true /\ opens r)).
Proof.
  intros HN. destruct (ComesBefore env deadline now) eqn:HD.
  - open_body. rewrite HN, HD. reflexivity.
  - intros s r w2 HG. open_body. rewrite HN, HD. cbn. rewrite HG. cbn.
    unfold after_call, opens.
    destruct (SetMasterServerProxy env w2) as [s1 w3] eqn:R1.
    destruct (SetMasterServerProxy env w3) as [s2 w4] eqn:R2.
    destruct (Status.ok s) eqn:Hok; cbn.
    + destruct (error r) as [e|] eqn:He; cbn; rewrite ?Hok; cbn.
      * destruct (is_leader_change (error_code e)) eqn:Hl; cbn; rewrite ?R1; cbn.
        { destruct (Status.ok s1) eqn:Hok1; cbn; rewrite ?Hok1; cbn;
            eexists _, _; (split; [reflexivity|]); cbn; rewrite ?R1; cbn; auto 10. }
        rewrite Hok. cbn.
        destruct (Status.ok (StatusFromPB (error_status e))) eqn:Hes; cbn;
          [|eexists _, _; (split; [reflexivity|]); cbn; auto 10].
        destruct (0 <? tablet_locations_size r) eqn:Hn; cbn;
          eexists _, _; (split; [reflexivity|]); cbn; auto 10.
        split; [reflexivity|]. split; [auto|]. right. right.
        apply Z.ltb_lt in Hn. auto 10.
      * destruct (0 <? tablet_locations_size r) eqn:Hn; cbn;
          eexists _, _; (split; [reflexivity|]); cbn; auto 10.
        split; [reflexivity|]. split; [auto|]. right. right.
        apply Z.ltb_lt in Hn. auto 10.
    + destruct (Status.IsNetworkError s) eqn:Hne; cbn; rewrite ?R1; cbn.
      * destruct (Status.ok s1) eqn:Hok1; cbn;
          [eexists _, _; (split; [reflexivity|]); cbn; rewrite ?R1; cbn; auto 10|].
        destruct (Status.IsTimedOut s1) eqn:Ht1; cbn; rewrite ?R2; cbn.
        { destruct (Status.ok s2) eqn:Hok2; cbn;
            [eexists _, _; (split; [reflexivity|]); cbn; rewrite ?R1, ?R2; cbn; auto 10|].
          destruct (error r); cbn; rewrite ?Hok2; cbn;
            eexists _, _; (split; [reflexivity|]); cbn; rewrite ?R1, ?R2; cbn; auto 10. }
        destruct (error r); cbn; rewrite ?Hok1; cbn;
          eexists _, _; (split; [reflexivity|]); cbn; rewrite ?R1; cbn; auto 10.
      * destruct (Status.IsTimedOut s) eqn:Ht; cbn; rewrite ?R1; cbn.
        { destruct (Status.ok s1) eqn:Hok1; cbn;
            [eexists _, _; (split; [reflexivity|]); cbn; rewrite ?R1; cbn; auto 10|].
          destruct (error r); cbn; rewrite ?Hok1; cbn;
            eexists _, _; (split; [reflexivity|]); cbn; rewrite ?R1; cbn; auto 10. }
        destruct (error r); cbn; rewrite ?Hok; cbn;
          eexists _, _; (split; [reflexivity|]); cbn; auto 10.
Qed.


(** The loop ends in success only through [break]: on a master call
    that was issued at a loop entry not past the deadline, succeeded, and
    left a response good for it; the frame is as that call left it. *)
Lemma loop_ok fuel deadline : forall st st',
  loop fuel deadline st = Some (Status.OK, st') ->
  exists st0 now w1 s,
    Now env (world st0) = (now, w1) /\
    ComesBefore env deadline now = false /\
    call (resp st0) w1 = ((s, resp st'), world st') /\
    Status.ok s = true /\ opens (resp st').
Proof.
  induction fuel as [|n IH]; intros st st'; simpl; [congruence|].
  destruct (Now env (world st)) as [now w1] eqn:HN.
  pose proof (body_pass deadline st now w1 HN) as HP.
  destruct (ComesBefore env deadline now) eqn:HD.
  - rewrite HP. discriminate.
  - destruct (call (resp st) w1) as [[s r] w2] eqn:HG.
    destruct (HP s r w2 eq_refl) as (c & st1 & HB & Hr & _ & Hc). rewrite HB.
    destruct Hc as [->|[->|(-> & Hw & Hok & Ho)]]; [apply IH|apply IH|].
    intros [= <-]. exists st, now, w1, s. rewrite Hr, Hw. auto.
Qed.

(** The loop ends in failure only through the [return] of lines 49-59:
    at a loop entry whose clock reading is past the deadline, with the
    frame as the reading left it. *)
Lemma loop_failed fuel deadline : forall st s st',
  loop fuel deadline st = Some (s, st') ->
  Status.ok s = false ->
  s = timed_out /\
  exists st0 now,
    Now env (world st0) = (now, world st') /\ resp st0 = resp st' /\
    ComesBefore env deadline now = true.
Proof.
  induction fuel as [|n IH]; intros st s st'; simpl; [congruence|].
  destruct (Now env (world st)) as [now w1] eqn:HN.
  pose proof (body_pass deadline st now w1 HN) as HP.
  destruct (ComesBefore env deadline now) eqn:HD.
  - rewrite HP. intros [= <- <-] _. split; [reflexivity|].
    exists st, now. auto.
  - destruct (call (resp st) w1) as [[s0 r] w2] eqn:HG.
    destruct (HP s0 r w2 eq_refl) as (c & st1 & HB & Hr & _ & Hc). rewrite HB.
    destruct Hc as [->|[->|(-> & Hw & Hok & Ho)]]; [apply IH|apply IH|].
    intros [= <- <-]. discriminate.
Qed.

(** X1: [Open] reports success only for a table with a tablet.  When it
    returns [OK], the response object at return carries at least one
    tablet location (and no error, or one of no leader-change code with an
    OK status), and it is as left by a master call that returned OK and was
    issued at a loop entry not past the deadline; nothing was done after
    that call. *)
Theorem Open_ok_only_with_locations fuel w st :
  Open env cfg name_ fuel w = Some (Status.OK, st) ->
  let deadline := MonoTime.AddDelta (Now env w).1 (default_select_master_timeout_ cfg) in
  opens (resp st) /\
  exists st0 now w1 s,
    Now env (world st0) = (now, w1) /\
    ComesBefore env deadline now = false /\
    call (resp st0) w1 = ((s, resp st), world st) /\
    Status.ok s = true.
Proof.
  unfold Open. destruct (Now env w) as [t0 w0]. cbn [fst]. intros H.
  destruct (loop_ok _ _ _ _ H) as (st0 & now & w1 & s & HN & HD & HG & Hok & Ho).
  split; [exact Ho|]. exists st0, now, w1, s. auto.
Qed.

(** X2: [Open] fails only past its deadline.  A status that is not OK is
    the [TimedOut] of lines 56-58, and it is returned at a loop entry
    whose clock reading comes after the deadline taken before the loop; the
    master was not called in that pass. *)
Theorem Open_fails_only_past_deadline fuel w s st :
  Open env cfg name_ fuel w = Some (s, st) ->
  Status.ok s = false ->
  let deadline := MonoTime.AddDelta (Now env w).1 (default_select_master_timeout_ cfg) in
  s = Status.TimedOut (timed_out_message cfg) /\
  exists st0 now,
    Now env (world st0) = (now, world st) /\ resp st0 = resp st /\
    ComesBefore env deadline now = true.
Proof.
  unfold Open. destruct (Now env w) as [t0 w0]. cbn [fst]. intros H Hs.
  exact (loop_failed _ _ _ _ _ H Hs).
Qed.

(** X4: A master call that fails with a network error (lines 63-72, and the
    fall-through into lines 74-82).  The leader is rediscovered; the pass
    ends in [continue] whatever the rediscovery returned, without sleeping
    and without reporting either error; and when that rediscovery itself
    timed out the leader is rediscovered a second time in the same pass. *)
Theorem Open_network_error_rediscovers deadline st now w1 s r w2 s1 w3 :
  Now env (world st) = (now, w1) ->
  ComesBefore env deadline now = false ->
  call (resp st) w1 = ((s, r), w2) ->
  Status.IsNetworkError s = true ->
  SetMasterServerProxy env w2 = (s1, w3) ->
  (Status.IsTimedOut s1 = false ->
   body deadline st = (inl Continue, {| resp := r; world := w3 |}) /\
   forall fuel, loop (S fuel) deadline st = loop fuel deadline {| resp := r; world := w3 |}) /\
  (Status.IsTimedOut s1 = true ->
   forall s2 w4, SetMasterServerProxy env w3 = (s2, w4) ->
   body deadline st = (inl Continue, {| resp := r; world := w4 |}) /\
   forall fuel, loop (S fuel) deadline st = loop fuel deadline {| resp := r; world := w4 |}).
Proof.
  intros HN HD HG Hs R1.
  pose proof (network_error_not_ok s Hs) as Hok.
  split.
  - intros Ht1.
    assert (B : body deadline st = (inl Continue, {| resp := r; world := w3 |})).
    { open_body. rewrite HN, HD. cbn. rewrite HG. cbn. rewrite Hok, Hs. cbn. rewrite R1. cbn.
      destruct (Status.ok s1) eqn:Hok1; cbn; [reflexivity|].
      rewrite Ht1. cbn. destruct (error r); cbn; rewrite ?Hok1; reflexivity. }
    split; [exact B|]. intros fuel. simpl. rewrite B. reflexivity.
  - intros Ht1 s2 w4 R2.
    pose proof (timed_out_not_ok s1 Ht1) as Hok1.
    assert (B : body deadline st = (inl Continue, {| resp := r; world := w4 |})).
    { open_body. rewrite HN, HD. cbn. rewrite HG. cbn. rewrite Hok, Hs. cbn. rewrite R1. cbn.
      rewrite Hok1. cbn. rewrite Ht1. cbn. rewrite R2. cbn.
      destruct (Status.ok s2) eqn:Hok2; cbn; [reflexivity|].
      destruct (error r); cbn; rewrite ?Hok2; reflexivity. }
    split; [exact B|]. intros fuel. simpl. rewrite B. reflexivity.
Qed.

(** X5: A master call that times out (lines 74-82): the leader is
    rediscovered once, and the pass ends in [continue] whatever the
    rediscovery returned, without sleeping; neither the timeout of the
    call nor a failure of the rediscovery is reported. *)
Theorem Open_timed_out_call_rediscovers deadline st now w1 s r w2 s1 w3 :
  Now env (world st) = (now, w1) ->
  ComesBefore env deadline now = false ->
  call (resp st) w1 = ((s, r), w2) ->
  Status.IsTimedOut s = true ->
  SetMasterServerProxy env w2 = (s1, w3) ->
  body deadline st = (inl Continue, {| resp := r; world := w3 |}) /\
  forall fuel, loop (S fuel) deadline st = loop fuel deadline {| resp := r; world := w3 |}.
Proof.
  intros HN HD HG Hs R1.
  pose proof (timed_out_not_ok s Hs) as Hok.
  pose proof (timed_out_not_network_error s Hs) as Hne.
  assert (B : body deadline st = (inl Continue, {| resp := r; world := w3 |})).
  { open_body. rewrite HN, HD. cbn. rewrite HG. cbn. rewrite Hok, Hne. cbn. rewrite Hs. cbn.
    rewrite R1. cbn.
    destruct (Status.ok s1) eqn:Hok1; cbn; [reflexivity|].
    destruct (error r); cbn; rewrite ?Hok1; reflexivity. }
  split; [exact B|]. intros fuel. simpl. rewrite B. reflexivity.
Qed.

(** X6: An answered call whose response says "not the leader" or "catalog
    manager not initialized" (lines 84-94): the leader is rediscovered
    once, and the pass ends in [continue] whatever the rediscovery
    returned; the status inside the response is never looked at, nor are
    tablet locations the response may carry. *)
Theorem Open_leader_change_rediscovers deadline st now w1 s r w2 e s1 w3 :
  Now env (world st) = (now, w1) ->
  ComesBefore env deadline now = false ->
  call (resp st) w1 = ((s, r), w2) ->
  Status.ok s = true ->
  error r = Some e ->
  error_code e = NOT_THE_LEADER \/ error_code e = CATALOG_MANAGER_NOT_INITIALIZED ->
  SetMasterServerProxy env w2 = (s1, w3) ->
  body deadline st = (inl Continue, {| resp := r; world := w3 |}) /\
  forall fuel, loop (S fuel) deadline st = loop fuel deadline {| resp := r; world := w3 |}.
Proof.
  intros HN HD HG Hok He Hc R1.
  assert (Hl : is_leader_change (error_code e) = true) by (destruct Hc as [-> | ->]; reflexivity).
  assert (B : body deadline st = (inl Continue, {| resp := r; world := w3 |})).
  { open_body. rewrite HN, HD. cbn. rewrite HG. cbn. rewrite Hok. cbn. rewrite He, Hok, Hl. cbn.
    rewrite R1. cbn.
    destruct (Status.ok s1) eqn:Hok1; cbn; [reflexivity|]. rewrite ?Hok1. cbn. rewrite ?Hok1. reflexivity. }
  split; [exact B|]. intros fuel. simpl. rewrite B. reflexivity.
Qed.

(** X7: An answered call without a tablet yet (lines 103-108): the pass
    sleeps 100000 microseconds, once, and the loop goes round again from
    the world after the sleep. *)
Theorem Open_sleeps_on_empty_reply deadline st now w1 s r w2 :
  Now env (world st) = (now, w1) ->
  ComesBefore env deadline now = false ->
  call (resp st) w1 = ((s, r), w2) ->
  Status.ok s = true ->
  not_yet r ->
  let st1 := {| resp := r; world := usleep env 100000 w2 |} in
  body deadline st = (inr tt, st1) /\
  forall fuel, loop (S fuel) deadline st = loop fuel deadline st1.
Proof.
  intros HN HD HG Hok [Hn He] st1.
  assert (B : body deadline st = (inr tt, st1)).
  { open_body. rewrite HN, HD. cbn. rewrite HG. cbn. rewrite Hok. cbn.
    unfold tablet_locations_size. rewrite Hn.
    destruct (error r) as [e|]; cbn; [|rewrite Hok; reflexivity].
    destruct He as [Hl Hs]. rewrite Hok, Hl. cbn. rewrite Hok, Hs. reflexivity. }
  split; [exact B|]. intros fuel. simpl. rewrite B. reflexivity.
Qed.

Section Progress.
Variable time : W -> MonoTime.t.
Variable good : W -> Prop.
Variable d : MonoTime.MonoDelta.
Hypothesis d_pos : 0 < d.
Hypothesis past_deadline : forall a b, a < b -> ComesBefore env a b = true.
Hypothesis Now_reads : forall w, good w ->
  good (Now env w).2 /\ time w <= (Now env w).1 <= time (Now env w).2.
Hypothesis call_takes : forall r w, good w ->
  good (call r w).2 /\ time w + d <= time (call r w).2.
Hypothesis rediscovery_takes : forall w, good w ->
  good (SetMasterServerProxy env w).2 /\ time w <= time (SetMasterServerProxy env w).2.
Hypothesis sleep_takes : forall w, good w ->
  good (usleep env 100000 w) /\ time w <= time (usleep env 100000 w).

Lemma after_call_later w2 w' :
  good w2 -> after_call env w2 w' -> good w' /\ time w2 <= time w'.
Proof.
  intros Hg [-> | [-> | [-> | ->]]].
  - split; [assumption|lia].
  - apply rediscovery_takes, Hg.
  - destruct (rediscovery_takes w2 Hg) as [Hg1 H1].
    destruct (rediscovery_takes _ Hg1) as [Hg2 H2]. split; [assumption|lia].
  - apply sleep_takes, Hg.
Qed.

(** With less than [n] master calls' worth of time left before the
    deadline, the loop returns within [n + 1] passes. *)
Lemma loop_returns deadline n : forall st fuel,
  good (world st) ->
  deadline - time (world st) < Z.of_nat n * d ->
  (S n <= fuel)%nat ->
  exists r, loop fuel deadline st = Some r.
Proof.
  induction n as [|n IH]; intros st fuel Hg Hleft Hfuel;
    (destruct fuel as [|fuel]; [lia|]); simpl;
    destruct (Now env (world st)) as [now w1] eqn:HN;
    pose proof (body_pass deadline st now w1 HN) as HP;
    pose proof (Now_reads _ Hg) as [Hg1 Hnow]; rewrite HN in Hg1, Hnow; cbn [fst snd] in *;
    destruct (ComesBefore env deadline now) eqn:HD;
    try (rewrite HP; eauto; fail);
    (assert (Hin : deadline >= now)
       by (destruct (Z_lt_ge_dec deadline now) as [Hlt|]; [|assumption];
           rewrite (past_deadline _ _ Hlt) in HD; discriminate)).
  - lia.
  - destruct (call (resp st) w1) as [[s r] w2] eqn:HG.
    destruct (HP s r w2 eq_refl) as (c & st1 & HB & Hr & Ha & Hc). rewrite HB.
    pose proof (call_takes (resp st) w1 Hg1) as [Hg2 Hcall]. rewrite HG in Hg2, Hcall.
    cbn [snd] in *.
    destruct (after_call_later _ _ Hg2 Ha) as [Hg3 Hpass].
    assert (Hgo : exists r, loop fuel deadline st1 = Some r) by (apply IH; [assumption|lia|lia]).
    destruct Hc as [->|[->|(-> & _)]]; eauto.
Qed.

(** X3: [Open] returns.  When, in the worlds [good] holds of (the
    collaborators lead from one such world to another), the clock does not
    run backwards, every master call takes at least [d], and
    [ComesBefore] holds of a deadline that is strictly in the past, [Open] has
    returned after at most [timeout / d + 2] passes of its loop, with [OK]
    or with the deadline's [TimedOut]: the retries without a sleep cannot go
    on for ever. *)
Theorem Open_returns fuel w :
  good w ->
  (Z.to_nat (default_select_master_timeout_ cfg / d) + 2 <= fuel)%nat ->
  exists s st,
    Open env cfg name_ fuel w = Some (s, st) /\
    (s = Status.OK \/ s = Status.TimedOut (timed_out_message cfg)).
Proof.
  intros Hg Hfuel. unfold Open.
  pose proof (Now_reads _ Hg) as [Hg0 Hnow].
  destruct (Now env w) as [t0 w0]. cbn [fst snd] in *.
  set (T := default_select_master_timeout_ cfg) in *.
  destruct (loop_returns (MonoTime.AddDelta t0 T) (S (Z.to_nat (T / d)))
              {| resp := empty_response; world := w0 |} fuel Hg0) as [[s st] Hl].
  - cbn [world]. unfold MonoTime.AddDelta.
    pose proof (Z.mod_pos_bound T d d_pos) as Hm.
    pose proof (Z.div_mod T d ltac:(lia)) as Hdm.
    rewrite Nat2Z.inj_succ.
    assert (Hk : T / d <= Z.of_nat (Z.to_nat (T / d))) by lia.
    nia.
  - lia.
  - exists s, st. split; [exact Hl|]. eapply OpenFacts.Open_loop_result, Hl.
Qed.

End Progress.
End Passes.

Import Sim.

Lemma steady_call d rq t r w :
  d <= MonoTime.FromMilliseconds 1 -> steady d w ->
  steady d (sim_GetTableLocations rq t r w).2 /\
  clock w + d <= clock (sim_GetTableLocations rq t r w).2.
Proof.
  intros Hd [Hc Hp]. unfold sim_GetTableLocations, steady.
  destruct (master_calls w) as [|c cs]; cbn.
  - unfold MonoTime.AddDelta. split; [auto|lia].
  - inversion Hc; subst. unfold MonoTime.AddDelta. split; [auto|lia].
Qed.

Lemma steady_rediscovery d w :
  steady d w ->
  steady d (sim_SetMasterServerProxy w).2 /\ clock w <= clock (sim_SetMasterServerProxy w).2.
Proof.
  intros [Hc Hp]. unfold sim_SetMasterServerProxy, steady.
  destruct (rediscoveries w) as [|[t s] ps]; cbn.
  - unfold MonoTime.AddDelta, MonoTime.FromMilliseconds. split; [auto|lia].
  - inversion Hp; subst. unfold MonoTime.AddDelta. cbn in *. split; [auto|lia].
Qed.

Lemma steady_sleep d w :
  steady d w -> steady d (sim_usleep 100000 w) /\ clock w <= clock (sim_usleep 100000 w).
Proof.
  intros [Hc Hp]. unfold sim_usleep, steady, MonoTime.AddDelta. cbn. split; [auto|lia].
Qed.

Lemma Open_returns_witness :
  let quick := {| default_select_master_timeout_ := MonoTime.FromMilliseconds 5;
                  default_admin_operation_timeout := MonoTime.FromMilliseconds 5 |} in
  exists s st,
    Open env quick "fake-table" 7 (start [not_found_call; located_call] []) = Some (s, st) /\
    (s = Status.OK \/ s = Status.TimedOut (timed_out_message quick)).
Proof.
  intros quick.
  apply (Open_returns env quick "fake-table" clock (steady (MonoTime.FromMilliseconds 1))
           (MonoTime.FromMilliseconds 1)).
  - reflexivity.
  - intros a b H. apply Z.leb_le. lia.
  - intros w H. cbn. split; [exact H|lia].
  - intros r w H. apply steady_call; [lia|exact H].
  - intros w H. apply steady_rediscovery, H.
  - intros w H. apply steady_sleep, H.
  - split; [|constructor]. repeat constructor; vm_compute; discriminate.
  - vm_compute. lia.
Defined.

Lemma Open_ok_only_with_locations_witness :
  opens located /\
  exists st0 now w1 s,
    Now env (world st0) = (now, w1) /\
    ComesBefore env (MonoTime.FromMilliseconds 5000) now = false /\
    sim_GetTableLocations (req "fake-table") (MonoTime.FromMilliseconds 5000) (resp st0) w1
    = ((s, located),
       (sim_GetTableLocations (req "fake-table") 0 empty_response
          (start [located_call] [])).2) /\
    Status.ok s = true.
Proof.
  exact (Open_ok_only_with_locations env cfg "fake-table" 1
           (start [located_call] [])
           {| resp := located;
              world := (sim_GetTableLocations (req "fake-table") 0 empty_response
                          (start [located_call] [])).2 |} eq_refl).
Defined.

Lemma Open_fails_only_past_deadline_witness :
  let w0 := start [slow_not_found_call] [] in
  let w1 := (sim_GetTableLocations (req "fake-table") 0 empty_response w0).2 in
  timed_out_5000 = Status.TimedOut (timed_out_message cfg) /\
  exists st0 now,
    Now env (world st0) = (now, w1) /\ resp st0 = empty_response /\
    ComesBefore env (MonoTime.FromMilliseconds 5000) now = true.
Proof.
  intros w0 w1.
  exact (Open_fails_only_past_deadline env cfg "fake-table" 2 w0 timed_out_5000
           {| resp := empty_response; world := w1 |} eq_refl eq_refl).
Defined.

Lemma Open_network_error_rediscovers_witness :
  (let w0 := start [] [(MonoTime.FromMilliseconds 1, Status.OK)] in
   let w3 := (sim_SetMasterServerProxy
                (sim_GetTableLocations (req "fake-table") 0 empty_response w0).2).2 in
   Open_body env cfg "fake-table" (MonoTime.FromMilliseconds 5000)
     {| resp := empty_response; world := w0 |}
   = (inl Continue, {| resp := empty_response; world := w3 |}) /\
   rediscoveries w3 = []) /\
  (let w0 := start [] [(MonoTime.FromMilliseconds 1, Status.TimedOut "probe");
                       (MonoTime.FromMilliseconds 1, Status.OK);
                       (MonoTime.FromMilliseconds 1, Status.OK)] in
   let w4 := (sim_SetMasterServerProxy
                (sim_SetMasterServerProxy
                   (sim_GetTableLocations (req "fake-table") 0 empty_response w0).2).2).2 in
   Open_body env cfg "fake-table" (MonoTime.FromMilliseconds 5000)
     {| resp := empty_response; world := w0 |}
   = (inl Continue, {| resp := empty_response; world := w4 |}) /\
   rediscoveries w4 = [(MonoTime.FromMilliseconds 1, Status.OK)]).
Proof.
  split; intros w0.
  - intros w3. split; [|reflexivity].
    exact (proj1 (proj1 (Open_network_error_rediscovers env cfg "fake-table"
                           (MonoTime.FromMilliseconds 5000)
                           {| resp := empty_response; world := w0 |}
                           0 w0 refused empty_response
                           (sim_GetTableLocations (req "fake-table") 0 empty_response w0).2
                           Status.OK w3 eq_refl eq_refl eq_refl eq_refl eq_refl) eq_refl)).
  - intros w4. split; [|reflexivity].
    exact (proj1 (proj2 (Open_network_error_rediscovers env cfg "fake-table"
                           (MonoTime.FromMilliseconds 5000)
                           {| resp := empty_response; world := w0 |}
                           0 w0 refused empty_response
                           (sim_GetTableLocations (req "fake-table") 0 empty_response w0).2
                           (Status.TimedOut "probe")
                           (sim_SetMasterServerProxy
                              (sim_GetTableLocations (req "fake-table") 0 empty_response w0).2).2
                           eq_refl eq_refl eq_refl eq_refl eq_refl) eq_refl
                    Status.OK w4 eq_refl)).
Defined.

Lemma Open_timed_out_call_rediscovers_witness :
  let w0 := start [ {| took := MonoTime.FromMilliseconds 5000;
                       outcome := Status.TimedOut "GetTableLocations timed out";
                       reply := None |} ]
              [(MonoTime.FromMilliseconds 1, Status.NotFound "no leader")] in
  let w3 := (sim_SetMasterServerProxy
               (sim_GetTableLocations (req "fake-table") 0 empty_response w0).2).2 in
  Open_body env cfg "fake-table" (MonoTime.FromMilliseconds 5000)
    {| resp := empty_response; world := w0 |}
  = (inl Continue, {| resp := empty_response; world := w3 |}).
Proof.
  intros w0 w3.
  exact (proj1 (Open_timed_out_call_rediscovers env cfg "fake-table"
                  (MonoTime.FromMilliseconds 5000)
                  {| resp := empty_response; world := w0 |}
                  0 w0 (Status.TimedOut "GetTableLocations timed out") empty_response
                  (sim_GetTableLocations (req "fake-table") 0 empty_response w0).2
                  (Status.NotFound "no leader") w3 eq_refl eq_refl eq_refl eq_refl eq_refl)).
Defined.

Lemma Open_leader_change_rediscovers_witness :
  let e := {| error_code := NOT_THE_LEADER; error_status := no_such_table |} in
  let r := {| error := Some e; tablet_locations := [one_tablet] |} in
  let w0 := start [ {| took := MonoTime.FromMilliseconds 2; outcome := Status.OK;
                       reply := Some r |} ]
              [(MonoTime.FromMilliseconds 1, refused)] in
  let w3 := (sim_SetMasterServerProxy
               (sim_GetTableLocations (req "fake-table") 0 empty_response w0).2).2 in
  Open_body env cfg "fake-table" (MonoTime.FromMilliseconds 5000)
    {| resp := empty_response; world := w0 |}
  = (inl Continue, {| resp := r; world := w3 |}).
Proof.
  intros e r w0 w3.
  exact (proj1 (Open_leader_change_rediscovers env cfg "fake-table"
                  (MonoTime.FromMilliseconds 5000)
                  {| resp := empty_response; world := w0 |}
                  0 w0 Status.OK r
                  (sim_GetTableLocations (req "fake-table") 0 empty_response w0).2
                  e refused w3 eq_refl eq_refl eq_refl eq_refl eq_refl
                  (or_introl eq_refl) eq_refl)).
Defined.

Lemma Open_sleeps_on_empty_reply_witness :
  let w0 := start [ {| took := MonoTime.FromMilliseconds 2; outcome := Status.OK;
                       reply := Some empty_response |} ] [] in
  let w2 := (sim_GetTableLocations (req "fake-table") 0 empty_response w0).2 in
  Open_body env cfg "fake-table" (MonoTime.FromMilliseconds 5000)
    {| resp := empty_response; world := w0 |}
  = (inr tt, {| resp := empty_response; world := sim_usleep 100000 w2 |}) /\
  clock (sim_usleep 100000 w2) - clock w2 = MonoTime.FromMilliseconds 100.
Proof.
  intros w0 w2. split; [|reflexivity].
  exact (proj1 (Open_sleeps_on_empty_reply env cfg "fake-table"
                  (MonoTime.FromMilliseconds 5000)
                  {| resp := empty_response; world := w0 |}
                  0 w0 Status.OK empty_response w2
                  eq_refl eq_refl eq_refl eq_refl (conj eq_refl I))).
Defined.

End OpenLoopFacts.

(** * The polling of [AssertScannersDisappear] *)

Module WaitFacts.
Import ClientTestMore.

Section Polling.
Context {W : Type}.
Variable count : W -> nat.
Variable usleep : Z -> W -> W.

Abbreviation poll := (ClientTestMore.poll count usleep).
Abbreviation waited := (ClientTestMore.waited usleep).

Lemma waited_S k : forall i w,
  waited (S k) i w = usleep (delay (i + Z.of_nat k)) (waited k i w).
Proof.
  induction k as [|k IH]; intros i w.
  - cbn. rewrite Z.add_0_r. reflexivity.
  - change (waited (S (S k)) i w) with (waited (S k) (i + 1) (usleep (delay i) w)).
    rewrite IH. cbn [ClientTestMore.waited]. do 2 f_equal. lia.
Qed.

(** The loop returns at the first poll that sees no scanner, and fails
    when none of its polls does. *)
Lemma poll_first left : forall i w,
  match poll left i w with
  | (Some r, w') =>
      exists k, (k < left)%nat /\ r = i + Z.of_nat k /\ w' = waited k i w /\
                count w' = 0%nat /\
                forall j, (j < k)%nat -> count (waited j i w) <> 0%nat
  | (None, w') =>
      w' = waited left i w /\
      forall j, (j < left)%nat -> count (waited j i w) <> 0%nat
  end.
Proof.
  induction left as [|left IH]; intros i w; cbn [ClientTestMore.poll].
  - split; [reflexivity|]. intros j Hj. lia.
  - destruct (Nat.eqb_spec (count w) 0) as [Hz|Hnz].
    + exists 0%nat. cbn. rewrite Z.add_0_r. repeat split; [lia|assumption|]. intros j Hj. lia.
    + specialize (IH (i + 1) (usleep (delay i) w)).
      destruct (poll left (i + 1) (usleep (delay i) w)) as [[r|] w'].
      * destruct IH as (k & Hk & Hr & Hw & Hc & Hfirst).
        exists (S k). repeat split; [lia|lia|exact Hw|exact Hc|].
        intros [|j] Hj; [exact Hnz|]. apply Hfirst. lia.
      * destruct IH as [Hw Hall]. split; [exact Hw|].
        intros [|j] Hj; [exact Hnz|]. apply Hall. lia.
Qed.

(** With a clock that a sleep advances by its argument, the first [k]
    sleeps take [slept k] microseconds. *)
Lemma waited_clock (clock : W -> Z) :
  (forall us w, clock (usleep us w) = clock w + us) ->
  forall k i w, 0 <= i ->
    clock (waited k i w) = clock w + (slept (i + Z.of_nat k) - slept i).
Proof.
  intros Hs. induction k as [|k IH]; intros i w Hi.
  - cbn. rewrite Z.add_0_r. lia.
  - cbn [ClientTestMore.waited]. rewrite IH, Hs by lia.
    replace (i + 1 + Z.of_nat k) with (i + Z.of_nat (S k)) by lia.
    unfold slept, delay.
    destruct (Z.ltb_spec i 10), (Z.leb_spec (i + 1) 10), (Z.leb_spec i 10),
      (Z.leb_spec (i + Z.of_nat (S k)) 10); lia.
Qed.

(** X8: [AssertScannersDisappear] polls up to 500 times.  It returns at the
    first poll that sees no active scanner, iteration [i], after [i]
    sleeps; it fails when none of the 500 polls sees none, after 500
    sleeps.  The sleeps before poll [k] add up to 2 ms for each of the
    first ten and 20 ms for each later one: 9.82 seconds when it fails. *)
Theorem AssertScannersDisappear_polls w :
  match AssertScannersDisappear count usleep w with
  | (Some i, w') =>
      0 <= i < 500 /\ w' = waited (Z.to_nat i) 0 w /\ count w' = 0%nat /\
      forall j, (j < Z.to_nat i)%nat -> count (waited j 0 w) <> 0%nat
  | (None, w') =>
      w' = waited 500 0 w /\
      forall j, (j < 500)%nat -> count (waited j 0 w) <> 0%nat
  end /\
  (forall clock : W -> Z,
     (forall us w, clock (usleep us w) = clock w + us) ->
     (forall k, clock (waited k 0 w) - clock w
                = 2000 * Z.min (Z.of_nat k) 10 + 20000 * Z.max (Z.of_nat k - 10) 0) /\
     clock (waited 500 0 w) - clock w = 9820000).
Proof.
  split.
  - unfold AssertScannersDisappear. pose proof (poll_first 500 0 w) as H.
    destruct (poll 500 0 w) as [[r|] w'].
    + destruct H as (k & Hk & -> & Hw & Hc & Hfirst).
      rewrite Z.add_0_l, Nat2Z.id. repeat split; [lia|lia|assumption|assumption|assumption].
    + exact H.
  - intros clock Hs.
    assert (H : forall k, clock (waited k 0 w) - clock w
                          = 2000 * Z.min (Z.of_nat k) 10 + 20000 * Z.max (Z.of_nat k - 10) 0).
    { intros k. rewrite (waited_clock clock Hs k 0 w) by lia. unfold slept.
      rewrite Z.add_0_l. cbn [Z.leb Z.compare]. destruct (Z.leb_spec (Z.of_nat k) 10); lia. }
    split; [exact H|]. rewrite (H 500%nat). reflexivity.
Qed.

End Polling.

Lemma AssertScannersDisappear_polls_witness :
  let count := fun w : nat * Z => w.1 in
  let usleep := fun us (w : nat * Z) => (Nat.pred w.1, w.2 + us) in
  AssertScannersDisappear count usleep (12%nat, 0) = (Some 12, (0%nat, 60000)) /\
  (waited usleep 500 0 (12%nat, 0)).2 - 0 = 9820000.
Proof.
  intros count usleep. split; [reflexivity|].
  exact (proj2 (proj2 (AssertScannersDisappear_polls count usleep (12%nat, 0)) snd
                  (fun us w => eq_refl))).
Defined.

Import TServer ScanSystem.

(** Events in the cluster keep the server up and every registered
    scanner's close request under way, when that is so to begin with; each
    close request that arrives shortens the queue. *)
Lemma run_pending es : forall cl,
  running (Cluster.tserver cl) = true ->
  (forall id e, scanners (Cluster.tserver cl) !! id = Some e ->
                id ∈ Cluster.close_requests cl) ->
  let cl' := Cluster.run es cl in
  running (Cluster.tserver cl') = true /\
  (forall id e, scanners (Cluster.tserver cl') !! id = Some e ->
                id ∈ Cluster.close_requests cl') /\
  (length (Cluster.close_requests cl')
   <= length (Cluster.close_requests cl) - length (List.filter is_delivery es))%nat.
Proof.
  induction es as [|ev es IH]; intros cl Hrun Hall; cbn [Cluster.run foldl].
  - cbn. repeat split; [assumption|assumption|lia].
  - assert (H1 : running (Cluster.tserver (Cluster.step ev cl)) = true /\
                 (forall id e, scanners (Cluster.tserver (Cluster.step ev cl)) !! id = Some e ->
                               id ∈ Cluster.close_requests (Cluster.step ev cl)) /\
                 (length (Cluster.close_requests (Cluster.step ev cl))
                  <= length (Cluster.close_requests cl)
                     - (if is_delivery ev then 1 else 0))%nat).
    { destruct ev as [d| |]; cbn [Cluster.step is_delivery].
      - cbn. split; [assumption|]. split; [assumption|lia].
      - unfold Cluster.deliver_close.
        destruct (Cluster.close_requests cl) as [|id0 q] eqn:Hq.
        + rewrite Hq. split; [assumption|]. split; [|cbn; lia].
          intros id e He. eauto.
        + unfold ScanClose. rewrite Hrun. cbn. split; [assumption|]. split; [|lia].
          intros id e. rewrite lookup_delete_Some. intros [Hne He].
          specialize (Hall id e He).
          inversion Hall; subst; [congruence|assumption].
      - cbn. split; [assumption|]. split; [|lia].
        intros id e He. apply map_lookup_filter_Some in He as [He _]. eauto. }
    destruct H1 as (R1 & A1 & L1).
    destruct (IH (Cluster.step ev cl) R1 A1) as (R2 & A2 & L2).
    fold (Cluster.run es (Cluster.step ev cl)).
    repeat split; [assumption|assumption|].
    cbn [List.filter]. destruct (is_delivery ev); cbn [length]; lia.
Qed.

(** The cluster after [k] sleeps of the test. *)
Lemma waited_pending k : forall i cl script,
  running (Cluster.tserver cl) = true ->
  (forall id e, scanners (Cluster.tserver cl) !! id = Some e ->
                id ∈ Cluster.close_requests cl) ->
  let w' := waited sleep_in_cluster k i (cl, script) in
  running (Cluster.tserver w'.1) = true /\
  (forall id e, scanners (Cluster.tserver w'.1) !! id = Some e ->
                id ∈ Cluster.close_requests w'.1) /\
  (length (Cluster.close_requests w'.1)
   <= length (Cluster.close_requests cl) - deliveries k script)%nat.
Proof.
  induction k as [|k IH]; intros i cl script Hrun Hall; cbn [waited].
  - unfold deliveries. rewrite take_0. cbn. repeat split; [assumption|assumption|lia].
  - destruct script as [|evs script].
    + change (sleep_in_cluster (delay i) (cl, []))
        with (Cluster.run [Cluster.Tick (delay i * 1000)] cl, @nil (list Cluster.Event)).
      destruct (run_pending [Cluster.Tick (delay i * 1000)] cl Hrun Hall) as (R1 & A1 & L1).
      destruct (IH (i + 1) _ [] R1 A1) as (R2 & A2 & L2).
      repeat split; [assumption|assumption|].
      unfold deliveries in *. rewrite take_nil in *. cbn in *. lia.
    + change (sleep_in_cluster (delay i) (cl, evs :: script))
        with (Cluster.run (Cluster.Tick (delay i * 1000) :: evs) cl, script).
      destruct (run_pending (Cluster.Tick (delay i * 1000) :: evs) cl Hrun Hall)
        as (R1 & A1 & L1).
      destruct (IH (i + 1) _ script R1 A1) as (R2 & A2 & L2).
      repeat split; [assumption|assumption|].
      unfold deliveries in *. cbn [take concat]. rewrite List.filter_app, length_app.
      cbn [List.filter is_delivery] in L1. lia.
Qed.

(** X9: [TestCloseScanner]'s wait, lines 277, 289 and 302.  In a state the
    system reaches with every handle closed or discarded, when the close
    requests under way have all arrived by the end of the first [k] sleeps
    of [AssertScannersDisappear] ([k] below 500), the function sees the
    scanners gone and returns, at iteration [k] at the latest. *)
Theorem scanners_disappear_while_waiting st0 trace script k :
  Inv st0 ->
  let st := exec trace st0 in
  all_closed st ->
  (k < 500)%nat ->
  (length (Cluster.close_requests (cluster st)) <= deliveries k script)%nat ->
  exists i w',
    AssertScannersDisappear_in_cluster (cluster st, script) = (Some i, w') /\
    0 <= i <= Z.of_nat k /\
    active w'.1 = 0%nat.
Proof.
  intros H0 st Hclosed Hk Hdel.
  pose proof (ScanSystemFacts.exec_Inv trace st0 H0) as HI. fold st in HI.
  assert (Hall : forall id e, scanners (Cluster.tserver (cluster st)) !! id = Some e ->
                              id ∈ Cluster.close_requests (cluster st))
    by (intros id e He; eapply ScanSystemFacts.closed_pending; eauto).
  destruct (waited_pending k 0 (cluster st) script (inv_running st HI) Hall) as (_ & Ak & Lk).
  assert (Hzero : active (waited sleep_in_cluster k 0 (cluster st, script)).1 = 0%nat).
  { unfold active, CountActiveScanners. apply map_size_empty_iff, map_empty. intros id.
    destruct (scanners _ !! id) as [e|] eqn:He; [|reflexivity].
    specialize (Ak id e He).
    destruct (Cluster.close_requests (waited sleep_in_cluster k 0 (cluster st, script)).1);
      [inversion Ak|simpl in Lk; lia]. }
  unfold AssertScannersDisappear_in_cluster, AssertScannersDisappear.
  match goal with
  | |- context [ClientTestMore.poll ?f ?u 500 0 ?w] =>
      pose proof (poll_first f u 500 0 w) as HP; cbv beta in HP;
      destruct (ClientTestMore.poll f u 500 0 w) as [[r|] w']
  end.
  - destruct HP as (k' & Hk' & -> & Hw & Hc & Hfirst).
    exists (0 + Z.of_nat k'), w'. split; [reflexivity|]. split; [|exact Hc].
    destruct (decide (k' <= k)%nat) as [Hle|Hgt]; [lia|].
    exfalso. apply (Hfirst k); [lia|exact Hzero].
  - destruct HP as [_ Hnone]. exfalso. apply (Hnone k Hk). exact Hzero.
Qed.

Import ClientTest.

Lemma scanners_disappear_while_waiting_witness :
  let st := exec close_scanner_trace {| cluster := ten_rows; handles := [] |} in
  length (Cluster.close_requests (cluster st)) = 2%nat /\
  exists i w',
    AssertScannersDisappear_in_cluster
      (cluster st, [[]; [Cluster.DeliverClose]; []; [Cluster.DeliverClose]]) = (Some i, w') /\
    0 <= i <= 4 /\ active w'.1 = 0%nat.
Proof.
  intros st. split; [vm_compute; reflexivity|].
  assert (H0 : Inv {| cluster := ten_rows; handles := [] |}).
  { split; [reflexivity| | |]; intros id e He; vm_compute in He; discriminate. }
  assert (Hc : all_closed st) by (vm_compute; repeat constructor).
  apply (scanners_disappear_while_waiting _ close_scanner_trace
           [[]; [Cluster.DeliverClose]; []; [Cluster.DeliverClose]] 4%nat H0 Hc).
  - lia.
  - vm_compute. lia.
Defined.

End WaitFacts.

(** * The scan loops of the tests *)

Module ScanLoopFacts.
Import Schema TServer ClientTest ClientTestMore.

Lemma next_batch_nonempty budget r rs : (next_batch budget (r :: rs)).1 <> [].
Proof. simpl. destruct (fill budget (row_bytes r) rs). discriminate. Qed.

(** The loop over a registered scanner: its body gets the remaining rows
    in batches, none of them empty, in order. *)
Lemma batch_loop_registered {A R} (body : A -> list Cells -> R + A) fuel :
  forall rs acc sc cl id e,
  (length rs < fuel)%nat ->
  rs <> [] ->
  KuduScanner.data_in_open_ sc = false ->
  has_more_results (KuduScanner.last_response_ sc) = true ->
  scanner_id (KuduScanner.last_response_ sc) = Some id ->
  running (Cluster.tserver cl) = true ->
  scanners (Cluster.tserver cl) !! id = Some e ->
  remaining e = rs ->
  exists bs sc' cl',
    concat bs = rs /\ Forall (fun b => b <> []) bs /\
    batch_loop fuel body acc sc cl = Some (inr (run_batches body acc bs, sc', cl')).
Proof.
  induction fuel as [|fuel IH]; intros rs acc sc cl id e Hlen Hne Hd Hm Hid Hrun He Hrem; [lia|].
  destruct rs as [|r rs]; [congruence|].
  cbn [batch_loop]. unfold KuduScanner.HasMoreRows. rewrite Hd, Hm. cbn [orb].
  unfold KuduScanner.NextBatch. rewrite Hd, Hm, Hid.
  unfold ScanNext. rewrite Hrun, He, Hrem.
  pose proof (ScannerFacts.next_batch_split (budget e) (r :: rs)) as Hsplit.
  pose proof (ScannerFacts.next_batch_shorter (budget e) r rs) as Hshort.
  pose proof (next_batch_nonempty (budget e) r rs) as Hbatch.
  destruct (next_batch (budget e) (r :: rs)) as [batch rest]. cbn [fst snd] in *.
  destruct rest as [|r' rest'].
  - rewrite app_nil_r in Hsplit. subst batch.
    cbn [Status.ok Status.code Status.OK Status.code_eqb data].
    exists [r :: rs]. cbn [run_batches concat]. rewrite app_nil_r.
    destruct (body acc (r :: rs)) as [x|a].
    + eexists _, _. split; [reflexivity|]. split; [repeat constructor; discriminate|reflexivity].
    + destruct fuel as [|fuel]; [simpl in Hlen; lia|].
      cbn [batch_loop KuduScanner.HasMoreRows KuduScanner.with_response
           KuduScanner.data_in_open_ KuduScanner.last_response_ has_more_results orb].
      eexists _, _. split; [reflexivity|]. split; [repeat constructor; discriminate|reflexivity].
  - cbn [Status.ok Status.code Status.OK Status.code_eqb data].
    destruct (body acc batch) as [x|a] eqn:Hb.
    + exists [batch; r' :: rest']. eexists _, _. cbn [concat run_batches]. rewrite Hb.
      rewrite app_nil_r. split; [exact Hsplit|].
      split; [repeat constructor; [exact Hbatch|discriminate]|reflexivity].
    + set (e' := {| remaining := r' :: rest'; budget := budget e;
                    last_activity := Cluster.now cl |}).
      set (sc1 := KuduScanner.with_response _ _ _ sc).
      set (cl1 := Cluster.with_tserver _ cl).
      destruct (IH (r' :: rest') a sc1 cl1 id e')
        as (bs & sc' & cl' & Hc & Hf & Hl); try reflexivity.
      * simpl in *. lia.
      * discriminate.
      * subst cl1. simpl. exact Hrun.
      * subst cl1. simpl. apply lookup_insert_eq.
      * exists (batch :: bs), sc', cl'. cbn [concat run_batches]. rewrite Hb, Hc.
        split; [exact Hsplit|]. split; [constructor; assumption|exact Hl].
Qed.

(** A whole scan, batch by batch: after [Open] the body of the loop gets
    every row of the scan, in order, in batches none of which is empty,
    given fuel for one pass per row and two more. *)
Lemma batch_all {A R} (body : A -> list Cells -> R + A) fuel acc sc cl tablet tb :
  Cluster.GetTableLocations (KuduTable.name (KuduScanner.table sc)) cl = inr tablet ->
  running (Cluster.tserver cl) = true ->
  tablets (Cluster.tserver cl) !! tablet = Some tb ->
  let rows := Tablet.scan_rows tb (KuduScanner.projection sc) (KuduScanner.predicates sc) in
  (length rows + 2 <= fuel)%nat ->
  exists sc1 cl1 bs sc2 cl2,
    KuduScanner.Open sc cl = (Status.OK, sc1, cl1) /\
    concat bs = rows /\ Forall (fun b => b <> []) bs /\
    batch_loop fuel body acc sc1 cl1 = Some (inr (run_batches body acc bs, sc2, cl2)) /\
    KuduScanner.HasMoreRows sc1 = negb (Client.is_nil rows).
Proof.
  intros Hg Hrun Htb rows Hfuel.
  rewrite (ScannerFacts.Open_answered sc cl tablet tb Hg Hrun Htb). fold rows.
  pose proof (ScannerFacts.first_batch_split (KuduScanner.batch_size_bytes sc) rows) as Hsplit.
  destruct (first_batch (KuduScanner.batch_size_bytes sc) rows) as [batch rest].
  cbn [fst snd] in *.
  destruct fuel as [|[|fuel]]; try lia.
  destruct rest as [|r rest].
  - rewrite app_nil_r in Hsplit. subst batch.
    destruct rows as [|r0 rows'].
    + eexists _, _, [], _, _. split; [reflexivity|]. split; [reflexivity|].
      split; [constructor|]. split; reflexivity.
    + eexists _, _, [r0 :: rows'], _, _. split; [reflexivity|].
      split; [cbn; rewrite app_nil_r; reflexivity|].
      split; [repeat constructor; discriminate|].
      split; [|reflexivity].
      cbn [batch_loop run_batches]. unfold KuduScanner.HasMoreRows, KuduScanner.NextBatch.
      cbn [KuduScanner.with_response KuduScanner.data_in_open_ KuduScanner.last_response_
           KuduScanner.open_ has_more_results data].
      rewrite bool_decide_eq_true_2 by discriminate.
      cbn [orb Status.ok Status.code Status.OK Status.code_eqb].
      destruct (body acc (r0 :: rows')) as [x|a]; reflexivity.
  - set (e := {| remaining := r :: rest; budget := KuduScanner.batch_size_bytes sc;
                 last_activity := Cluster.now cl |}).
    set (id := next_scanner_id (Cluster.tserver cl)).
    set (cl1 := Cluster.with_tserver _ cl).
    assert (Hrun1 : running (Cluster.tserver cl1) = true) by exact Hrun.
    assert (He : scanners (Cluster.tserver cl1) !! id = Some e)
      by (subst cl1; simpl; apply lookup_insert_eq).
    assert (Hrows : rows <> []) by (intros E; rewrite E in Hsplit; destruct batch; discriminate).
    assert (Hmore : negb (Client.is_nil rows) = true) by (destruct rows; [congruence|reflexivity]).
    destruct batch as [|b0 batch].
    + simpl in Hsplit.
      set (sc1 := KuduScanner.with_response _ _ _ sc).
      destruct (batch_loop_registered body (S (S fuel)) (r :: rest) acc sc1 cl1 id e)
        as (bs & sc2 & cl2 & Hc & Hf & Hl); try reflexivity; try assumption.
      * rewrite Hsplit. lia.
      * discriminate.
      * exists sc1, cl1, bs, sc2, cl2. rewrite Hl, Hc, Hmore.
        split; [reflexivity|]. split; [exact Hsplit|]. split; [exact Hf|]. split; reflexivity.
    + set (resp := {| scanner_id := Some id; data := b0 :: batch; has_more_results := true |}).
      set (sc1 := KuduScanner.with_response true (bool_decide (b0 :: batch <> [])) resp sc).
      set (sc1' := KuduScanner.with_response true false resp sc1).
      assert (Hstep : forall n, batch_loop (S n) body acc sc1 cl1
                = match body acc (b0 :: batch) with
                  | inl x => Some (inr (inl x, sc1', cl1))
                  | inr a => batch_loop n body a sc1' cl1
                  end).
      { intros n. cbn [batch_loop]. subst sc1 sc1'.
        unfold KuduScanner.HasMoreRows, KuduScanner.NextBatch.
        cbn [KuduScanner.with_response KuduScanner.data_in_open_
             KuduScanner.last_response_ KuduScanner.open_ data].
        rewrite bool_decide_eq_true_2 by discriminate.
        cbn [orb Status.ok Status.code Status.OK Status.code_eqb]. reflexivity. }
      destruct (body acc (b0 :: batch)) as [x|a] eqn:Hb.
      * exists sc1, cl1, [b0 :: batch; r :: rest], sc1', cl1.
        rewrite Hstep, Hmore. cbn [concat run_batches]. rewrite Hb, app_nil_r.
        split; [reflexivity|]. split; [exact Hsplit|].
        split; [repeat constructor; discriminate|]. split; reflexivity.
      * destruct (batch_loop_registered body (S fuel) (r :: rest) a sc1' cl1 id e)
          as (bs & sc2 & cl2 & Hc & Hf & Hl); try reflexivity; try assumption.
        { apply (f_equal (@length _)) in Hsplit. rewrite length_app in Hsplit.
          simpl in *. lia. }
        { discriminate. }
        exists sc1, cl1, ((b0 :: batch) :: bs), sc2, cl2.
        rewrite Hstep, Hmore. cbn [concat run_batches]. rewrite Hb, Hc, Hl.
        split; [reflexivity|]. split; [exact Hsplit|].
        split; [constructor; [discriminate|exact Hf]|]. split; reflexivity.
Qed.

Lemma to_int_small z : - 2 ^ 31 <= z < 2 ^ 31 -> to_int z = z.
Proof. intros H. unfold to_int. rewrite Z.mod_small by lia. lia. Qed.

(** The [int] count over the batches, as long as it fits. *)
Lemma run_add_size bs : forall c,
  0 <= c -> c + Z.of_nat (length (concat bs)) < 2 ^ 31 ->
  run_batches add_size c bs = inr (c + Z.of_nat (length (concat bs))).
Proof.
  induction bs as [|b bs IH]; intros c Hc Hfit; cbn [run_batches concat add_size] in *.
  - cbn. rewrite Z.add_0_r. reflexivity.
  - rewrite length_app in *. rewrite to_int_small by lia.
    rewrite IH by lia. f_equal. lia.
Qed.

Lemma run_add_size64 bs : forall c,
  0 <= c -> c + Z.of_nat (length (concat bs)) < 2 ^ 64 ->
  run_batches add_size64 c bs = inr (c + Z.of_nat (length (concat bs))).
Proof.
  induction bs as [|b bs IH]; intros c Hc Hfit; cbn [run_batches concat add_size64] in *.
  - cbn. rewrite Z.add_0_r. reflexivity.
  - rewrite length_app in *. rewrite Z.mod_small by lia.
    rewrite IH by lia. f_equal. lia.
Qed.

(** A scan without predicates yields one row per stored row, whatever
    the projection. *)
Lemma scan_rows_all tb projection :
  length (Tablet.scan_rows tb projection []) = size (Tablet.rows tb).
Proof.
  unfold Tablet.scan_rows, Tablet.stored_rows.
  rewrite ScannerFacts.filter_no_predicates, length_map, length_fmap.
  apply length_map_to_list.
Qed.

(** X10: Counting the rows of a table through the client.
    [CountRowsFromClient] returns the number of rows the tablet stores,
    none included.  [TestScanEmptyProjection], for which the rows carry
    no column at all, counts the rows of a tablet that has some, and on a
    tablet without a row it stops at the [ASSERT_TRUE(scanner.HasMoreRows())]
    of line 237. *)
Theorem scans_count_the_stored_rows fuel batch_size table cl tablet tablet' tb tb' :
  running (Cluster.tserver cl) = true ->
  Cluster.GetTableLocations (KuduTable.name table) cl = inr tablet ->
  tablets (Cluster.tserver cl) !! tablet = Some tb ->
  Cluster.GetTableLocations tablet_id_ cl = inr tablet' ->
  tablets (Cluster.tserver cl) !! tablet' = Some tb' ->
  Z.of_nat (size (Tablet.rows tb)) < 2 ^ 31 ->
  Z.of_nat (size (Tablet.rows tb')) < 2 ^ 64 ->
  (size (Tablet.rows tb) + 2 <= fuel)%nat ->
  (size (Tablet.rows tb') + 2 <= fuel)%nat ->
  (exists cl', CountRowsFromClient fuel table cl
               = Some (inr (Z.of_nat (size (Tablet.rows tb)), cl'))) /\
  ScanEmptyProjection fuel batch_size cl
  = Some (if (size (Tablet.rows tb') =? 0)%nat then inl NoMoreRows
          else inr (Z.of_nat (size (Tablet.rows tb')))).
Proof.
  intros Hrun Hg Htb Hg' Htb' Hfit Hfit' Hfuel Hfuel'. split.
  - unfold CountRowsFromClient.
    set (sc := KuduScanner.new _ table).
    change (KuduScanner.SetProjection (KuduTable.schema table) sc) with (Status.OK, sc).
    cbv beta iota. cbn [Status.ok Status.OK Status.code Status.code_eqb negb].
    destruct (batch_all add_size fuel 0 sc cl tablet tb Hg Hrun Htb)
      as (sc1 & cl1 & bs & sc2 & cl2 & Ho & Hc & _ & Hl & _).
    { rewrite scan_rows_all. exact Hfuel. }
    rewrite Ho. cbn [Status.ok Status.OK Status.code Status.code_eqb negb]. rewrite Hl.
    rewrite run_add_size by (rewrite ?Hc, ?scan_rows_all; lia).
    rewrite Hc, scan_rows_all. eexists. reflexivity.
  - unfold ScanEmptyProjection.
    set (sc := {| KuduScanner.table := client_table_;
                  KuduScanner.projection := empty_projection;
                  KuduScanner.predicates := [];
                  KuduScanner.batch_size_bytes := batch_size;
                  KuduScanner.open_ := false; KuduScanner.data_in_open_ := false;
                  KuduScanner.last_response_ := KuduScanner.no_response |}).
    change (KuduScanner.SetProjection empty_projection (KuduScanner.new batch_size client_table_))
      with (Status.OK, sc).
    cbv beta iota. cbn [Status.ok Status.OK Status.code Status.code_eqb negb].
    destruct (batch_all add_size64 fuel 0 sc cl tablet' tb' Hg' Hrun Htb')
      as (sc1 & cl1 & bs & sc2 & cl2 & Ho & Hc & _ & Hl & Hh).
    { rewrite scan_rows_all. exact Hfuel'. }
    rewrite Ho. cbn [Status.ok Status.OK Status.code Status.code_eqb negb].
    rewrite Hh.
    pose proof (scan_rows_all tb' empty_projection) as Hn.
    change (KuduScanner.projection sc) with empty_projection.
    change (KuduScanner.predicates sc) with (@nil Tablet.ColumnRangePredicate).
    destruct (Tablet.scan_rows tb' empty_projection []) as [|r rows'] eqn:Hrows;
      simpl in Hn; rewrite <- Hn; [reflexivity|].
    cbn [Client.is_nil negb Nat.eqb]. rewrite Hl.
    rewrite run_add_size64 by (rewrite ?Hc, ?scan_rows_all; lia).
    rewrite Hc, scan_rows_all, <- Hn. reflexivity.
Qed.

(** Strings between two strings that begin with the same character begin
    with it too, and their tails are between the tails. *)
Lemma leb_squeeze c lo hi s :
  String.leb (String c lo) s = true ->
  String.leb s (String c hi) = true ->
  exists s', s = String c s' /\ String.leb lo s' = true /\ String.leb s' hi = true.
Proof.
  destruct s as [|c' s']; unfold String.leb; cbn [String.compare]; [discriminate|].
  rewrite (Ascii.compare_antisym c' c).
  destruct (Ascii.compare c c') eqn:E; cbn [CompOpp]; try discriminate.
  apply Ascii.compare_eq_iff in E. subst c'. intros H1 H2. exists s'. auto.
Qed.

Lemma leb_empty s : String.leb s "" = true -> s = "".
Proof. destruct s; [reflexivity|]. unfold String.leb. cbn. discriminate. Qed.

(** What the range of the test's predicate lets through, lines 138-139
    against lines 153. *)
Lemma between_hello_2_and_3 s :
  String.leb "hello 2" s = true -> String.leb s "hello 3" = true ->
  String.prefix "hello 2" s = true \/ s = "hello 3".
Proof.
  intros H1 H2.
  repeat match goal with
         | H1 : String.leb (String ?c ?lo) ?s = true,
           H2 : String.leb ?s (String ?c ?hi) = true |- _ =>
             let s' := fresh "s" in
             destruct (leb_squeeze c lo hi s H1 H2) as (s' & -> & ? & ?); clear H1 H2
         end.
  match goal with
  | H1 : String.leb "2" ?s = true, H2 : String.leb ?s "3" = true |- _ =>
      destruct s as [|c t]; [discriminate H1|];
      unfold String.leb in H1, H2; cbn [String.compare] in H1, H2
  end.
  match type of H1 with context [Ascii.compare ?a c] =>
    destruct (Ascii.compare a c) eqn:E1; try discriminate
  end.
  - apply Ascii.compare_eq_iff in E1. subst c. left.
    cbn. destruct t; reflexivity.
  - match type of H2 with context [Ascii.compare c ?b] =>
      destruct (Ascii.compare c b) eqn:E2; try discriminate
    end.
    + apply Ascii.compare_eq_iff in E2. subst c. right.
      destruct t; [reflexivity|discriminate].
    + unfold Ascii.compare in E1, E2. rewrite N.compare_lt_iff in E1, E2.
      cbn in E1, E2. lia.
Qed.

(** A stored row that the test's predicate lets through passes the
    test's check once projected on the test's schema. *)
Lemma matching_row_passes tb cs :
  Tablet.schema tb = schema_ ->
  Tablet.matches tb [string_predicate] cs = true ->
  passes (Tablet.project tb schema_ cs) = true.
Proof.
  intros Hs. unfold Tablet.matches, Tablet.project. rewrite Hs.
  cbn [forallb string_predicate Tablet.pred_column].
  change (find_column schema_ "string_val") with (Some 2%nat).
  rewrite andb_true_r. unfold Tablet.cell_in_range.
  cbn [columns schema_ map col_name].
  change (find_column schema_ "string_val") with (Some 2%nat).
  cbn [mbind option_bind]. unfold passes. cbn [lookup list_lookup].
  destruct (mjoin (cs !! 2%nat)) as [[z|s]|]; cbn; try discriminate.
  intros H. apply andb_prop in H as [H1 H2].
  destruct (between_hello_2_and_3 s H1 H2) as [Hp| ->].
  - rewrite Hp. reflexivity.
  - apply orb_true_r.
Qed.

Lemma run_check_batch bs :
  Forall passes (concat bs) -> run_batches check_batch tt bs = inr tt.
Proof.
  induction bs as [|b bs IH]; cbn [concat run_batches]; [reflexivity|].
  rewrite Forall_app. intros [Hb Hbs]. unfold check_batch at 1.
  destruct (List.find (fun r => negb (passes r)) b) as [r|] eqn:Hf.
  - apply List.find_some in Hf as [Hin Hr]. rewrite Forall_forall in Hb.
    apply list_elem_of_In in Hin. specialize (Hb r Hin).
    unfold Is_true in Hb. destruct (passes r); [discriminate|contradiction].
  - apply IH, Hbs.
Qed.

(** X11: [DoTestScanWithStringPredicate] never reaches its [FAIL()].  On a
    tablet with the test's schema, whatever its rows and whatever the
    batch size, every row the scan returns passes the check of lines
    152-155, so the function reaches its end when a stored row is in the
    range of the predicate; when none is, it stops at the
    [ASSERT_TRUE(scanner.HasMoreRows())] of line 145. *)
Theorem string_predicate_scan_never_fails fuel batch_size cl tablet tb :
  Cluster.GetTableLocations tablet_id_ cl = inr tablet ->
  running (Cluster.tserver cl) = true ->
  tablets (Cluster.tserver cl) !! tablet = Some tb ->
  Tablet.schema tb = schema_ ->
  (size (Tablet.rows tb) + 2 <= fuel)%nat ->
  DoTestScanWithStringPredicate fuel batch_size cl
  = Some (if existsb (Tablet.matches tb [string_predicate]) (Tablet.stored_rows tb)
          then inr tt else inl NoMoreRows).
Proof.
  intros Hg Hrun Htb Hs Hfuel. unfold DoTestScanWithStringPredicate.
  set (sc := {| KuduScanner.table := client_table_;
                KuduScanner.projection := schema_;
                KuduScanner.predicates := [string_predicate];
                KuduScanner.batch_size_bytes := batch_size;
                KuduScanner.open_ := false; KuduScanner.data_in_open_ := false;
                KuduScanner.last_response_ := KuduScanner.no_response |}).
  change (KuduScanner.SetProjection schema_ (KuduScanner.new batch_size client_table_))
    with (Status.OK, {| KuduScanner.table := client_table_;
                        KuduScanner.projection := schema_;
                        KuduScanner.predicates := [];
                        KuduScanner.batch_size_bytes := batch_size;
                        KuduScanner.open_ := false; KuduScanner.data_in_open_ := false;
                        KuduScanner.last_response_ := KuduScanner.no_response |}).
  cbv beta iota. cbn [Status.ok Status.OK Status.code Status.code_eqb negb].
  change (KuduScanner.AddConjunctPredicate string_predicate _) with (Status.OK, sc).
  cbv beta iota. cbn [Status.ok Status.OK Status.code Status.code_eqb negb].
  set (rows := Tablet.scan_rows tb schema_ [string_predicate]).
  assert (Hlen : (length rows <= size (Tablet.rows tb))%nat).
  { subst rows. unfold Tablet.scan_rows, Tablet.stored_rows.
    rewrite length_map, <- length_map_to_list, <- (length_fmap snd).
    apply List.filter_length_le. }
  destruct (batch_all check_batch fuel tt sc cl tablet tb Hg Hrun Htb)
    as (sc1 & cl1 & bs & sc2 & cl2 & Ho & Hc & _ & Hl & Hh).
  { change (length rows + 2 <= fuel)%nat. lia. }
  change (concat bs = rows) in Hc.
  change (KuduScanner.HasMoreRows sc1 = negb (Client.is_nil rows)) in Hh.
  rewrite Ho. cbn [Status.ok Status.OK Status.code Status.code_eqb negb].
  rewrite Hh.
  assert (Hex : existsb (Tablet.matches tb [string_predicate]) (Tablet.stored_rows tb)
                = negb (Client.is_nil rows)).
  { subst rows. unfold Tablet.scan_rows.
    induction (Tablet.stored_rows tb) as [|cs l IH]; [reflexivity|].
    cbn [List.filter existsb]. destruct (Tablet.matches tb [string_predicate] cs); [reflexivity|].
    exact IH. }
  rewrite Hex.
  destruct (Client.is_nil rows) eqn:Hnil; cbn [negb]; [reflexivity|].
  rewrite Hl.
  rewrite run_check_batch.
  - reflexivity.
  - rewrite Hc. subst rows. unfold Tablet.scan_rows. apply Forall_forall. intros r Hr.
    apply list_elem_of_In, in_map_iff in Hr as (cs & <- & Hin).
    apply List.filter_In in Hin as [_ Hm].
    rewrite (matching_row_passes tb cs Hs Hm). exact I.
Qed.

(** X12: [TestScanEmptyTable], lines 219-224, for any scan that has no row
    to return (an empty tablet, or predicates no row passes) and any batch
    size, zero included: [Open] succeeds, [HasMoreRows] is false at once,
    the server registers no scanner, and [Close] then sends no request;
    the cluster is as it was throughout. *)
Theorem scan_of_nothing sc cl tablet tb :
  Cluster.GetTableLocations (KuduTable.name (KuduScanner.table sc)) cl = inr tablet ->
  running (Cluster.tserver cl) = true ->
  tablets (Cluster.tserver cl) !! tablet = Some tb ->
  Tablet.scan_rows tb (KuduScanner.projection sc) (KuduScanner.predicates sc) = [] ->
  exists sc',
    KuduScanner.Open sc cl = (Status.OK, sc', cl) /\
    KuduScanner.HasMoreRows sc' = false /\
    scanner_id (KuduScanner.last_response_ sc') = None /\
    (KuduScanner.Close sc' cl).2 = cl /\
    KuduScanner.open_ (KuduScanner.Close sc' cl).1 = false.
Proof.
  intros Hg Hrun Htb Hrows.
  rewrite (ScannerFacts.Open_answered sc cl tablet tb Hg Hrun Htb), Hrows.
  assert (Hf : first_batch (KuduScanner.batch_size_bytes sc) [] = ([], []))
    by (unfold first_batch; destruct (_ <=? 0); reflexivity).
  rewrite Hf. cbn [fst snd]. rewrite SessionFacts.with_tserver_same.
  eexists. split; [reflexivity|]. repeat split.
Qed.

Lemma scan_of_nothing_witness :
  let sc := KuduScanner.new (Client.default_batch_size_bytes options) client_table_ in
  exists sc',
    KuduScanner.Open sc cluster_ = (Status.OK, sc', cluster_) /\
    KuduScanner.HasMoreRows sc' = false /\
    scanner_id (KuduScanner.last_response_ sc') = None /\
    (KuduScanner.Close sc' cluster_).2 = cluster_ /\
    KuduScanner.open_ (KuduScanner.Close sc' cluster_).1 = false.
Proof.
  intros sc.
  exact (scan_of_nothing sc cluster_ tablet_id_ (Tablet.empty schema_)
           eq_refl eq_refl eq_refl eq_refl).
Defined.

Lemma scans_count_the_stored_rows_witness :
  let tb := default (Tablet.empty schema_) (tablets (Cluster.tserver ten_rows) !! tablet_id_) in
  size (Tablet.rows tb) = 10%nat /\
  (exists cl', CountRowsFromClient 12 client_table_ ten_rows
               = Some (inr (Z.of_nat (size (Tablet.rows tb)), cl'))) /\
  ScanEmptyProjection 12 0 ten_rows
  = Some (if (size (Tablet.rows tb) =? 0)%nat then inl NoMoreRows
          else inr (Z.of_nat (size (Tablet.rows tb)))).
Proof.
  intros tb.
  assert (Hn : size (Tablet.rows tb) = 10%nat) by (vm_compute; reflexivity).
  split; [exact Hn|].
  apply (scans_count_the_stored_rows 12 0 client_table_ ten_rows tablet_id_ tablet_id_ tb tb);
    try reflexivity; rewrite Hn; vm_compute; first [reflexivity | lia].
Defined.

Lemma string_predicate_scan_never_fails_witness :
  let cl := default cluster_ (InsertTestRows 40 cluster_) in
  let tb := default (Tablet.empty schema_) (tablets (Cluster.tserver cl) !! tablet_id_) in
  DoTestScanWithStringPredicate 42 100 cl = Some (inr tt) /\
  length (Tablet.scan_rows tb schema_ [string_predicate]) = 12%nat.
Proof.
  intros cl tb.
  split; [|vm_compute; reflexivity].
  rewrite (string_predicate_scan_never_fails 42 100 cl tablet_id_ tb
             eq_refl eq_refl eq_refl eq_refl).
  - vm_compute. reflexivity.
  - vm_compute. lia.
Defined.

(** What the loop of [InsertTestRows] leaves under each key. *)
Lemma insert_rows_lookup n : forall i tb tb',
  Tablet.schema tb = schema_ ->
  0 <= i -> i + Z.of_nat n <= 2 ^ 32 ->
  insert_rows n i tb = Some tb' ->
  forall k, Tablet.rows tb' !! [UInt32 k]
            = if (i <=? k) && (k <? i + Z.of_nat n) then Some (BuildTestRow k)
              else Tablet.rows tb !! [UInt32 k].
Proof.
  induction n as [|n IH]; intros i tb tb' Hs Hi Hn.
  - cbn [insert_rows]. intros [= <-] k.
    destruct (Z.leb_spec i k), (Z.ltb_spec k (i + Z.of_nat 0)); cbn; first [reflexivity | lia].
  - cbn [insert_rows]. unfold Tablet.Insert. rewrite Hs.
    change (Tablet.key_of_cells (num_key_columns schema_) (BuildTestRow i))
      with [UInt32 (to_uint32 i)].
    rewrite ScannerFacts.to_uint32_small by lia.
    destruct (Tablet.rows tb !! [UInt32 i]) eqn:Hfree;
      cbn [Status.ok Status.OK Status.AlreadyPresent Status.code Status.code_eqb];
      [discriminate|].
    intros Hins k.
    pose proof (fun H1 H2 H3 => IH (i + 1) _ tb' H1 H2 H3 Hins k) as E.
    rewrite E by first [reflexivity | lia]. cbn [Tablet.rows].
    destruct (Z.eq_dec k i) as [->|Hne].
    + rewrite lookup_insert_eq.
      destruct (Z.leb_spec (i + 1) i), (Z.leb_spec i i), (Z.ltb_spec i (i + Z.of_nat (S n)));
        cbn; first [reflexivity | lia].
    + rewrite lookup_insert_ne by congruence.
      destruct (Z.leb_spec (i + 1) k), (Z.leb_spec i k),
        (Z.ltb_spec k (i + 1 + Z.of_nat n)), (Z.ltb_spec k (i + Z.of_nat (S n)));
        cbn; first [reflexivity | lia].
Qed.

(** X13: [InsertTestRows(N)] on the empty test tablet, for [N] in the range
    of a C++ [int]: no [CHECK_OK] trips, the tablet holds exactly [N]
    rows afterwards, and under key [k] the row [(k, 2k, "hello k")].
    Calling it again on the tablet it filled trips the [CHECK_OK] of
    line 92 on the first row. *)
Theorem InsertTestRows_fills (N : Z) (cl : Cluster.t) :
  0 <= N < 2 ^ 31 ->
  tablets (Cluster.tserver cl) !! tablet_id_ = Some (Tablet.empty schema_) ->
  exists cl1 tb',
    InsertTestRows N cl = Some cl1 /\
    tablets (Cluster.tserver cl1) !! tablet_id_ = Some tb' /\
    Tablet.schema tb' = schema_ /\
    size (Tablet.rows tb') = Z.to_nat N /\
    (forall k, 0 <= k < N ->
       Tablet.rows tb' !! [UInt32 k]
       = Some [Some (UInt32 k); Some (UInt32 (2 * k)); Some (Str ("hello " +:+ itoa k))]) /\
    (forall M, 0 < N -> 0 < M -> InsertTestRows M cl1 = None).
Proof.
  intros HN Htb.
  destruct (ScannerFacts.insert_rows_fresh (Z.to_nat N) 0 (Tablet.empty schema_))
    as (tb' & Hins & Hs' & Hp); [reflexivity|lia|lia|intros; apply lookup_empty|].
  pose proof (fun H1 H2 H3 => insert_rows_lookup (Z.to_nat N) 0 _ tb' H1 H2 H3 Hins) as Hl.
  specialize (Hl eq_refl ltac:(lia) ltac:(lia)).
  exists (Cluster.with_tserver (with_tablet tablet_id_ tb' (Cluster.tserver cl)) cl), tb'.
  split; [unfold InsertTestRows; rewrite Htb; cbn [mbind option_bind]; rewrite Hins;
          reflexivity|].
  split; [cbn; apply lookup_insert_eq|]. split; [exact Hs'|]. split; [|split].
  - rewrite <- length_map_to_list, <- (length_fmap snd).
    change ((map_to_list (Tablet.rows tb')).*2) with (Tablet.stored_rows tb').
    rewrite Hp. unfold Tablet.stored_rows at 1. cbn [Tablet.empty Tablet.rows].
    rewrite map_to_list_empty, app_nil_r. clear. generalize 0.
    induction (Z.to_nat N) as [|n IH]; intros i; simpl; [reflexivity|]. rewrite IH. reflexivity.
  - intros k Hk. rewrite Hl.
    destruct (Z.leb_spec 0 k), (Z.ltb_spec k (0 + Z.of_nat (Z.to_nat N))); try lia.
    cbn [andb]. unfold BuildTestRow.
    rewrite !ScannerFacts.to_uint32_small by lia.
    replace (k * 2) with (2 * k) by lia. reflexivity.
  - intros M HN0 HM. unfold InsertTestRows. cbn [Cluster.tserver Cluster.with_tserver
      tablets with_tablet]. rewrite lookup_insert_eq. cbn [mbind option_bind].
    destruct (Z.to_nat M) as [|m] eqn:Em; [lia|].
    cbn [insert_rows]. unfold Tablet.Insert. rewrite Hs'.
    change (Tablet.key_of_cells (num_key_columns schema_) (BuildTestRow 0))
      with [UInt32 0].
    rewrite (Hl 0).
    destruct (Z.leb_spec 0 0), (Z.ltb_spec 0 (0 + Z.of_nat (Z.to_nat N))); try lia.
    reflexivity.
Qed.

Lemma InsertTestRows_fills_witness :
  exists cl1 tb',
    InsertTestRows 10 cluster_ = Some cl1 /\
    tablets (Cluster.tserver cl1) !! tablet_id_ = Some tb' /\
    Tablet.schema tb' = schema_ /\
    size (Tablet.rows tb') = 10%nat /\
    (forall k, 0 <= k < 10 ->
       Tablet.rows tb' !! [UInt32 k]
       = Some [Some (UInt32 k); Some (UInt32 (2 * k)); Some (Str ("hello " +:+ itoa k))]) /\
    (forall M, 0 < 10 -> 0 < M -> InsertTestRows M cl1 = None).
Proof.
  exact (InsertTestRows_fills 10 cluster_ ltac:(lia) eq_refl).
Defined.

End ScanLoopFacts.

(** * More of the write session *)

Module SessionMoreFacts.
Import ErrorCollector Client SessionFacts ClientTest ClientTestMore.

Lemma with_sessions_same c : with_sessions (sessions c) c = c.
Proof. destruct c. reflexivity. Qed.

Lemma update_session_id sid f c s :
  sessions c !! sid = Some s -> f s = s -> update_session sid f c = c.
Proof.
  intros Hs Hf. unfold update_session.
  rewrite (alter_id f (sessions c) sid) by (intros x Hx; congruence).
  apply with_sessions_same.
Qed.

(** X14: [TestEmptyBatch], lines 427-432: flushing a session that has
    nothing buffered is a no-op.  [Flush] returns OK and the client and the
    cluster are as they were, whatever the state of the master and of the
    tablet server: nothing is resolved, nothing is sent. *)
Theorem Flush_of_empty_buffer sid s c cl :
  sessions c !! sid = Some s ->
  buffer s = [] ->
  Flush sid c cl = (Status.OK, c, cl).
Proof.
  intros Hs Hb. unfold Flush, flush_round, FlushAsync. rewrite Hs, Hb.
  cbn [route is_nil negb aggregate invoke].
  unfold report.
  assert (E1 : update_session sid (set_buffer []) c = c)
    by (apply (update_session_id sid _ c s Hs); destruct s; cbn in Hb; subst; reflexivity).
  rewrite E1.
  rewrite (update_session_id sid _ c s Hs (add_errors_nil s)). reflexivity.
Qed.

Lemma Flush_of_empty_buffer_witness :
  let sid := manual_session.1 in
  let c := manual_session.2 in
  Flush sid c cluster_ = (Status.OK, c, cluster_) /\
  Flush sid c (Cluster.ShutdownMaster (Cluster.ShutdownTabletServer cluster_))
  = (Status.OK, c, Cluster.ShutdownMaster (Cluster.ShutdownTabletServer cluster_)).
Proof.
  intros sid c.
  split; apply (Flush_of_empty_buffer sid
                  {| flush_mode := MANUAL_FLUSH; buffer := [];
                     error_collector := ErrorCollector.new 1000 |}); reflexivity.
Defined.

(** X15: After [Flush] nothing is buffered, whether the round had errors or
    not (lines 387-388), and after [FlushAsync] nothing is buffered at once,
    before any write is answered (lines 361-362): the operations of a round
    are never put back into the buffer. *)
Theorem Flush_empties_buffer sid s cb c cl :
  sessions c !! sid = Some s ->
  (CountBufferedOperations sid (Flush sid c cl).1.2 = 0%nat /\
   HasPendingOperations sid (Flush sid c cl).1.2 = false) /\
  (CountBufferedOperations sid (FlushAsync sid cb c cl).2 = 0%nat /\
   HasPendingOperations sid (FlushAsync sid cb c cl).2 = false).
Proof.
  intros Hs.
  assert (H1 : CountBufferedOperations sid (Flush sid c cl).1.2 = 0%nat).
  { destruct (route (buffer s) c cl [] []) as [[bs es0] c1] eqn:Hr.
    destruct (write_all bs cl) as [esw cl'] eqn:Hw.
    destruct (flush_round_spec sid s c cl bs es0 c1 esw cl' Hs Hr Hw) as (c' & Hf & Hs' & _).
    rewrite (Flush_flush_round _ _ _ _ _ _ _ Hf). cbn [fst snd].
    unfold CountBufferedOperations. rewrite Hs'. reflexivity. }
  assert (H2 : CountBufferedOperations sid (FlushAsync sid cb c cl).2 = 0%nat).
  { unfold FlushAsync. rewrite Hs.
    destruct (route (buffer s) c cl [] []) as [[bs es0] c1] eqn:Hr.
    destruct (route_cache_only _ _ _ _ _ _ _ _ Hr) as (_ & Hss & _).
    assert (E : sessions (report sid es0 (update_session sid (set_buffer []) c1)) !! sid
                = Some (add_errors es0 (set_buffer [] s)))
      by (proj; rewrite !lookup_alter_eq, Hss, Hs; reflexivity).
    unfold CountBufferedOperations.
    destruct bs as [|b0 bs']; cbn [snd fresh]; [destruct cb|]; proj; rewrite E; reflexivity. }
  unfold HasPendingOperations. rewrite H1, H2. repeat split.
Qed.

Lemma Flush_empties_buffer_witness :
  let sid := partial_error_round.1.1 in
  let c := partial_error_round.1.2 in
  let cl := partial_error_round.2 in
  CountBufferedOperations sid c = 2%nat /\
  (CountBufferedOperations sid (Flush sid c cl).1.2 = 0%nat /\
   HasPendingOperations sid (Flush sid c cl).1.2 = false) /\
  (CountBufferedOperations sid (FlushAsync sid (Some 7%nat) c cl).2 = 0%nat /\
   HasPendingOperations sid (FlushAsync sid (Some 7%nat) c cl).2 = false).
Proof.
  intros sid c cl. split; [reflexivity|].
  exact (Flush_empties_buffer sid
           {| flush_mode := MANUAL_FLUSH;
              buffer := [test_insert client_table_ 1 1 "Attempted dup";
                         test_insert client_table_ 2 1 "Should succeed"];
              error_collector := ErrorCollector.new 1000 |} (Some 7%nat) c cl eq_refl).
Defined.

(** X16: [TestWriteWithBadSchema], lines 488-520: a write whose row names a
    column the tablet does not have.  [Apply] has accepted it (the schema
    is not checked on the client); the server rejects the row, so [Flush]
    fails with the aggregate error, the one error record carries
    [InvalidArgument] with the names of the missing columns, and the tablet
    is as it was. *)
Theorem Flush_rejects_unknown_columns sid s op c cl tablet tb m ms :
  sessions c !! sid = Some s ->
  buffer s = [op] ->
  errors (error_collector s) = [] ->
  overflowed (error_collector s) = false ->
  (0 < capacity (error_collector s))%nat ->
  resolves (KuduTable.name (WriteOp.table op)) tablet c cl ->
  TServer.running (Cluster.tserver cl) = true ->
  TServer.tablets (Cluster.tserver cl) !! tablet = Some tb ->
  Tablet.missing_columns tb (WriteOp.row op) = m :: ms ->
  let e := Status.InvalidArgument
             ("Some columns are not present in the current schema: "
                +:+ String.concat ", " (m :: ms)) in
  exists c' cl',
    Flush sid c cl = (Status.IOError "Some errors occurred", c', cl') /\
    CountPendingErrors sid c' = 1%nat /\
    (GetPendingErrors sid c').1 = ([{| failed_op := op; status := e |}], false) /\
    TServer.tablets (Cluster.tserver cl') !! tablet = Some tb.
Proof.
  intros Hs Hb He Ho Hc Hr Hrun Htb Hm e.
  assert (HW : TServer.Write tablet (map WriteOp.to_row_op [op]) (Cluster.tserver cl)
               = (inr [e], TServer.with_tablet tablet tb (Cluster.tserver cl))).
  { unfold TServer.Write. rewrite Hrun, Htb. cbn [map Tablet.apply_batch].
    unfold Tablet.apply_op. cbn [Tablet.row WriteOp.to_row_op]. rewrite Hm. reflexivity. }
  destruct (route_one_table_start _ tablet op [] c cl Hr) as (c1 & Hrt);
    [repeat constructor|].
  assert (Hrt' : route (buffer s) c cl [] [] = ([(tablet, [op])], [], c1))
    by (rewrite Hb; exact Hrt).
  destruct (flush_round_spec sid s c cl _ _ _
              [{| failed_op := op; status := e |}]
              (Cluster.with_tserver (TServer.with_tablet tablet tb (Cluster.tserver cl)) cl)
              Hs Hrt')
    as (c' & Hf & Hs' & _).
  { unfold write_all. cbv zeta. rewrite HW. reflexivity. }
  destruct (AddErrors_one {| failed_op := op; status := e |} (error_collector s) He Ho Hc)
    as [E1 E2].
  destruct (pending_errors sid c' _ Hs') as [P1 P2].
  exists c', (Cluster.with_tserver (TServer.with_tablet tablet tb (Cluster.tserver cl)) cl).
  split; [apply (Flush_flush_round _ _ _ _ _ _ _ Hf)|].
  split; [rewrite P1; cbn -[AddErrors]; rewrite E1; reflexivity|].
  split; [rewrite P2; cbn -[AddErrors]; rewrite E1, E2; reflexivity|].
  cbn. apply lookup_insert_eq.
Qed.

Lemma Flush_rejects_unknown_columns_witness :
  let sid := bad_schema_round.1.1 in
  let c := bad_schema_round.1.2 in
  let cl := bad_schema_round.2 in
  let e := Status.InvalidArgument "Some columns are not present in the current schema: bad_col" in
  Status.ToString e
  = "Invalid argument: Some columns are not present in the current schema: bad_col" /\
  WriteOp.ToString bad_insert = "INSERT uint32 key=12345, uint32 bad_col=12345" /\
  exists c' cl',
    Flush sid c cl = (Status.IOError "Some errors occurred", c', cl') /\
    CountPendingErrors sid c' = 1%nat /\
    (GetPendingErrors sid c').1 = ([{| failed_op := bad_insert; status := e |}], false) /\
    TServer.tablets (Cluster.tserver cl') !! tablet_id_ = Some (Tablet.empty schema_).
Proof.
  intros sid c cl e. split; [reflexivity|]. split; [reflexivity|].
  refine (Flush_rejects_unknown_columns sid
            {| flush_mode := MANUAL_FLUSH; buffer := [bad_insert];
               error_collector := ErrorCollector.new 1000 |}
            bad_insert c cl tablet_id_ (Tablet.empty schema_) "bad_col" []
            eq_refl eq_refl eq_refl eq_refl _ _ eq_refl eq_refl eq_refl).
  - simpl. lia.
  - right. split; reflexivity.
Defined.

(** A setter leaves the schema of the row alone, and a setter that fails
    leaves the row alone. *)
Lemma set_cell_schema name v r :
  PartialRow.schema (PartialRow.set_cell name v r).2 = PartialRow.schema r.
Proof.
  unfold PartialRow.set_cell.
  destruct (Schema.find_column _ name) as [i|]; [|reflexivity].
  destruct (Schema.columns _ !! i) as [col|]; [|reflexivity].
  destruct (bool_decide _); reflexivity.
Qed.

Lemma set_cell_no_column name v r :
  Schema.find_column (PartialRow.schema r) name = None ->
  Status.ok (PartialRow.set_cell name v r).1 = false.
Proof. intros H. unfold PartialRow.set_cell. rewrite H. reflexivity. Qed.

(** X17: [ApplyInsertToSession], lines 332-342.  On a table with the test's
    schema and a session in manual flush mode the three setters succeed and
    [Apply] buffers the insert, whose description is what the tests
    compare against.  On a table whose schema lacks one of the three
    columns a [RETURN_NOT_OK] leaves the function before [Apply]: the
    status is not OK and the client and the cluster are as they were. *)
Theorem ApplyInsertToSession_applies sid s table row_key int_val string_val c cl :
  sessions c !! sid = Some s ->
  (flush_mode s = MANUAL_FLUSH ->
   KuduTable.schema table = schema_ ->
   let op := test_insert table row_key int_val string_val in
   ApplyInsertToSession sid table row_key int_val string_val c cl
   = (Status.OK, update_session sid (set_buffer (buffer s ++ [op])) c, cl) /\
   WriteOp.ToString op
   = "INSERT uint32 key=" +:+ itoa (Schema.to_uint32 row_key)
       +:+ ", uint32 int_val=" +:+ itoa (Schema.to_uint32 int_val)
       +:+ ", string string_val=" +:+ string_val) /\
  (Schema.find_column (KuduTable.schema table) "key" = None \/
   Schema.find_column (KuduTable.schema table) "int_val" = None \/
   Schema.find_column (KuduTable.schema table) "string_val" = None ->
   exists st, ApplyInsertToSession sid table row_key int_val string_val c cl = (st, c, cl) /\
              Status.ok st = false).
Proof.
  intros Hs. split.
  - intros Hm Hsch op. destruct table as [name sch]. cbn in Hsch. subst sch. split.
    + unfold ApplyInsertToSession.
      change (WriteOp.mutable_row (PartialRow.SetUInt32 "key" row_key)
                (WriteOp.NewInsert {| KuduTable.name := name; KuduTable.schema := schema_ |}))
        with (Status.OK,
              (WriteOp.mutable_row (PartialRow.SetUInt32 "key" row_key)
                 (WriteOp.NewInsert {| KuduTable.name := name;
                                       KuduTable.schema := schema_ |})).2).
      cbv beta iota. cbn [Status.ok Status.OK Status.code Status.code_eqb negb].
      match goal with
      | |- context [WriteOp.mutable_row (PartialRow.SetUInt32 "int_val" int_val) ?i] =>
          change (WriteOp.mutable_row (PartialRow.SetUInt32 "int_val" int_val) i)
            with (Status.OK, (WriteOp.mutable_row (PartialRow.SetUInt32 "int_val" int_val) i).2)
      end.
      cbv beta iota. cbn [Status.ok Status.OK Status.code Status.code_eqb negb].
      match goal with
      | |- context [WriteOp.mutable_row (PartialRow.SetStringCopy "string_val" string_val) ?i] =>
          change (WriteOp.mutable_row (PartialRow.SetStringCopy "string_val" string_val) i)
            with (Status.OK,
                  (WriteOp.mutable_row (PartialRow.SetStringCopy "string_val" string_val) i).2)
      end.
      cbv beta iota. cbn [Status.ok Status.OK Status.code Status.code_eqb negb].
      fold (test_insert {| KuduTable.name := name; KuduTable.schema := schema_ |}
              row_key int_val string_val). fold op.
      unfold Apply. rewrite Hs.
      change (PartialRow.IsKeySet (WriteOp.row op)) with true.
      cbn [negb]. rewrite Hm. reflexivity.
    + reflexivity.
  - intros Hmiss. unfold ApplyInsertToSession.
    unfold WriteOp.mutable_row. unfold PartialRow.SetUInt32, PartialRow.SetStringCopy.
    cbn [WriteOp.row WriteOp.NewInsert WriteOp.table WriteOp.kind].
    set (r0 := PartialRow.new (KuduTable.schema table)).
    pose proof (set_cell_schema "key" (Schema.UInt32 (Schema.to_uint32 row_key)) r0) as S1.
    destruct (PartialRow.set_cell "key" _ r0) as [s1 r1] eqn:E1. cbn [snd] in S1.
    destruct (Status.ok s1) eqn:Hok1; cbn [negb]; [|eauto].
    cbn [WriteOp.row].
    pose proof (set_cell_schema "int_val" (Schema.UInt32 (Schema.to_uint32 int_val)) r1) as S2.
    destruct (PartialRow.set_cell "int_val" _ r1) as [s2 r2] eqn:E2. cbn [snd] in S2.
    destruct (Status.ok s2) eqn:Hok2; cbn [negb]; [|eauto].
    cbn [WriteOp.row].
    destruct (PartialRow.set_cell "string_val" _ r2) as [s3 r3] eqn:E3.
    destruct (Status.ok s3) eqn:Hok3; cbn [negb]; [|eauto].
    exfalso. destruct Hmiss as [H|[H|H]].
    + pose proof (set_cell_no_column "key" (Schema.UInt32 (Schema.to_uint32 row_key)) r0 H) as F.
      rewrite E1 in F. cbn in F. congruence.
    + change (KuduTable.schema table) with (PartialRow.schema r0) in H. rewrite <- S1 in H.
      pose proof (set_cell_no_column "int_val" (Schema.UInt32 (Schema.to_uint32 int_val)) r1 H)
        as F.
      rewrite E2 in F. cbn in F. congruence.
    + change (KuduTable.schema table) with (PartialRow.schema r0) in H.
      rewrite <- S1, <- S2 in H.
      pose proof (set_cell_no_column "string_val" (Schema.Str string_val) r2 H) as F.
      rewrite E3 in F. cbn in F. congruence.
Qed.

Lemma ApplyInsertToSession_applies_witness :
  (let sid := manual_session.1 in
   let c := manual_session.2 in
   let op := test_insert client_table_ 1 1 "x" in
   ApplyInsertToSession sid client_table_ 1 1 "x" c cluster_
   = (Status.OK, update_session sid (set_buffer [op]) c, cluster_) /\
   WriteOp.ToString op = "INSERT uint32 key=1, uint32 int_val=1, string string_val=x") /\
  (let sid := manual_session.1 in
   let c := manual_session.2 in
   exists st, ApplyInsertToSession sid bad_table 1 1 "x" c cluster_ = (st, c, cluster_) /\
              Status.ok st = false).
Proof.
  split; intros sid c.
  - exact (proj1 (ApplyInsertToSession_applies sid
                    {| flush_mode := MANUAL_FLUSH; buffer := [];
                       error_collector := ErrorCollector.new 1000 |}
                    client_table_ 1 1 "x" c cluster_ eq_refl) eq_refl eq_refl).
  - exact (proj2 (ApplyInsertToSession_applies sid
                    {| flush_mode := MANUAL_FLUSH; buffer := [];
                       error_collector := ErrorCollector.new 1000 |}
                    bad_table 1 1 "x" c cluster_ eq_refl) (or_intror (or_introl eq_refl))).
Defined.

(** X18: The last step of [TestInsertSingleRowManualBatch], line 329: a
    round of one insert whose key the tablet does not hold.  [Flush]
    returns OK, the error collector is as it was, and the tablet holds the
    row under its key afterwards, besides the rows it had. *)
Theorem Flush_stores_fresh_insert sid s op c cl tablet tb :
  sessions c !! sid = Some s ->
  buffer s = [op] ->
  resolves (KuduTable.name (WriteOp.table op)) tablet c cl ->
  TServer.running (Cluster.tserver cl) = true ->
  TServer.tablets (Cluster.tserver cl) !! tablet = Some tb ->
  WriteOp.kind op = Tablet.INSERT ->
  Tablet.missing_columns tb (WriteOp.row op) = [] ->
  Tablet.rows tb !! Tablet.op_key tb (WriteOp.row op) = None ->
  exists c' cl' tb',
    Flush sid c cl = (Status.OK, c', cl') /\
    sessions c' !! sid = Some (set_buffer [] s) /\
    TServer.tablets (Cluster.tserver cl') !! tablet = Some tb' /\
    Tablet.rows tb'
    = <[Tablet.op_key tb (WriteOp.row op) := Tablet.to_tablet_cells tb (WriteOp.row op)]>
        (Tablet.rows tb) /\
    size (Tablet.rows tb') = S (size (Tablet.rows tb)).
Proof.
  intros Hs Hb Hr Hrun Htb Hk Hm Hfree.
  set (tb' := {| Tablet.schema := Tablet.schema tb;
                 Tablet.rows := <[Tablet.op_key tb (WriteOp.row op)
                                   := Tablet.to_tablet_cells tb (WriteOp.row op)]>
                                  (Tablet.rows tb) |}).
  assert (HW : TServer.Write tablet (map WriteOp.to_row_op [op]) (Cluster.tserver cl)
               = (inr [Status.OK], TServer.with_tablet tablet tb' (Cluster.tserver cl))).
  { unfold TServer.Write. rewrite Hrun, Htb. cbn [map Tablet.apply_batch].
    unfold Tablet.apply_op. cbn [Tablet.row Tablet.kind WriteOp.to_row_op]. rewrite Hm, Hk.
    unfold Tablet.Insert. fold (Tablet.op_key tb (WriteOp.row op)). rewrite Hfree. reflexivity. }
  destruct (route_one_table_start _ tablet op [] c cl Hr) as (c1 & Hrt);
    [repeat constructor|].
  assert (Hrt' : route (buffer s) c cl [] [] = ([(tablet, [op])], [], c1))
    by (rewrite Hb; exact Hrt).
  destruct (flush_round_spec sid s c cl _ _ _ []
              (Cluster.with_tserver (TServer.with_tablet tablet tb' (Cluster.tserver cl)) cl)
              Hs Hrt')
    as (c' & Hf & Hs' & _).
  { unfold write_all. cbv zeta. rewrite HW. reflexivity. }
  exists c', (Cluster.with_tserver (TServer.with_tablet tablet tb' (Cluster.tserver cl)) cl), tb'.
  split; [apply (Flush_flush_round _ _ _ _ _ _ _ Hf)|].
  split; [rewrite Hs'; cbn [app]; rewrite add_errors_nil; reflexivity|].
  split; [cbn; apply lookup_insert_eq|]. split; [reflexivity|].
  subst tb'. cbn [Tablet.rows]. apply map_size_insert_None, Hfree.
Qed.

Lemma Flush_stores_fresh_insert_witness :
  let sid := manual_session.1 in
  let c := (Apply sid insert_with_key manual_session.2 cluster_).1.2 in
  exists c' cl' tb',
    Flush sid c cluster_ = (Status.OK, c', cl') /\
    sessions c' !! sid = Some {| flush_mode := MANUAL_FLUSH; buffer := [];
                                 error_collector := ErrorCollector.new 1000 |} /\
    TServer.tablets (Cluster.tserver cl') !! tablet_id_ = Some tb' /\
    Tablet.rows tb'
    = <[ [Schema.UInt32 12345] := [Some (Schema.UInt32 12345); Some (Schema.UInt32 54321);
                                   Some (Schema.Str "hello world")] ]> ∅ /\
    size (Tablet.rows tb') = 1%nat.
Proof.
  intros sid c.
  refine (Flush_stores_fresh_insert sid
            {| flush_mode := MANUAL_FLUSH; buffer := [insert_with_key];
               error_collector := ErrorCollector.new 1000 |}
            insert_with_key c cluster_ tablet_id_ (Tablet.empty schema_)
            eq_refl eq_refl _ eq_refl eq_refl eq_refl eq_refl eq_refl).
  right. split; reflexivity.
Defined.

End SessionMoreFacts.

(** * Where the operations of a round go *)

Module RoutingFacts.
Import ErrorCollector Client SessionFacts Routing.



















Import ClientTest.


End RoutingFacts.

(** * Writes while a server is down *)

Module DeadServerFacts.
Import Master TableInternal ErrorCollector Client SessionFacts.

Abbreviation refused := (Status.NetworkError "Connection refused").





(** A resolution always ends, whatever the cluster: the passes the
    resolver allows itself are enough for the loop to return. *)
Lemma ResolveLocations_returns o table cl : is_Some (ResolveLocations o table cl).
Proof.
  unfold ResolveLocations, Open. cbn [master_env Now the_clock].
  destruct (OpenLoopFacts.loop_returns master_env (resolver_config o) table
              the_clock (fun _ => True) master_call_time
              ltac:(intros a b H; apply Z.leb_le; lia)
              ltac:(intros w _; cbn; split; [exact I|lia])
              ltac:(intros r w _; split; [exact I|];
                    cbn [master_env GetTableLocations]; unfold master_GetTableLocations;
                    destruct (Cluster.GetTableLocations _ _) as [e|t];
                    [destruct (Status.IsNetworkError e)|]; cbn; unfold MonoTime.AddDelta; lia)
              ltac:(intros w _; split; [exact I|];
                    cbn [master_env SetMasterServerProxy]; unfold master_SetMasterServerProxy;
                    destruct (Cluster.master_running _); cbn;
                    unfold MonoTime.AddDelta, master_call_time, MonoTime.FromMilliseconds; lia)
              ltac:(intros w _; split; [exact I|]; cbn; unfold MonoTime.AddDelta; lia)
              (MonoTime.AddDelta (Cluster.now cl)
                 (default_select_master_timeout_ (resolver_config o)))
              (S (Pos.to_nat (select_master_timeout_ms o)))
              {| resp := empty_response;
                 world := {| the_cluster := cl; the_clock := Cluster.now cl;
                             last_refusal := None |} |}
              (resolver_passes o) I) as [r Hr].
  - cbn [world the_clock resolver_config default_select_master_timeout_].
    unfold master_call_time, MonoTime.AddDelta, MonoTime.FromMilliseconds. lia.
  - unfold resolver_passes. lia.
  - rewrite Hr. eauto.
Qed.

Import ClientTest.



End DeadServerFacts.
